(** * openmodelica-microgrid-gym: the stepping engine of [ModelicaEnv] and the
    controller parameter records, embedded and checked against their
    specification.

    Sources embedded here:
    - [src/openmodelica_microgrid_gym/env/modelica.py] (class [ModelicaEnv]);
    - [src/gym_microgrid/controllers/params.py] (classes [FilterParams],
      [DroopParams]).

    Python floats are kept behind the interface [PyFloat], which has two
    instances: [xQ], the exact extended rationals (a finite value, the two
    infinities, NaN), and [PrimFloat.float], IEEE binary64 as the interpreter computes
    it.  Definitions are written once over the interface; statements that hold
    for every arithmetic are proved over it, statements that need exact
    arithmetic are proved for [xQ], and concrete runs are evaluated in
    binary64. *)

From Stdlib Require Import List String Ascii Bool ZArith QArith Qabs Lia Lqa.
From Stdlib Require PrimFloat Uint63.
From Corelib Require FloatAxioms FloatOps SpecFloat.
Import ListNotations.
Import PrimFloat.PrimFloatNotations.

Set Implicit Arguments.
Set Warnings "-inexact-float".

Local Open Scope string_scope.
Local Open Scope list_scope.

(* ================================================================== *)
(** * Part I: definitions                                              *)
(* ================================================================== *)

(** ** Python values: exceptions and results *)

(** The exceptions the embedded code can raise.  [OtherError] stands for any
    exception coming out of an external collaborator (the ODE solver, the
    history). *)
Inductive exn : Type :=
| ValueError (msg : string)
| TypeError (msg : string)
| ZeroDivisionError (msg : string)
| OtherError (msg : string).

(** The result of running a piece of Python: a value, a raised exception, or
    no result within the given number of loop iterations. *)
Inductive result (A : Type) : Type :=
| Return (a : A)
| Raise (e : exn)
| OutOfFuel.

Arguments Return {A} a.
Arguments Raise {A} e.
Arguments OutOfFuel {A}.

(** ** Floats *)

(** The float operations the sources use. [of_int] is the conversion of a
    Python [int] operand in mixed arithmetic. *)
Class PyFloat (F : Type) : Type := {
  fadd : F -> F -> F;
  fsub : F -> F -> F;
  fmul : F -> F -> F;
  fdiv : F -> F -> F;
  fneg : F -> F;
  fabs : F -> F;
  feqb : F -> F -> bool;
  fltb : F -> F -> bool;
  fisnan : F -> bool;
  fisinf : F -> bool;
  of_int : Z -> F;
  finf : F
}.

(** [a > b] *)
Definition fgtb {F} `{PyFloat F} (a b : F) : bool := fltb b a.

(** [a != b] *)
Definition fneb {F} `{PyFloat F} (a b : F) : bool := negb (feqb a b).

(** *** Exact arithmetic: the extended rationals *)

Inductive xQ : Type :=
| Fin (q : Q)
| PInf
| NInf
| NaN.

Definition Qltb (a b : Q) : bool := negb (Qle_bool b a).

Definition xsign (q : Q) (pos neg zero : xQ) : xQ :=
  if Qltb 0 q then pos else if Qltb q 0 then neg else zero.

Definition xneg (a : xQ) : xQ :=
  match a with
  | Fin q => Fin (- q)
  | PInf => NInf
  | NInf => PInf
  | NaN => NaN
  end.

Definition xadd (a b : xQ) : xQ :=
  match a, b with
  | NaN, _ | _, NaN => NaN
  | Fin p, Fin q => Fin (p + q)
  | PInf, NInf | NInf, PInf => NaN
  | PInf, _ | _, PInf => PInf
  | NInf, _ | _, NInf => NInf
  end.

Definition xsub (a b : xQ) : xQ := xadd a (xneg b).

Definition xmul (a b : xQ) : xQ :=
  match a, b with
  | NaN, _ | _, NaN => NaN
  | Fin p, Fin q => Fin (p * q)
  | PInf, Fin q | Fin q, PInf => xsign q PInf NInf NaN
  | NInf, Fin q | Fin q, NInf => xsign q NInf PInf NaN
  | PInf, PInf | NInf, NInf => PInf
  | PInf, NInf | NInf, PInf => NInf
  end.

Definition xdiv (a b : xQ) : xQ :=
  match a, b with
  | NaN, _ | _, NaN => NaN
  | Fin p, Fin q =>
      if Qeq_bool q 0 then xsign p PInf NInf NaN else Fin (p / q)
  | Fin _, PInf | Fin _, NInf => Fin 0
  | PInf, Fin q => if Qltb q 0 then NInf else PInf
  | NInf, Fin q => if Qltb q 0 then PInf else NInf
  | _, _ => NaN
  end.

Definition xabs (a : xQ) : xQ :=
  match a with
  | Fin q => Fin (Qabs q)
  | PInf | NInf => PInf
  | NaN => NaN
  end.

Definition xeqb (a b : xQ) : bool :=
  match a, b with
  | Fin p, Fin q => Qeq_bool p q
  | PInf, PInf | NInf, NInf => true
  | _, _ => false
  end.

Definition xltb (a b : xQ) : bool :=
  match a, b with
  | NaN, _ | _, NaN => false
  | Fin p, Fin q => Qltb p q
  | NInf, Fin _ | NInf, PInf | Fin _, PInf => true
  | _, _ => false
  end.

Definition xisnan (a : xQ) : bool :=
  match a with NaN => true | _ => false end.

Definition xisinf (a : xQ) : bool :=
  match a with PInf | NInf => true | _ => false end.

#[export] Instance xQ_PyFloat : PyFloat xQ := {
  fadd := xadd; fsub := xsub; fmul := xmul; fdiv := xdiv;
  fneg := xneg; fabs := xabs;
  feqb := xeqb; fltb := xltb;
  fisnan := xisnan; fisinf := xisinf;
  of_int := fun z => Fin (inject_Z z);
  finf := PInf
}.

(** A whole number of step sizes, [n * h]. *)
Definition steps_of (n : nat) (h : Q) : Q := inject_Z (Z.of_nat n) * h.

(** *** IEEE binary64 *)

(** Conversion of a Python [int] of magnitude below [2^63]. *)
Definition float_of_int (z : Z) : PrimFloat.float :=
  if (z <? 0)%Z
  then PrimFloat.opp (PrimFloat.of_uint63 (Uint63.of_Z (- z)))
  else PrimFloat.of_uint63 (Uint63.of_Z z).

#[export] Instance float_PyFloat : PyFloat PrimFloat.float := {
  fadd := PrimFloat.add; fsub := PrimFloat.sub;
  fmul := PrimFloat.mul; fdiv := PrimFloat.div;
  fneg := PrimFloat.opp; fabs := PrimFloat.abs;
  feqb := PrimFloat.eqb; fltb := PrimFloat.ltb;
  fisnan := PrimFloat.is_nan; fisinf := PrimFloat.is_infinity;
  of_int := float_of_int;
  finf := PrimFloat.infinity
}.

(** ** [gym_microgrid/controllers/params.py] *)

Module Params.
Section WithFloat.
Context {F : Type} `{PyFloat F}.

(** A Python number as a property returns it: [int] or [float]. *)
Inductive number : Type :=
| PyInt (z : Z)
| PyFloatV (x : F).

(** [a / b] with an [int] numerator and a [float] denominator: the interpreter
    raises [ZeroDivisionError] when the denominator compares equal to zero. *)
Definition truediv (a : Z) (b : F) : result F :=
  if feqb b (of_int 0)
  then Raise (ZeroDivisionError "float division by zero")
  else Return (fdiv (of_int a) b).

(** [class FilterParams]: the fields hold a float or a [MutableFloat]; both
    read as a float through [float(...)]. *)
Record FilterParams : Type := {
  _gain : F;
  _tau : F
}.

Definition FilterParams_gain (p : FilterParams) : F := _gain p.
Definition FilterParams_tau (p : FilterParams) : F := _tau p.

(** [class DroopParams(FilterParams)] *)
Record DroopParams : Type := {
  base : FilterParams;
  nom_val : F
}.

Definition DroopParams_init (gain tau nom_value : F) : DroopParams :=
  {| base := {| _gain := gain; _tau := tau |}; nom_val := nom_value |}.

(** [DroopParams.gain]:
<<
    if float(self._gain) != 0:
        return 1 / float(self._gain)
    return 0
>> *)
Definition DroopParams_gain (p : DroopParams) : result number :=
  if fneb (_gain (base p)) (of_int 0)
  then match truediv 1 (_gain (base p)) with
       | Return x => Return (PyFloatV x)
       | Raise e => Raise e
       | OutOfFuel => OutOfFuel
       end
  else Return (PyInt 0).

End WithFloat.
Arguments number F : clear implicits.
Arguments FilterParams F : clear implicits.
Arguments DroopParams F : clear implicits.
End Params.

(** ** Regular expressions: [re.fullmatch] and [fnmatch.translate] *)

Module Re.

(** A pattern string is represented by its parse.  [Set_ stuff] is the
    bracket expression [[stuff]]; which characters it contains is the [re]
    module's business and stays a parameter ([in_class]) of the matcher. *)
Inductive regex : Type :=
| Void                   (* matches nothing; only arises while matching *)
| Eps                    (* the empty pattern *)
| Chr (c : ascii)        (* an escaped literal character *)
| Dot                    (* [.]: any character but a newline *)
| AnyChar                (* [.] under the flag [(?s)] *)
| Set_ (stuff : string)  (* [[stuff]] *)
| EndZ                   (* [\Z] *)
| Seq (r s : regex)
| Alt (r s : regex)
| Star (r : regex).

Section Matcher.
Variable in_class : string -> ascii -> bool.

(** Can [r] match the empty string at this position?  [at_end] tells whether
    the position is the end of the subject, which is what [\Z] asks for. *)
Fixpoint nullable (at_end : bool) (r : regex) : bool :=
  match r with
  | Void | Chr _ | Dot | AnyChar | Set_ _ => false
  | Eps => true
  | EndZ => at_end
  | Seq r s => nullable at_end r && nullable at_end s
  | Alt r s => nullable at_end r || nullable at_end s
  | Star _ => true
  end.

Definition newline : ascii := ascii_of_nat 10.

(** What is left of [r] once it has consumed the character [c]. *)
Fixpoint deriv (c : ascii) (r : regex) : regex :=
  match r with
  | Void | Eps | EndZ => Void
  | Chr a => if Ascii.eqb a c then Eps else Void
  | Dot => if Ascii.eqb c newline then Void else Eps
  | AnyChar => Eps
  | Set_ stuff => if in_class stuff c then Eps else Void
  | Seq r s =>
      Alt (Seq (deriv c r) s) (if nullable false r then deriv c s else Void)
  | Alt r s => Alt (deriv c r) (deriv c s)
  | Star r => Seq (deriv c r) (Star r)
  end.

(** [re.fullmatch(r, s)], read as a truth value. *)
Fixpoint fullmatch (r : regex) (s : string) : bool :=
  match s with
  | EmptyString => nullable true r
  | String c s' => fullmatch (deriv c r) s'
  end.

End Matcher.

(** A reading of bracket expressions that knows no ranges and no escapes:
    the characters listed, or all others after a leading ['!']. *)
Fixpoint mem (c : ascii) (s : string) : bool :=
  match s with
  | EmptyString => false
  | String a s' => Ascii.eqb a c || mem c s'
  end.

Definition listed_class (stuff : string) (c : ascii) : bool :=
  match stuff with
  | String "!" rest => negb (mem c rest)
  | _ => mem c stuff
  end.

(** ['|'.join(patterns)] *)
Fixpoint join (patterns : list regex) : regex :=
  match patterns with
  | [] => Eps
  | [r] => r
  | r :: rs => Alt r (join rs)
  end.

(** *** [fnmatch.translate] *)

(** The text up to the next [']'], and what follows that bracket. *)
Fixpoint until_close (s : string) : option (string * string) :=
  match s with
  | EmptyString => None
  | String c s' =>
      if Ascii.eqb c "]" then Some (EmptyString, s')
      else match until_close s' with
           | Some (stuff, rest) => Some (String c stuff, rest)
           | None => None
           end
  end.

(** [s] follows an opening bracket: the content of the bracket expression
    (a leading ['!'] and a [']'] right after it belong to the content), when
    a closing bracket exists. *)
Definition bracket (s : string) : option string :=
  let '(bang, s1) :=
    match s with
    | String "!" t => ("!", t)
    | _ => ("", s)
    end in
  let '(rb, s2) :=
    match s1 with
    | String "]" t => ("]", t)
    | _ => ("", s1)
    end in
  match until_close s2 with
  | Some (stuff, _) => Some (String.append bang (String.append rb stuff))
  | None => None
  end.

(** The loop of [translate] over the pattern. [skip] counts the characters
    ahead that belong to a bracket expression already translated. *)
Fixpoint translate_loop (skip : nat) (pat : string) : regex :=
  match pat with
  | EmptyString => Eps
  | String c rest =>
      match skip with
      | S n => translate_loop n rest
      | O =>
          if Ascii.eqb c "*" then Seq (Star AnyChar) (translate_loop 0 rest)
          else if Ascii.eqb c "?" then Seq AnyChar (translate_loop 0 rest)
          else if Ascii.eqb c "[" then
            match bracket rest with
            | None => Seq (Chr "[") (translate_loop 0 rest)
            | Some stuff =>
                Seq (Set_ stuff) (translate_loop (S (String.length stuff)) rest)
            end
          else Seq (Chr c) (translate_loop 0 rest)
      end
  end.

(** [translate(pat)] returns [(?s:res)\Z]. *)
Definition translate (pat : string) : regex :=
  Seq (translate_loop 0 pat) EndZ.

(** *** What a pattern matches *)

Section Semantics.
Variable in_class : string -> ascii -> bool.

(** [matches r s rest]: the pattern [r] matches the text [s] at a position
    of the subject where [rest] is what follows [s].  [\Z] matches the empty
    text where nothing follows. *)
Inductive matches : regex -> string -> string -> Prop :=
| M_Eps rest : matches Eps "" rest
| M_Chr c rest : matches (Chr c) (String c "") rest
| M_Dot c rest :
    Ascii.eqb c newline = false -> matches Dot (String c "") rest
| M_AnyChar c rest : matches AnyChar (String c "") rest
| M_Set stuff c rest :
    in_class stuff c = true -> matches (Set_ stuff) (String c "") rest
| M_EndZ : matches EndZ "" ""
| M_Seq r1 r2 s1 s2 rest :
    matches r1 s1 (String.append s2 rest) ->
    matches r2 s2 rest ->
    matches (Seq r1 r2) (String.append s1 s2) rest
| M_AltL r1 r2 s rest : matches r1 s rest -> matches (Alt r1 r2) s rest
| M_AltR r1 r2 s rest : matches r2 s rest -> matches (Alt r1 r2) s rest
| M_Star0 r rest : matches (Star r) "" rest
| M_StarS r c s1 s2 rest :
    matches r (String c s1) (String.append s2 rest) ->
    matches (Star r) s2 rest ->
    matches (Star r) (String c (String.append s1 s2)) rest.

End Semantics.

(** Is the text empty? *)
Definition is_nil (s : string) : bool :=
  match s with
  | EmptyString => true
  | String _ _ => false
  end.

(** The characters [translate] gives a meaning of their own. *)
Definition special (c : ascii) : bool :=
  Ascii.eqb c "*" || Ascii.eqb c "?" || Ascii.eqb c "[".

(** A pattern without an opening bracket. *)
Fixpoint bracket_free (pat : string) : bool :=
  match pat with
  | EmptyString => true
  | String c rest => negb (Ascii.eqb c "[") && bracket_free rest
  end.

(** A pattern of ordinary characters only. *)
Fixpoint plain (pat : string) : bool :=
  match pat with
  | EmptyString => true
  | String c rest => negb (special c) && plain rest
  end.

(** The shell's reading of a pattern without brackets: a star stands for any
    run of characters, a question mark for one character, every other
    character for itself. *)
Fixpoint wild (pat : string) (s : string) : Prop :=
  match pat with
  | EmptyString => s = ""
  | String c rest =>
      if Ascii.eqb c "*" then
        exists pre suf, s = String.append pre suf /\ wild rest suf
      else if Ascii.eqb c "?" then
        exists a s', s = String a s' /\ wild rest s'
      else
        exists s', s = String c s' /\ wild rest s'
  end.

(** [s.endswith(suffix)] *)
Fixpoint endswith (s suffix : string) : bool :=
  String.eqb s suffix ||
  match s with
  | EmptyString => false
  | String _ s' => endswith s' suffix
  end.

End Re.

(** ** [openmodelica_microgrid_gym/env/modelica.py] *)

Module Modelica.

(** *** Logging: the calls made on the module's [logger] *)

Inductive level : Type := DEBUG | INFO | WARNING | ERROR.

Record LogRecord : Type := Log { lvl : level; msg : string }.

(** *** The monad of methods: state, log and exceptions *)

(** A method maps the object before the call to its result, the object after
    the call (also when it raises) and the log records it emitted. *)
Definition M (St A : Type) : Type :=
  St -> result A * St * list LogRecord.

Definition ret {St A} (a : A) : M St A := fun e => (Return a, e, []).

Definition bind {St A B} (m : M St A) (f : A -> M St B) : M St B :=
  fun e =>
    match m e with
    | (Return a, e1, l1) =>
        match f a e1 with
        | (r, e2, l2) => (r, e2, l1 ++ l2)
        end
    | (Raise x, e1, l1) => (Raise x, e1, l1)
    | (OutOfFuel, e1, l1) => (OutOfFuel, e1, l1)
    end.

Definition raise {St A} (x : exn) : M St A := fun e => (Raise x, e, []).
Definition out_of_fuel {St A} : M St A := fun e => (OutOfFuel, e, []).
Definition gets {St A} (f : St -> A) : M St A :=
  fun e => (Return (f e), e, []).
Definition modify {St} (f : St -> St) : M St unit :=
  fun e => (Return tt, f e, []).
Definition log {St} (l : level) (s : string) : M St unit :=
  fun e => (Return tt, e, [Log l s]).

Notation "x <- m ;; k" := (bind m (fun x => k))
  (at level 61, m at next level, right associativity).
Notation "m ;; k" := (bind m (fun _ => k))
  (at level 61, right associativity).

(** *** External collaborators *)

(** The [pyfmi] model object ([FMUModelME2]), by the methods the
    environment calls on it. A method that mutates the object returns the
    object after the call. [newDiscreteStatesNeeded] reads
    [get_event_info().newDiscreteStatesNeeded]. *)
Class FMUModelME2 (F FMU : Type) : Type := {
  fmu_reset : FMU -> FMU;
  setup_experiment : F -> FMU -> FMU;
  enter_initialization_mode : FMU -> FMU;
  exit_initialization_mode : FMU -> FMU;
  newDiscreteStatesNeeded : FMU -> bool;
  enter_event_mode : FMU -> FMU;
  event_update : FMU -> FMU;
  enter_continuous_time_mode : FMU -> FMU;
  get_variable_valueref : string -> FMU -> nat;
  get_states_list : FMU -> list nat;
  get_derivatives_list : FMU -> list nat;
  set_time : F -> FMU -> FMU;
  continuous_states : FMU -> list F;
  set_continuous_states : list F -> FMU -> FMU;
  get_derivatives : FMU -> list F;
  get_real : list nat -> FMU -> list F;
  fmu_set : list string -> list F -> FMU -> FMU
}.

(** What a call of the solver comes to: the last column [sol_out.y[:, -1]]
    of the solution it returned (converged or not), or the exception it
    raised. *)
Inductive solution (F : Type) : Type :=
| Solved (y_last : list F)
| Failed (x : exn).

Arguments Solved {F} y_last.
Arguments Failed {F} x.

(** [scipy.integrate.solve_ivp(fun, t_span, y0, method, jac)]: the callbacks
    work on the model object, so the solver maps the model before the call to
    what the call comes to and the model after it. *)
Class Scipy (F FMU : Type) : Type := {
  solve_ivp :
    (F -> list F -> FMU -> list F * FMU) ->
    F * F -> list F -> string ->
    (F -> list F -> FMU -> list (list F) * FMU) ->
    FMU -> solution F * FMU
}.

(** Modelled from the spec: the observation history
    ([openmodelica_microgrid_gym.util.FullHistory] is missing from the
    sources).  An append-only table of observation records with a column
    schema that keeps the grouping given at construction; [reset] clears the
    records and keeps the schema; [append] takes a record of the length of
    the schema and fails at once on any other.  Nested dictionaries of the
    schema are not represented: an item is a column name or a list of column
    names. *)
Inductive ColItem : Type :=
| Col (name : string)
| Group (names : list string).

Definition item_cols (i : ColItem) : list string :=
  match i with
  | Col c => [c]
  | Group cs => cs
  end.

Section WithFloat.
Context {F FMU : Type} `{PyFloat F} `{FMUModelME2 F FMU} `{Scipy F FMU}.

(** The plot templates ([openmodelica_microgrid_gym.env.plot.PlotTmpl]) and
    the [re] module's reading of bracket expressions. *)
Variable PlotTmpl : Type.
Variable in_class : string -> ascii -> bool.

Record History : Type := {
  structured : list ColItem;
  rows : list (list F)
}.

Definition history_cols (h : History) : list string :=
  flat_map item_cols (structured h).

Definition history_set_cols (v : list ColItem) (h : History) : History :=
  {| structured := v; rows := rows h |}.

Definition history_reset (h : History) : History :=
  {| structured := structured h; rows := [] |}.

(** The table with one more record. *)
Definition history_pushed (r : list F) (h : History) : History :=
  {| structured := structured h; rows := rows h ++ [r] |}.

Definition schema_error : exn :=
  OtherError "history: the record does not have the length of the schema".

(** [append(record)]: the record must have the length of the schema; a
    record of another length fails at once. *)
Definition history_append (r : list F) (h : History) : result History :=
  if Nat.eqb (List.length r) (List.length (history_cols h))
  then Return (history_pushed r h)
  else Raise schema_error.

Definition structured_cols (h : History) : list ColItem := structured h.

(** *** The environment object *)

(** The attributes [__init__] sets and no method assigns again. *)
Record Config : Type := {
  viz_mode : option string;
  solver_method : string;
  reward : list string -> list F -> option F;
  max_episode_steps : option Z;
  time_start : F;
  time_step_size : F;
  time_end : F;
  model_parameters : list (string * (F -> F));
  record_states : bool;
  model_input_names : list string;
  model_output_names : list string;
  viz_col_tmpls : list PlotTmpl;
  viz_col_regex : Re.regex
}.

(** The attributes the methods assign. [sim_time_interval] is [None] until
    [reset]. *)
Record ModelicaEnv : Type := {
  cfg : Config;
  model : FMU;
  _failed : bool;
  sim_time_interval : option (F * F);
  _state : list F;
  measurement : list F;
  history : History;
  model_output_idx : list nat
}.

Definition set_model (m : FMU) (e : ModelicaEnv) : ModelicaEnv :=
  {| cfg := cfg e; model := m; _failed := _failed e;
     sim_time_interval := sim_time_interval e; _state := _state e;
     measurement := measurement e; history := history e;
     model_output_idx := model_output_idx e |}.

Definition set_failed (b : bool) (e : ModelicaEnv) : ModelicaEnv :=
  {| cfg := cfg e; model := model e; _failed := b;
     sim_time_interval := sim_time_interval e; _state := _state e;
     measurement := measurement e; history := history e;
     model_output_idx := model_output_idx e |}.

Definition set_sim_time_interval (i : option (F * F)) (e : ModelicaEnv)
  : ModelicaEnv :=
  {| cfg := cfg e; model := model e; _failed := _failed e;
     sim_time_interval := i; _state := _state e;
     measurement := measurement e; history := history e;
     model_output_idx := model_output_idx e |}.

Definition set_state (s : list F) (e : ModelicaEnv) : ModelicaEnv :=
  {| cfg := cfg e; model := model e; _failed := _failed e;
     sim_time_interval := sim_time_interval e; _state := s;
     measurement := measurement e; history := history e;
     model_output_idx := model_output_idx e |}.

Definition set_measurement (s : list F) (e : ModelicaEnv) : ModelicaEnv :=
  {| cfg := cfg e; model := model e; _failed := _failed e;
     sim_time_interval := sim_time_interval e; _state := _state e;
     measurement := s; history := history e;
     model_output_idx := model_output_idx e |}.

Definition set_history (h : History) (e : ModelicaEnv) : ModelicaEnv :=
  {| cfg := cfg e; model := model e; _failed := _failed e;
     sim_time_interval := sim_time_interval e; _state := _state e;
     measurement := measurement e; history := h;
     model_output_idx := model_output_idx e |}.

Definition set_model_output_idx (l : list nat) (e : ModelicaEnv)
  : ModelicaEnv :=
  {| cfg := cfg e; model := model e; _failed := _failed e;
     sim_time_interval := sim_time_interval e; _state := _state e;
     measurement := measurement e; history := history e;
     model_output_idx := l |}.

(** [self.history.append(record)]: the history after the call is kept, an
    exception of the history goes on to the caller. *)
Definition append_to_history (record : list F) : M ModelicaEnv unit :=
  fun e =>
    match history_append record (history e) with
    | Return h => (Return tt, set_history h e, [])
    | Raise x => (Raise x, e, [])
    | OutOfFuel => (OutOfFuel, e, [])
    end.

(** *** [__init__] *)

(** A model parameter is a scalar or a callable of the time. *)
Inductive param : Type :=
| Scalar (v : F)
| Callable (f : F -> F).

(** An element of a [viz_cols] list: a string, a [PlotTmpl], or anything
    else. *)
Inductive viz_elem : Type :=
| VStr (s : string)
| VTmpl (t : PlotTmpl)
| VOther.

(** The argument [viz_cols]: [None], a list, a string (a regex, given by its
    parse), or anything else. *)
Inductive viz_cols_arg : Type :=
| VizNone
| VizList (l : list viz_elem)
| VizStr (r : Re.regex)
| VizOther.

(** The arguments of [__init__]. [arg_model] is the object [load_fmu]
    returns for [model_path]. *)
Record Args : Type := {
  arg_time_step : F;
  arg_time_start : F;
  arg_reward_fun : list string -> list F -> option F;
  arg_solver_method : string;
  arg_max_episode_steps : option Z;
  arg_model_params : option (list (string * param));
  arg_model_input : option (list string);
  arg_model_output : option (list ColItem);
  arg_model : FMU;
  arg_viz_mode : option string;
  arg_viz_cols : viz_cols_arg;
  arg_history : History
}.

(** [viz_modes = {'episode', 'step', None}] *)
Definition in_viz_modes (m : option string) : bool :=
  match m with
  | None => true
  | Some s => String.eqb s "episode" || String.eqb s "step"
  end.

(** [val if callable(val) else partial(lambda t, val_: val_, val_=val)] *)
Definition lift_param (p : param) : F -> F :=
  match p with
  | Callable f => f
  | Scalar v => fun _ => v
  end.

(** The loop over the elements of a [viz_cols] list. *)
Fixpoint viz_cols_loop (l : list viz_elem) (patterns : list Re.regex)
  (tmpls : list PlotTmpl) : result (list Re.regex * list PlotTmpl) :=
  match l with
  | [] => Return (patterns, tmpls)
  | VStr s :: l' => viz_cols_loop l' (patterns ++ [Re.translate s]) tmpls
  | VTmpl t :: l' => viz_cols_loop l' patterns (tmpls ++ [t])
  | VOther :: _ =>
      Raise (ValueError "viz_cols list must contain only strings or PlotTmpl objects")
  end.

(** The branch of [__init__] on [viz_cols]: the regex and the templates. *)
Definition init_viz (v : viz_cols_arg)
  : result (Re.regex * list PlotTmpl) :=
  match v with
  | VizNone => Return (Re.Star Re.Dot, [])
  | VizList l =>
      match viz_cols_loop l [] [] with
      | Return (patterns, tmpls) => Return (Re.join patterns, tmpls)
      | Raise x => Raise x
      | OutOfFuel => OutOfFuel
      end
  | VizStr r => Return (r, [])
  | VizOther =>
      Raise (ValueError "viz_cols must be one type Optional[Union[str, List[Union[str, PlotTmpl]]]]")
  end.

(** [time_end]: [np.inf] without a step limit, else
    [time_start + max_episode_steps * time_step_size]. *)
Definition init_time_end (start step : F) (k : option Z) : F :=
  match k with
  | None => finf
  | Some k => fadd start (fmul (of_int k) step)
  end.

Definition ModelicaEnv_init (a : Args) : result ModelicaEnv :=
  match arg_model_input a with
  | None =>
      Raise (ValueError "Please specify model_input variables from your OM FMU.")
  | Some model_input =>
  match arg_model_output a with
  | None =>
      Raise (ValueError "Please specify model_output variables from your OM FMU.")
  | Some model_output =>
  if negb (in_viz_modes (arg_viz_mode a)) then
    Raise (ValueError "Please select one of the following viz_modes")
  else
  let history := history_set_cols model_output (arg_history a) in
  match init_viz (arg_viz_cols a) with
  | Raise x => Raise x
  | OutOfFuel => OutOfFuel
  | Return (regex, tmpls) =>
      Return
        {| cfg :=
             {| viz_mode := arg_viz_mode a;
                solver_method := arg_solver_method a;
                reward := arg_reward_fun a;
                max_episode_steps := arg_max_episode_steps a;
                time_start := arg_time_start a;
                time_step_size := arg_time_step a;
                time_end :=
                  init_time_end (arg_time_start a) (arg_time_step a)
                    (arg_max_episode_steps a);
                model_parameters :=
                  map (fun vp => (fst vp, lift_param (snd vp)))
                    (match arg_model_params a with
                     | Some d => d
                     | None => []
                     end);
                record_states :=
                  match arg_viz_mode a with
                  | Some s => String.eqb s "episode"
                  | None => false
                  end;
                model_input_names := model_input;
                model_output_names := history_cols history;
                viz_col_tmpls := tmpls;
                viz_col_regex := regex |};
           model := arg_model a;
           _failed := false;
           sim_time_interval := None;
           _state := [];
           measurement := [];
           history := history;
           model_output_idx := [] |}
  end
  end
  end.

(** *** [_setup_fmu] *)

(** The event iteration: the flag is forced to [True] before the loop, so the
    body runs once before the model is asked. *)
Fixpoint event_iteration (fuel : nat) (m : FMU) : option FMU :=
  match fuel with
  | O => None
  | S n =>
      let m' := event_update (enter_event_mode m) in
      if newDiscreteStatesNeeded m' then event_iteration n m' else Some m'
  end.

Definition _setup_fmu (fuel : nat) : M ModelicaEnv unit :=
  start <- gets (fun e => time_start (cfg e)) ;;
  modify (fun e => set_model (setup_experiment start (model e)) e) ;;
  modify (fun e => set_model (enter_initialization_mode (model e)) e) ;;
  modify (fun e => set_model (exit_initialization_mode (model e)) e) ;;
  m <- gets model ;;
  match event_iteration fuel m with
  | None => out_of_fuel
  | Some m' =>
      modify (set_model (enter_continuous_time_mode m')) ;;
      names <- gets (fun e => model_output_names (cfg e)) ;;
      m <- gets model ;;
      modify (set_model_output_idx
                (map (fun k => get_variable_valueref k m) names))
  end.

(** *** [_calc_jac], [_get_deriv], [_simulate] *)

Definition identity (n : nat) : list (list F) :=
  map (fun i => map (fun j => if Nat.eqb i j then of_int 1 else of_int 0)
                    (seq 0 n))
      (seq 0 n).

(** The result of [np.apply_along_axis] is dropped: the matrix returned is
    the identity. *)
Definition _calc_jac (t : F) (x : list F) (m : FMU) : list (list F) * FMU :=
  (identity (List.length (get_derivatives_list m)), m).

Definition _get_deriv (t : F) (x : list F) (m : FMU) : list F * FMU :=
  let m := set_time t m in
  let m := set_continuous_states x m in
  (get_derivatives m, m).

Definition _simulate : M ModelicaEnv (list F) :=
  interval <- gets sim_time_interval ;;
  match interval with
  | None => raise (TypeError "'NoneType' object is not subscriptable")
  | Some t_span =>
      log DEBUG "Simulation started for time interval {t0}-{t1}" ;;
      m <- gets model ;;
      method <- gets (fun e => solver_method (cfg e)) ;;
      let x_0 := continuous_states m in
      match solve_ivp _get_deriv t_span x_0 method _calc_jac m with
      | (Failed x, m') => modify (set_model m') ;; raise x
      | (Solved y_last, m') =>
          modify (set_model (set_continuous_states y_last m')) ;;
          idx <- gets model_output_idx ;;
          m <- gets model ;;
          ret (get_real idx m)
      end
  end.

(** *** [is_done] *)

Definition is_done : M ModelicaEnv bool :=
  failed <- gets _failed ;;
  if failed then
    log INFO "reward was extreme, episode terminated" ;;
    ret true
  else
    interval <- gets sim_time_interval ;;
    match interval with
    | None => raise (TypeError "'NoneType' object is not subscriptable")
    | Some (_, t1) =>
        log DEBUG "t: {t1}, " ;;
        t_end <- gets (fun e => time_end (cfg e)) ;;
        ret (fgtb (fabs t1) t_end)
    end.

(** *** [reset] *)

Definition reset (fuel : nat) : M ModelicaEnv (list F) :=
  log DEBUG "Experiment reset was called. Resetting the model." ;;
  modify (fun e => set_model (fmu_reset (model e)) e) ;;
  modify (fun e => set_model (setup_experiment (of_int 0) (model e)) e) ;;
  _setup_fmu fuel ;;
  start <- gets (fun e => time_start (cfg e)) ;;
  step_size <- gets (fun e => time_step_size (cfg e)) ;;
  modify (set_sim_time_interval (Some (start, fadd start step_size))) ;;
  modify (fun e => set_history (history_reset (history e)) e) ;;
  state <- _simulate ;;
  modify (set_state state) ;;
  modify (set_measurement []) ;;
  append_to_history state ;;
  modify (set_failed false) ;;
  ret state.

(** *** [step] *)

(** The argument [action]: a sequence of values, or a value that is not
    iterable. *)
Inductive Action : Type :=
| ActSeq (values : list F)
| ActScalar (v : F).

(** The [info] mapping of the returned tuple. *)
Definition Info : Type := list (string * string).

(** [np.isnan(reward)]: the ufunc rejects [None]. *)
Definition np_isnan (r : option F) : M ModelicaEnv bool :=
  match r with
  | Some x => ret (fisnan x)
  | None => raise (TypeError "ufunc 'isnan' not supported for the input types")
  end.

(** [np.isinf(reward)] *)
Definition np_isinf (r : option F) : M ModelicaEnv bool :=
  match r with
  | Some x => ret (fisinf x)
  | None => raise (TypeError "ufunc 'isinf' not supported for the input types")
  end.

(** [reward < 0] *)
Definition lt_zero (r : option F) : M ModelicaEnv bool :=
  match r with
  | Some x => ret (fltb x (of_int 0))
  | None =>
      raise (TypeError "'<' not supported between instances of 'NoneType' and 'int'")
  end.

(** [reward is None] *)
Definition is_None (r : option F) : bool :=
  match r with
  | None => true
  | Some _ => false
  end.

(** [np.isnan(reward) or np.isinf(reward) and reward < 0 or reward is None],
    evaluated left to right with the short cuts of [or] and [and]. *)
Definition failed_of_reward (r : option F) : M ModelicaEnv bool :=
  a <- np_isnan r ;;
  if a then ret true
  else
    b <- np_isinf r ;;
    c <- (if b then lt_zero r else ret false) ;;
    if c then ret true else ret (is_None r).

Definition arity_message : string :=
  "List of values for model inputs should be of the length {len(list(self.model_input_names))},".

Definition step (action : Action)
  : M ModelicaEnv (list F * option F * bool * Info) :=
  log DEBUG "Experiment next step was called." ;;
  done <- is_done ;;
  if done then
    log WARNING
      "You are calling 'step()' even though this environment has already returned done = True." ;;
    state <- gets _state ;;
    ret (state, Some (fneg finf), true, [])
  else
    (* check if action is a list. If not - create list of length 1 *)
    action <- match action with
              | ActSeq values => ret values
              | ActScalar v =>
                  log WARNING
                    "Model input values (action) should be passed as a list" ;;
                  ret [v]
              end ;;
    (* Check if number of model inputs equals number of values passed *)
    names <- gets (fun e => model_input_names (cfg e)) ;;
    if negb (Nat.eqb (List.length action) (List.length names)) then
      log ERROR arity_message ;;
      raise (ValueError arity_message)
    else
      (* Set input values of the model *)
      log DEBUG "model input: %s, values: %s" ;;
      modify (fun e => set_model (fmu_set names action (model e)) e) ;;
      params <- gets (fun e => model_parameters (cfg e)) ;;
      match params with
      | [] => ret tt
      | _ :: _ =>
          interval <- gets sim_time_interval ;;
          match interval with
          | None => raise (TypeError "'NoneType' object is not subscriptable")
          | Some (t0, _) =>
              modify (fun e =>
                        set_model
                          (fmu_set (map fst params)
                                   (map (fun vf => snd vf t0) params)
                                   (model e)) e)
          end
      end ;;
      (* Simulate and observe result state *)
      state <- _simulate ;;
      modify (set_state state) ;;
      measurement <- gets measurement ;;
      let obs := state ++ measurement in
      append_to_history obs ;;
      log DEBUG "model output: %s, values: %s" ;;
      (* Check if experiment has finished
         Move simulation time interval if experiment continues *)
      done <- is_done ;;
      (if negb done then
         log DEBUG "Experiment step done, experiment continues." ;;
         step_size <- gets (fun e => time_step_size (cfg e)) ;;
         interval <- gets sim_time_interval ;;
         match interval with
         | None =>
             raise (TypeError "unsupported operand type(s) for +=: 'NoneType' and 'float'")
         | Some (t0, t1) =>
             modify (set_sim_time_interval
                       (Some (fadd t0 step_size, fadd t1 step_size)))
         end
       else
         log DEBUG "Experiment step done, experiment done.") ;;
      cols <- gets (fun e => history_cols (history e)) ;;
      rew <- gets (fun e => reward (cfg e)) ;;
      let reward := rew cols obs in
      failed <- failed_of_reward reward ;;
      modify (set_failed failed) ;;
      (* only return the state, the agent does not need the measurement *)
      done <- is_done ;;
      ret (obs, reward, done, []).

(** *** [render] and [close] *)

(** A figure, by what it plots: a list of history columns, or a template. *)
Inductive Figure : Type :=
| ColsFig (cols : list string)
| TmplFig (t : PlotTmpl).

(** The loop of [render] over the structured columns: an item that is not a
    list is wrapped, the columns are filtered by [re.fullmatch] against
    [viz_col_regex], and an item with no column left is skipped. *)
Fixpoint render_cols (regex : Re.regex) (items : list ColItem)
  : list Figure :=
  match items with
  | [] => []
  | item :: items' =>
      let cols := item_cols item in
      let cols := filter (Re.fullmatch in_class regex) cols in
      match cols with
      | [] => render_cols regex items'
      | _ :: _ => ColsFig cols :: render_cols regex items'
      end
  end.

(** [render(mode, close)]; the result [None] is Python's. *)
Definition render (close : bool) (e : ModelicaEnv) : option (list Figure) :=
  match viz_mode (cfg e) with
  | None => Some []
  | Some mode =>
      if close then
        if String.eqb mode "step" then None
        else
          Some (render_cols (viz_col_regex (cfg e))
                            (structured_cols (history e))
                ++ map TmplFig (viz_col_tmpls (cfg e)))
      else None
  end.

(** [close()] *)
Definition close (e : ModelicaEnv) : bool * option (list Figure) :=
  (true, render true e).

(** The columns [render] selects at the close of an episode. *)
Definition rendered_cols (figs : list Figure) : list string :=
  flat_map (fun f => match f with
                     | ColsFig cols => cols
                     | TmplFig _ => []
                     end) figs.

(** *** Runs *)

(** [steps actions]: [step] on each action in turn, collecting the returned
    tuples; an exception stops the run. *)
Fixpoint steps (actions : list Action)
  : M ModelicaEnv (list (list F * option F * bool * Info)) :=
  match actions with
  | [] => ret []
  | a :: actions' =>
      r <- step a ;;
      rs <- steps actions' ;;
      ret (r :: rs)
  end.

(** *** Notions the statements use *)

(** What a call of [step] logs before it looks at the action, followed by
    [l]. *)
Definition entry_log (l : list LogRecord) : list LogRecord :=
  Log DEBUG "Experiment next step was called." :: l.

Definition misuse_warning : LogRecord :=
  Log WARNING
    "You are calling 'step()' even though this environment has already returned done = True.".

Definition scalar_warning : LogRecord :=
  Log WARNING "Model input values (action) should be passed as a list".

(** The values [step] works with once [action] is a list. *)
Definition values_of (a : Action) : list F :=
  match a with
  | ActSeq values => values
  | ActScalar v => [v]
  end.

(** [is_done] returns [True], respectively [False], in [e]. *)
Definition terminal (e : ModelicaEnv) : Prop :=
  exists l, is_done e = (Return true, e, l).

Definition running (e : ModelicaEnv) : Prop :=
  exists l, is_done e = (Return false, e, l).

(** The model after [step] has set the inputs and the parameters. *)
Definition push_inputs (values : list F) (e : ModelicaEnv) : FMU :=
  let m := fmu_set (model_input_names (cfg e)) values (model e) in
  match model_parameters (cfg e), sim_time_interval e with
  | p :: params, Some (t0, _) =>
      fmu_set (map fst (p :: params))
              (map (fun vf => snd vf t0) (p :: params)) m
  | _, _ => m
  end.

(** The solver call of [_simulate] on the model [m] over the interval
    [t_span]. *)
Definition integrate (e : ModelicaEnv) (t_span : F * F) (m : FMU)
  : solution F * FMU :=
  solve_ivp _get_deriv t_span (continuous_states m)
            (solver_method (cfg e)) _calc_jac m.

(** The value the failure expression of [step] takes on a float. *)
Definition failed_flag (r : F) : bool :=
  fisnan r || (fisinf r && fltb r (of_int 0)).

(** The interval moved by one step size. *)
Definition advance (step_size : F) (i : F * F) : F * F :=
  (fadd (fst i) step_size, fadd (snd i) step_size).

(** The record has the length of the schema of the history of [e]. *)
Definition in_schema (e : ModelicaEnv) (record : list F) : Prop :=
  List.length record = List.length (history_cols (history e)).

(** The state [_simulate] reads after the solver has returned the last
    column [y] and left the model [m']. *)
Definition simulated (e : ModelicaEnv) (y : list F) (m' : FMU) : list F :=
  get_real (model_output_idx e) (set_continuous_states y m').

(** The object after a step that went past the solver and the history: [y]
    is the solver's last column, [m'] the model the solver left, [failed]
    the failure flag at the end. *)
Definition after_step (e : ModelicaEnv) (t_span : F * F) (y : list F)
  (m' : FMU) (failed : bool) : ModelicaEnv :=
  let m := set_continuous_states y m' in
  let state := get_real (model_output_idx e) m in
  {| cfg := cfg e;
     model := m;
     _failed := failed;
     sim_time_interval := Some (advance (time_step_size (cfg e)) t_span);
     _state := state;
     measurement := measurement e;
     history := history_pushed (state ++ measurement e) (history e);
     model_output_idx := model_output_idx e |}.

(** The ways a call [step(action)] on the object [e] can go: the result and
    the object after the call. *)
Inductive Outcome (e : ModelicaEnv) (a : Action)
  : result (list F * option F * bool * Info) -> ModelicaEnv -> Prop :=
| Uninitialised :
    _failed e = false ->
    sim_time_interval e = None ->
    Outcome e a (Raise (TypeError "'NoneType' object is not subscriptable")) e
| PostTerminal :
    terminal e ->
    Outcome e a (Return (_state e, Some (fneg finf), true, [])) e
| Rejected :
    running e ->
    List.length (values_of a) <> List.length (model_input_names (cfg e)) ->
    Outcome e a (Raise (ValueError arity_message)) e
| SolverRaised (t_span : F * F) (x : exn) (m' : FMU) :
    running e ->
    List.length (values_of a) = List.length (model_input_names (cfg e)) ->
    sim_time_interval e = Some t_span ->
    integrate e t_span (push_inputs (values_of a) e) = (Failed x, m') ->
    Outcome e a (Raise x) (set_model m' e)
| HistoryRaised (t_span : F * F) (y : list F) (m' : FMU) :
    running e ->
    List.length (values_of a) = List.length (model_input_names (cfg e)) ->
    sim_time_interval e = Some t_span ->
    integrate e t_span (push_inputs (values_of a) e) = (Solved y, m') ->
    ~ in_schema e (simulated e y m' ++ measurement e) ->
    Outcome e a (Raise schema_error)
      (set_state (simulated e y m') (set_model (set_continuous_states y m') e))
| RewardNone (t_span : F * F) (y : list F) (m' : FMU) :
    running e ->
    List.length (values_of a) = List.length (model_input_names (cfg e)) ->
    sim_time_interval e = Some t_span ->
    integrate e t_span (push_inputs (values_of a) e) = (Solved y, m') ->
    in_schema e (simulated e y m' ++ measurement e) ->
    let e' := after_step e t_span y m' false in
    reward (cfg e) (history_cols (history e)) (_state e' ++ measurement e)
    = None ->
    Outcome e a
      (Raise (TypeError "ufunc 'isnan' not supported for the input types")) e'
| Accepted (t_span : F * F) (y : list F) (m' : FMU) (r : F) :
    running e ->
    List.length (values_of a) = List.length (model_input_names (cfg e)) ->
    sim_time_interval e = Some t_span ->
    integrate e t_span (push_inputs (values_of a) e) = (Solved y, m') ->
    in_schema e (simulated e y m' ++ measurement e) ->
    let e' := after_step e t_span y m' (failed_flag r) in
    reward (cfg e) (history_cols (history e)) (_state e' ++ measurement e)
    = Some r ->
    Outcome e a
      (Return (_state e' ++ measurement e, Some r,
               failed_flag r
               || fgtb (fabs (snd (advance (time_step_size (cfg e)) t_span)))
                       (time_end (cfg e)),
               []))
      e'.

(** The action has as many values as the object has input names. *)
Definition fits (e : ModelicaEnv) (act : Action) : Prop :=
  List.length (values_of act) = List.length (model_input_names (cfg e)).

(** The reward of the tuple is a float that does not signal failure. *)
Definition harmless (t : list F * option F * bool * Info) : Prop :=
  exists r, snd (fst (fst t)) = Some r /\ failed_flag r = false.

(** [t1 - t0 == step_size] on the current interval, as Python compares. *)
Definition width_ok (e : ModelicaEnv) : bool :=
  match sim_time_interval e with
  | Some (t0, t1) => feqb (fsub t1 t0) (time_step_size (cfg e))
  | None => false
  end.

(** The [done] flags of the tuples of a run. *)
Definition dones (tuples : list (list F * option F * bool * Info))
  : list bool :=
  map (fun t => snd (fst t)) tuples.

(** The rewards of the tuples of a run. *)
Definition rewards (tuples : list (list F * option F * bool * Info))
  : list (option F) :=
  map (fun t => snd (fst (fst t))) tuples.

(** The strings and the templates of a [viz_cols] list, each in the order
    of the list, and whether the list holds anything else. *)
Fixpoint viz_strings (l : list viz_elem) : list string :=
  match l with
  | [] => []
  | VStr s :: l' => s :: viz_strings l'
  | _ :: l' => viz_strings l'
  end.

Fixpoint viz_tmpls (l : list viz_elem) : list PlotTmpl :=
  match l with
  | [] => []
  | VTmpl t :: l' => t :: viz_tmpls l'
  | _ :: l' => viz_tmpls l'
  end.

Fixpoint has_other (l : list viz_elem) : bool :=
  match l with
  | [] => false
  | VOther :: _ => true
  | _ :: l' => has_other l'
  end.

(** The argument [viz_cols] has one of the types [__init__] accepts. *)
Definition viz_cols_ok (v : viz_cols_arg) : bool :=
  match v with
  | VizNone | VizStr _ => true
  | VizList l => negb (has_other l)
  | VizOther => false
  end.

(** The body of the event iteration of [_setup_fmu]. *)
Definition event_body (m : FMU) : FMU := event_update (enter_event_mode m).

(** The model as [reset] and [_setup_fmu] have prepared it when the event
    iteration starts. *)
Definition initialised (e : ModelicaEnv) : FMU :=
  exit_initialization_mode
    (enter_initialization_mode
       (setup_experiment (time_start (cfg e))
          (setup_experiment (of_int 0) (fmu_reset (model e))))).

(** The interval [reset] sets. *)
Definition first_interval (e : ModelicaEnv) : F * F :=
  (time_start (cfg e),
   fadd (time_start (cfg e)) (time_step_size (cfg e))).

(** The objects a program can get to from [e0] by calls of [reset] and
    [step], whatever the calls return or raise. *)
Inductive reachable (e0 : ModelicaEnv) : ModelicaEnv -> Prop :=
| reach_here : reachable e0 e0
| reach_reset (fuel : nat) (e e' : ModelicaEnv) r l :
    reachable e0 e -> reset fuel e = (r, e', l) -> reachable e0 e'
| reach_step (a : Action) (e e' : ModelicaEnv) r l :
    reachable e0 e -> step a e = (r, e', l) -> reachable e0 e'.

(** The value the object sends to the model for a parameter given to
    [__init__], at the time [t]. *)
Definition param_at (t : F) (p : param) : F :=
  match p with
  | Scalar v => v
  | Callable f => f t
  end.

(** The model after [step] has written the values of the action under the
    input names and then, when [__init__] was given parameters [d], the
    parameters at the time [t0]. *)
Definition written (names : list string) (values : list F)
  (d : list (string * param)) (t0 : F) (m : FMU) : FMU :=
  match d with
  | [] => fmu_set names values m
  | _ :: _ =>
      fmu_set (map fst d) (map (fun vp => param_at t0 (snd vp)) d)
              (fmu_set names values m)
  end.


End WithFloat.

Arguments History F : clear implicits.
Arguments Config F PlotTmpl : clear implicits.
Arguments ModelicaEnv F FMU PlotTmpl : clear implicits.
Arguments param F : clear implicits.
Arguments viz_elem PlotTmpl : clear implicits.
Arguments viz_cols_arg PlotTmpl : clear implicits.
Arguments Args F FMU PlotTmpl : clear implicits.
Arguments Action F : clear implicits.
Arguments Figure PlotTmpl : clear implicits.
Arguments render_cols [PlotTmpl] in_class regex items.
Arguments VStr {PlotTmpl} s.
Arguments ColsFig {PlotTmpl} cols.
Arguments VizNone {PlotTmpl}.
Arguments VizOther {PlotTmpl}.
Arguments VOther {PlotTmpl}.

(** In exact arithmetic: the object [e] has the configuration of [e0], has
    not failed, and its interval ends at [s + (j + 1) * h], as after [j]
    accepted steps from a start at [s]. *)
Definition at_step {FMU PlotTmpl : Type} (e0 : ModelicaEnv xQ FMU PlotTmpl)
  (s h : Q) (j : nat) (e : ModelicaEnv xQ FMU PlotTmpl) : Prop :=
  cfg e = cfg e0 /\
  _failed e = false /\
  exists a b,
    sim_time_interval e = Some (Fin a, Fin b) /\ b == s + steps_of (S j) h.

End Modelica.

(** ** A test model: one integrator *)

(** The model [x' = u] with one state, one input and the state as its only
    output, an explicit Euler step in the place of the adaptive solver, and
    a solver that raises.  The concrete runs below use it. *)
Module Integrator.
Import Modelica.

Section WithFloat.
Context {F : Type} `{PyFloat F}.

Record FMU : Type := {
  time : F;
  x : list F;
  u : list F
}.

Definition initial : FMU :=
  {| time := of_int 0; x := [of_int 0]; u := [of_int 0] |}.

#[export] Instance Integrator_FMU : FMUModelME2 F FMU := {
  fmu_reset := fun _ => initial;
  setup_experiment := fun t m => {| time := t; x := x m; u := u m |};
  enter_initialization_mode := fun m => m;
  exit_initialization_mode := fun m => m;
  newDiscreteStatesNeeded := fun _ => false;
  enter_event_mode := fun m => m;
  event_update := fun m => m;
  enter_continuous_time_mode := fun m => m;
  get_variable_valueref := fun _ _ => O;
  get_states_list := fun _ => [O];
  get_derivatives_list := fun _ => [O];
  set_time := fun t m => {| time := t; x := x m; u := u m |};
  continuous_states := x;
  set_continuous_states := fun v m => {| time := time m; x := v; u := u m |};
  get_derivatives := u;
  get_real := fun idx m => map (fun i => nth i (x m) (of_int 0)) idx;
  fmu_set := fun _ values m => {| time := time m; x := x m; u := values |}
}.

(** One explicit Euler step over the whole interval. *)
#[export] Instance Euler : Scipy F FMU := {
  solve_ivp := fun f t_span y0 _ _ m =>
    match f (fst t_span) y0 m with
    | (dx, m') =>
        (Solved (map (fun yd => fadd (fst yd)
                                  (fmul (fsub (snd t_span) (fst t_span))
                                        (snd yd)))
                     (combine y0 dx)), m')
    end
}.

(** A solver whose derivative callback raises at once. *)
Definition Raising : Scipy F FMU := {|
  solve_ivp := fun _ _ _ _ _ m =>
    (Failed (OtherError "FMUException: failed to evaluate the derivatives"), m)
|}.

(** The arguments of a test environment: one input ["u"], one output
    ["x"], no parameters, rendering by episode. *)
Definition args (step start : F) (k : option Z)
  (reward_fun : list string -> list F -> option F)
  (viz_cols : viz_cols_arg unit) (output : list ColItem)
  : Args F FMU unit :=
  {| arg_time_step := step;
     arg_time_start := start;
     arg_reward_fun := reward_fun;
     arg_solver_method := "LSODA";
     arg_max_episode_steps := k;
     arg_model_params := None;
     arg_model_input := Some ["u"];
     arg_model_output := Some output;
     arg_model := initial;
     arg_viz_mode := Some "episode";
     arg_viz_cols := viz_cols;
     arg_history := {| structured := []; rows := [] |} |}.

(** The object [__init__] builds from [args step start k reward_fun None
    [Col "x"]]. *)
Definition constructed (step start : F) (k : option Z)
  (reward_fun : list string -> list F -> option F)
  : ModelicaEnv F FMU unit :=
  {| cfg :=
       {| viz_mode := Some "episode";
          solver_method := "LSODA";
          reward := reward_fun;
          max_episode_steps := k;
          time_start := start;
          time_step_size := step;
          time_end := init_time_end start step k;
          model_parameters := [];
          record_states := true;
          model_input_names := ["u"];
          model_output_names := ["x"];
          viz_col_tmpls := [];
          viz_col_regex := Re.Star Re.Dot |};
     model := initial;
     _failed := false;
     sim_time_interval := None;
     _state := [];
     measurement := [];
     history := {| structured := [Col "x"]; rows := [] |};
     model_output_idx := [] |}.

(** That object after [reset()]. *)
Definition ready {S : Scipy F FMU} (step start : F) (k : option Z)
  (reward_fun : list string -> list F -> option F)
  : ModelicaEnv F FMU unit :=
  snd (fst (reset 1 (constructed step start k reward_fun))).

(** [env = ModelicaEnv(...)] followed by [env.reset()], then [step] on each
    action: the tuples the calls returned and the object at the end, or the
    exception that ended the run. *)
Definition episode {S : Scipy F FMU} (a : Args F FMU unit)
  (actions : list (Action F))
  : result (list (list F * option F * bool * Info)
            * ModelicaEnv F FMU unit) :=
  match ModelicaEnv_init a with
  | Return e =>
      match (reset 1 ;; steps actions) e with
      | (Return tuples, e', _) => Return (tuples, e')
      | (Raise x, _, _) => Raise x
      | (OutOfFuel, _, _) => OutOfFuel
      end
  | Raise x => Raise x
  | OutOfFuel => OutOfFuel
  end.

(** The object after one more call [step(a)]. *)
Definition after {S : Scipy F FMU} (a : Action F)
  (e : ModelicaEnv F FMU unit) : ModelicaEnv F FMU unit :=
  snd (fst (step a e)).

(** A reward function that returns [r] whatever it is given. *)
Definition always (r : option F) : list string -> list F -> option F :=
  fun _ _ => r.

(** [n / d], rounded as the arithmetic rounds: [tenth] is the literal
    [0.1]. *)
Definition ratio (n d : Z) : F := fdiv (of_int n) (of_int d).

Definition tenth : F := ratio 1 10.

(** The action [[v]], [n] times. *)
Definition constant_actions (v : F) (n : nat) : list (Action F) :=
  repeat (ActSeq [v]) n.

End WithFloat.

Arguments FMU F : clear implicits.

(** *** Test runs, in either arithmetic *)

(** An episode with step size [0.1], start 0, at most [k] steps and the
    reward 1 throughout, stepped [n] times. *)
Definition tenth_episode {F : Type} `{PyFloat F} (k : Z) (n : nat)
  : result (list (list F * option F * bool * Info)
            * ModelicaEnv F (FMU F) unit) :=
  episode (args tenth (of_int 0) (Some k) (always (Some (of_int 1)))
                VizNone [Col "x"])
          (constant_actions (of_int 2) n).

(** The [done] flags and the rewards of a run, and the width test on the
    object it leaves. *)
Definition run_dones {F : Type} `{PyFloat F}
  (r : result (list (list F * option F * bool * Info)
               * ModelicaEnv F (FMU F) unit)) : option (list bool) :=
  match r with
  | Return (tuples, _) => Some (dones tuples)
  | _ => None
  end.

Definition run_rewards {F : Type} `{PyFloat F}
  (r : result (list (list F * option F * bool * Info)
               * ModelicaEnv F (FMU F) unit)) : option (list (option F)) :=
  match r with
  | Return (tuples, _) => Some (rewards tuples)
  | _ => None
  end.

Definition run_width_ok {F : Type} `{PyFloat F}
  (r : result (list (list F * option F * bool * Info)
               * ModelicaEnv F (FMU F) unit)) : option bool :=
  match r with
  | Return (_, e) => Some (width_ok e)
  | _ => None
  end.

(** *** Test objects in exact arithmetic *)

(** Step size 1, start 0, three steps, reward 1. *)
Definition env_three : ModelicaEnv xQ (FMU xQ) unit :=
  ready (of_int 1) (of_int 0) (Some 3%Z) (always (Some (of_int 1))).

(** The same with a single step. *)
Definition env_one : ModelicaEnv xQ (FMU xQ) unit :=
  ready (of_int 1) (of_int 0) (Some 1%Z) (always (Some (of_int 1))).

(** The same with a reward function that returns NaN. *)
Definition env_nan : ModelicaEnv xQ (FMU xQ) unit :=
  ready (of_int 1) (of_int 0) (Some 3%Z) (always (Some NaN)).

(** The same with a reward function that returns [None]. *)
Definition env_none : ModelicaEnv xQ (FMU xQ) unit :=
  ready (of_int 1) (of_int 0) (Some 3%Z) (always None).


(** Step size 1, start -10, three steps, reward 1. *)
Definition env_negative_start : ModelicaEnv xQ (FMU xQ) unit :=
  ready (of_int 1) (of_int (-10)) (Some 3%Z) (always (Some (of_int 1))).

(** The arguments of scenario D: the columns [a.i], [a.v], [b.i] and the
    selector [["*.i"]]; the same with the three columns in one group. *)
Definition scenario_D_args : Args xQ (FMU xQ) unit :=
  args (of_int 1) (of_int 0) (Some 3%Z) (always (Some (of_int 1)))
       (VizList [VStr "*.i"]) [Col "a.i"; Col "a.v"; Col "b.i"].

Definition scenario_D_grouped : Args xQ (FMU xQ) unit :=
  args (of_int 1) (of_int 0) (Some 3%Z) (always (Some (of_int 1)))
       (VizList [VStr "*.i"]) [Group ["a.i"; "a.v"; "b.i"]].


(** *** Further test objects *)

(** The test arguments with the columns [a.i], [a.v], [b.i] and the given
    [viz_cols]. *)
Definition viz_args (viz_cols : viz_cols_arg unit) : Args xQ (FMU xQ) unit :=
  args (of_int 1) (of_int 0) (Some 3%Z) (always (Some (of_int 1)))
       viz_cols [Col "a.i"; Col "a.v"; Col "b.i"].

(** The same without a visualisation mode, and in the mode ['step']. *)
Definition with_viz_mode (mode : option string) (a : Args xQ (FMU xQ) unit)
  : Args xQ (FMU xQ) unit :=
  {| arg_time_step := arg_time_step a;
     arg_time_start := arg_time_start a;
     arg_reward_fun := arg_reward_fun a;
     arg_solver_method := arg_solver_method a;
     arg_max_episode_steps := arg_max_episode_steps a;
     arg_model_params := arg_model_params a;
     arg_model_input := arg_model_input a;
     arg_model_output := arg_model_output a;
     arg_model := arg_model a;
     arg_viz_mode := mode;
     arg_viz_cols := arg_viz_cols a;
     arg_history := arg_history a |}.

(** The test arguments with two model parameters, a scalar and a callable
    of the time. *)
Definition param_args : Args xQ (FMU xQ) unit :=
  {| arg_time_step := of_int 1;
     arg_time_start := of_int 0;
     arg_reward_fun := always (Some (of_int 1));
     arg_solver_method := "LSODA";
     arg_max_episode_steps := Some 3%Z;
     arg_model_params :=
       Some [("gain", Scalar (of_int 5));
             ("ramp", Callable (fun t => fadd t (of_int 10)))];
     arg_model_input := Some ["u"];
     arg_model_output := Some [Col "x"];
     arg_model := initial;
     arg_viz_mode := Some "episode";
     arg_viz_cols := VizNone;
     arg_history := {| structured := []; rows := [] |} |}.

(** The object [__init__] returns for the arguments [a] (the test object
    without a step limit where it raises), and that object after
    [reset()]. *)
Definition build {F : Type} `{PyFloat F} (a : Args F (FMU F) unit)
  : ModelicaEnv F (FMU F) unit :=
  match ModelicaEnv_init a with
  | Return e => e
  | _ => constructed (of_int 1) (of_int 0) None (always None)
  end.

Definition start {F : Type} `{PyFloat F} {S : Scipy F (FMU F)}
  (a : Args F (FMU F) unit) : ModelicaEnv F (FMU F) unit :=
  snd (fst (reset 1 (build a))).

(** The arguments of the test objects [env_three] and [env_one]. *)
Definition three_args : Args xQ (FMU xQ) unit :=
  args (of_int 1) (of_int 0) (Some 3%Z) (always (Some (of_int 1)))
       VizNone [Col "x"].

Definition one_args : Args xQ (FMU xQ) unit :=
  args (of_int 1) (of_int 0) (Some 1%Z) (always (Some (of_int 1)))
       VizNone [Col "x"].

(** Step size 1, start 0, [max_episode_steps = 0], reward 1. *)
Definition zero_args : Args xQ (FMU xQ) unit :=
  args (of_int 1) (of_int 0) (Some 0%Z) (always (Some (of_int 1)))
       VizNone [Col "x"].

(** Step size 1, start 0, no step limit, reward 1, in either arithmetic. *)
Definition unbounded_args {F : Type} `{PyFloat F} : Args F (FMU F) unit :=
  args (of_int 1) (of_int 0) None (always (Some (of_int 1)))
       VizNone [Col "x"].

(** The objects of these arguments after [reset()]. *)
Definition env_zero : ModelicaEnv xQ (FMU xQ) unit := start zero_args.

Definition env_unbounded : ModelicaEnv xQ (FMU xQ) unit :=
  start unbounded_args.

Definition env_unbounded_binary64
  : ModelicaEnv PrimFloat.float (FMU PrimFloat.float) unit :=
  start unbounded_args.


End Integrator.

(* ================================================================== *)
(** * Part II: theorems                                                *)
(* ================================================================== *)

(** ** The parameter records *)

Module ParamsFacts.
Import Params.

Section WithFloat.
Context {F : Type} `{PyFloat F}.

(** The division of [DroopParams.gain] is only reached with a divisor that
    does not compare equal to zero. *)
Lemma truediv_guarded (a : Z) (g : F) :
  feqb g (of_int 0) = false -> truediv a g = Return (fdiv (of_int a) g).
Proof. intros Hg. unfold truediv. rewrite Hg. reflexivity. Qed.

(** C9. Reading [gain] of a [DroopParams] whose configured value is [g]
    returns the float [1 / g] when [g != 0] and the integer [0] when
    [g == 0]; it raises for no configured value, the division being reached
    only with a divisor that is not zero. *)
Theorem DroopParams_gain_reciprocal (gain tau nom_value : F) :
  let p := DroopParams_init gain tau nom_value in
  (feqb gain (of_int 0) = false ->
   DroopParams_gain p = Return (PyFloatV (fdiv (of_int 1) gain))) /\
  (feqb gain (of_int 0) = true -> DroopParams_gain p = Return (PyInt 0)) /\
  (forall e, DroopParams_gain p <> Raise e).
Proof.
  cbn zeta. unfold DroopParams_gain, DroopParams_init, fneb. cbn [base _gain].
  destruct (feqb gain (of_int 0)) eqn:Hg; cbn [negb].
  - repeat split; try discriminate; reflexivity.
  - rewrite (truediv_guarded 1 gain Hg).
    repeat split; try discriminate; reflexivity.
Qed.

End WithFloat.

(** In exact arithmetic: the reciprocal of a rational that is not zero. *)
Lemma DroopParams_gain_exact (q : Q) (tau nom_value : xQ) :
  ~ q == 0 ->
  DroopParams_gain (DroopParams_init (Fin q) tau nom_value)
  = Return (PyFloatV (Fin (1 / q))).
Proof.
  intros Hq.
  assert (Hz : Qeq_bool q 0 = false).
  { destruct (Qeq_bool q 0) eqn:E; [|reflexivity].
    apply Qeq_bool_iff in E. contradiction. }
  unfold DroopParams_gain, DroopParams_init, fneb.
  cbn [base _gain feqb xQ_PyFloat of_int xeqb].
  change (inject_Z 0) with 0. rewrite Hz. cbn [negb].
  rewrite truediv_guarded.
  - cbn. rewrite Hz. reflexivity.
  - exact Hz.
Qed.

(** In binary64: a gain of 1000 reads as 1/1000, zero and minus zero read
    as the integer 0, and an infinite gain reads as 0.0. *)
Lemma DroopParams_gain_binary64 :
  DroopParams_gain
    (DroopParams_init (float_of_int 1000) (float_of_int 1) (float_of_int 50))
  = Return (PyFloatV (PrimFloat.div (float_of_int 1) (float_of_int 1000)))
  /\ DroopParams_gain
       (DroopParams_init (float_of_int 0) (float_of_int 1) (float_of_int 0))
     = Return (PyInt 0)
  /\ DroopParams_gain
       (DroopParams_init (PrimFloat.opp (float_of_int 0)) (float_of_int 1)
          (float_of_int 0))
     = Return (PyInt 0)
  /\ DroopParams_gain
       (DroopParams_init PrimFloat.infinity (float_of_int 1) (float_of_int 0))
     = Return (PyFloatV (float_of_int 0)).
Proof. repeat split; vm_compute; reflexivity. Qed.

End ParamsFacts.

(** ** The visualisation filter *)

Module ReFacts.
Import Re.

Section Matcher.
Variable in_class : string -> ascii -> bool.

Lemma fullmatch_Void (s : string) : fullmatch in_class Void s = false.
Proof. induction s as [|c s IH]; [reflexivity|exact IH]. Qed.

Lemma fullmatch_Alt (r1 r2 : regex) (s : string) :
  fullmatch in_class (Alt r1 r2) s
  = fullmatch in_class r1 s || fullmatch in_class r2 s.
Proof.
  revert r1 r2. induction s as [|c s IH]; intros r1 r2; [reflexivity|].
  cbn [fullmatch deriv]. apply IH.
Qed.

(** The joined pattern matches what one of the patterns matches. *)
Lemma fullmatch_join (rs : list regex) (s : string) :
  rs <> [] ->
  fullmatch in_class (join rs) s
  = existsb (fun r => fullmatch in_class r s) rs.
Proof.
  induction rs as [|r rs IH]; [congruence|]. intros _.
  destruct rs as [|r' rs].
  - cbn. rewrite orb_false_r. reflexivity.
  - change (join (r :: r' :: rs)) with (Alt r (join (r' :: rs))).
    rewrite fullmatch_Alt, IH by discriminate. reflexivity.
Qed.

(** With no pattern at all the joined pattern is the empty one: it matches
    the empty name only. *)
Lemma fullmatch_join_nil (s : string) :
  fullmatch in_class (join []) s = String.eqb s "".
Proof.
  destruct s as [|c s]; [reflexivity|]. cbn. apply fullmatch_Void.
Qed.

End Matcher.

(** The matcher at a few patterns: a star spans dots, a question mark is
    one character, a literal dot is only a dot, a bracket expression is one
    listed character, an unclosed bracket is a literal. *)
Lemma fullmatch_examples :
  map (fullmatch listed_class (translate "*.i"))
      ["a.i"; "lc1.inductor1.i"; ".i"; "a.v"; "a.ix"; "axi"; "i"]
  = [true; true; true; false; false; false; false] /\
  map (fullmatch listed_class (translate "a?c")) ["abc"; "ac"; "abbc"]
  = [true; false; false] /\
  map (fullmatch listed_class (translate "x[12].v")) ["x1.v"; "x2.v"; "x3.v"]
  = [true; true; false] /\
  map (fullmatch listed_class (translate "x[1")) ["x[1"; "x1"]
  = [true; false] /\
  map (fullmatch listed_class (Star Dot)) ["a.i"; ""]
  = [true; true].
Proof. repeat split; vm_compute; reflexivity. Qed.

End ReFacts.

Module RenderFacts.
Import Re Modelica ReFacts.

Section WithFloat.
Context {F FMU : Type} `{PyFloat F} `{FMUModelME2 F FMU} `{Scipy F FMU}.
Variable PlotTmpl : Type.
Variable in_class : string -> ascii -> bool.

Let Env : Type := ModelicaEnv F FMU PlotTmpl.

Lemma existsb_translate (col : string) (pats : list string) :
  existsb (fun r => fullmatch in_class r col) (map translate pats)
  = existsb (fun p => fullmatch in_class (translate p) col) pats.
Proof.
  induction pats as [|p pats IH]; [reflexivity|].
  cbn [map existsb]. rewrite IH. reflexivity.
Qed.


(** The columns of the figures [render] builds from the structured columns
    are the columns the pattern matches, in order. *)
Lemma rendered_cols_render_cols (r : regex) (items : list ColItem) :
  rendered_cols (@render_cols PlotTmpl in_class r items)
  = filter (fullmatch in_class r) (flat_map item_cols items).
Proof.
  induction items as [|item items IH]; [reflexivity|].
  cbn [render_cols flat_map]. rewrite filter_app.
  destruct (filter (fullmatch in_class r) (item_cols item)) as [|c cs] eqn:E.
  - exact IH.
  - cbn [rendered_cols flat_map]. fold (@rendered_cols PlotTmpl).
    rewrite <- IH. reflexivity.
Qed.


End WithFloat.
End RenderFacts.

Module RenderExamples.
Import Re Modelica Integrator RenderFacts.



(** Scenario D, figure by figure: a flat schema gives one figure per
    selected column, a group gives one figure with the selected columns. *)
Lemma scenario_D_figures :
  (exists e,
     ModelicaEnv_init scenario_D_args = Return e /\
     render listed_class true e
     = Some [ColsFig ["a.i"]; ColsFig ["b.i"]]) /\
  (exists e,
     ModelicaEnv_init scenario_D_grouped = Return e /\
     render listed_class true e = Some [ColsFig ["a.i"; "b.i"]]).
Proof.
  split; eexists; (split; [reflexivity|]); vm_compute; reflexivity.
Qed.

End RenderExamples.

(** ** The stepping engine, for every float arithmetic *)

Module StepFacts.
Import Modelica.

Section WithFloat.
Context {F FMU : Type} `{PyFloat F} `{FMUModelME2 F FMU} `{Scipy F FMU}.
Variable PlotTmpl : Type.

Let Env : Type := ModelicaEnv F FMU PlotTmpl.

Lemma is_done_failed (e : Env) :
  _failed e = true ->
  is_done e
  = (Return true, e, [Log INFO "reward was extreme, episode terminated"]).
Proof.
  intros Hf. unfold is_done, bind, gets, log, ret. rewrite Hf. reflexivity.
Qed.

Lemma is_done_clock (e : Env) (t0 t1 : F) :
  _failed e = false ->
  sim_time_interval e = Some (t0, t1) ->
  is_done e = (Return (fgtb (fabs t1) (time_end (cfg e))), e,
               [Log DEBUG "t: {t1}, "]).
Proof.
  intros Hf Hi. unfold is_done, bind, gets, log, ret.
  rewrite Hf, Hi. reflexivity.
Qed.

(** [is_done] reads the object and leaves it as it is. *)
Lemma is_done_reads (e e' : Env) r l :
  is_done e = (r, e', l) -> e' = e.
Proof.
  unfold is_done, bind, gets, log, ret, raise.
  destruct (_failed e); [intros [= _ <- _]; reflexivity|].
  destruct (sim_time_interval e) as [[t0 t1]|]; intros [= _ <- _]; reflexivity.
Qed.

Lemma running_inv (e : Env) :
  running e <->
  _failed e = false /\
  exists t0 t1, sim_time_interval e = Some (t0, t1) /\
                fgtb (fabs t1) (time_end (cfg e)) = false.
Proof.
  unfold running. split.
  - intros [l Hl]. destruct (_failed e) eqn:Hf.
    + rewrite (is_done_failed e Hf) in Hl. discriminate.
    + split; [reflexivity|].
      destruct (sim_time_interval e) as [[t0 t1]|] eqn:Hi.
      * rewrite (is_done_clock e Hf Hi) in Hl.
        exists t0, t1. split; [reflexivity|]. congruence.
      * unfold is_done, bind, gets, raise in Hl. rewrite Hf, Hi in Hl.
        discriminate.
  - intros (Hf & t0 & t1 & Hi & Hd).
    eexists. rewrite (is_done_clock e Hf Hi), Hd. reflexivity.
Qed.

Lemma terminal_inv (e : Env) :
  terminal e <->
  _failed e = true \/
  exists t0 t1, sim_time_interval e = Some (t0, t1) /\
                fgtb (fabs t1) (time_end (cfg e)) = true.
Proof.
  unfold terminal. split.
  - intros [l Hl]. destruct (_failed e) eqn:Hf; [left; reflexivity|right].
    destruct (sim_time_interval e) as [[t0 t1]|] eqn:Hi.
    + rewrite (is_done_clock e Hf Hi) in Hl.
      exists t0, t1. split; [reflexivity|]. congruence.
    + unfold is_done, bind, gets, raise in Hl. rewrite Hf, Hi in Hl.
      discriminate.
  - intros [Hf | (t0 & t1 & Hi & Hd)].
    + eexists. apply is_done_failed, Hf.
    + destruct (_failed e) eqn:Hf.
      * eexists. apply is_done_failed, Hf.
      * eexists. rewrite (is_done_clock e Hf Hi), Hd. reflexivity.
Qed.

Ltac run :=
  lazy beta iota zeta delta
    [step _simulate is_done bind log gets ret raise modify out_of_fuel
     cfg model _failed sim_time_interval _state measurement history
     model_output_idx set_failed set_sim_time_interval set_history set_state
     set_model set_measurement set_model_output_idx negb values_of
     history_cols history_append history_pushed append_to_history
     structured].

Ltac run_in H :=
  lazy beta iota zeta delta
    [cfg model _failed sim_time_interval _state measurement history
     model_output_idx set_failed set_sim_time_interval set_history set_state
     set_model set_measurement set_model_output_idx values_of integrate
     push_inputs after_step advance in_schema simulated history_cols
     structured] in H.

Lemma failed_of_reward_Some (r : F) (e : Env) :
  failed_of_reward (Some r) e = (Return (failed_flag r), e, []).
Proof.
  unfold failed_of_reward, failed_flag, np_isnan, np_isinf, lt_zero,
    bind, ret; cbn.
  destruct (fisnan r); cbn; [reflexivity|].
  destruct (fisinf r); cbn; [|reflexivity].
  destruct (fltb r (of_int 0)); reflexivity.
Qed.

Lemma failed_of_reward_None (e : Env) :
  failed_of_reward None e
  = (Raise (TypeError "ufunc 'isnan' not supported for the input types"),
     e, []).
Proof. reflexivity. Qed.

Lemma step_terminal (e : Env) (a : Action F) (l : list LogRecord) :
  is_done e = (Return true, e, l) ->
  step a e
  = (Return (_state e, Some (fneg finf), true, []), e,
     entry_log (l ++ [misuse_warning])).
Proof.
  intros Hd. unfold step, bind at 1 2. cbn [log]. rewrite Hd.
  reflexivity.
Qed.

Lemma step_uninitialised (e : Env) (a : Action F) :
  _failed e = false ->
  sim_time_interval e = None ->
  step a e
  = (Raise (TypeError "'NoneType' object is not subscriptable"), e,
     entry_log []).
Proof.
  intros Hf Hi. destruct e as [c m f i s ms [st rw] idx].
  cbn in Hf, Hi. subst f i. reflexivity.
Qed.

Lemma step_rejected (e : Env) (a : Action F) :
  running e ->
  List.length (values_of a) <> List.length (model_input_names (cfg e)) ->
  exists l,
    step a e = (Raise (ValueError arity_message), e, l) /\
    In (Log ERROR arity_message) l.
Proof.
  intros Hr Hn. apply running_inv in Hr.
  destruct Hr as (Hf & t0 & t1 & Hi & Hd).
  apply Nat.eqb_neq in Hn.
  destruct e as [c m f i s ms [st rw] idx].
  cbn in Hf, Hi, Hd, Hn |- *. subst f i.
  destruct a as [vs | v]; cbn [values_of] in Hn; run; rewrite Hd; run; rewrite Hn;
    eexists; (split; [reflexivity|]); cbn; tauto.
Qed.

Lemma step_solver_raises (e : Env) (a : Action F) (t_span : F * F)
  (x : exn) (m' : FMU) :
  running e ->
  List.length (values_of a) = List.length (model_input_names (cfg e)) ->
  sim_time_interval e = Some t_span ->
  integrate e t_span (push_inputs (values_of a) e) = (Failed x, m') ->
  exists l, step a e = (Raise x, set_model m' e, l).
Proof.
  intros Hr Hn Hi Hs. apply running_inv in Hr.
  destruct Hr as (Hf & t0 & t1 & Hi' & Hd).
  rewrite Hi in Hi'. injection Hi' as ->.
  apply Nat.eqb_eq in Hn.
  unfold integrate, push_inputs in Hs.
  destruct e as [c m f i s ms [st rw] idx].
  cbn in Hf, Hi, Hd, Hn |- *. subst f i.
  destruct a as [vs | v]; cbn [values_of] in Hn |- *; run_in Hs;
    run; rewrite Hd; run; rewrite Hn; run;
    (destruct (model_parameters c) as [|p ps] eqn:Hp; run_in Hs; run;
     rewrite Hs; run;
     eexists; reflexivity).
Qed.

(** The history turns the record down: the call raises the history's
    exception, with the model and the state already updated and the clock,
    the failure flag and the history as before. *)
Lemma step_history_raises (e : Env) (a : Action F) (t_span : F * F)
  (y : list F) (m' : FMU) :
  running e ->
  List.length (values_of a) = List.length (model_input_names (cfg e)) ->
  sim_time_interval e = Some t_span ->
  integrate e t_span (push_inputs (values_of a) e) = (Solved y, m') ->
  ~ in_schema e (simulated e y m' ++ measurement e) ->
  exists l,
    step a e
    = (Raise schema_error,
       set_state (simulated e y m')
                 (set_model (set_continuous_states y m') e),
       l).
Proof.
  intros Hr Hn Hi Hs Hfit. apply running_inv in Hr.
  destruct Hr as (Hf & t0 & t1 & Hi' & Hd).
  rewrite Hi in Hi'. injection Hi' as ->.
  apply Nat.eqb_eq in Hn. unfold in_schema in Hfit.
  apply Nat.eqb_neq in Hfit.
  unfold integrate, push_inputs in Hs.
  destruct e as [c m f i s ms [st rw] idx].
  cbn in Hf, Hi, Hd, Hn |- *. subst f i.
  run_in Hfit.
  destruct a as [vs | v]; cbn [values_of] in Hn |- *; run_in Hs;
    run; rewrite Hd; run; rewrite Hn; run;
    (destruct (model_parameters c) as [|p ps] eqn:Hp; run_in Hs; run;
     rewrite Hs; run; rewrite Hfit; run;
     eexists; reflexivity).
Qed.

Lemma step_reward_None (e : Env) (a : Action F) (t_span : F * F)
  (y : list F) (m' : FMU) :
  running e ->
  List.length (values_of a) = List.length (model_input_names (cfg e)) ->
  sim_time_interval e = Some t_span ->
  integrate e t_span (push_inputs (values_of a) e) = (Solved y, m') ->
  in_schema e (simulated e y m' ++ measurement e) ->
  let e' := after_step e t_span y m' false in
  reward (cfg e) (history_cols (history e)) (_state e' ++ measurement e)
  = None ->
  exists l,
    step a e
    = (Raise (TypeError "ufunc 'isnan' not supported for the input types"),
       e', l).
Proof.
  intros Hr Hn Hi Hs Hfit e' Hrew. apply running_inv in Hr.
  destruct Hr as (Hf & t0 & t1 & Hi' & Hd).
  rewrite Hi in Hi'. injection Hi' as ->.
  apply Nat.eqb_eq in Hn. unfold in_schema in Hfit.
  apply Nat.eqb_eq in Hfit.
  subst e'. unfold after_step, advance in *. unfold integrate, push_inputs in Hs.
  destruct e as [c m f i s ms [st rw] idx].
  cbn in Hf, Hi, Hd, Hn, Hrew |- *. subst f i.
  unfold history_cols in Hrew. run_in Hfit.
  destruct a as [vs | v]; cbn [values_of] in Hn |- *; run_in Hs;
    run; rewrite Hd; run; rewrite Hn; run;
    (destruct (model_parameters c) as [|p ps] eqn:Hp; run_in Hs; run;
     rewrite Hs; run; rewrite Hfit; run;
     rewrite Hd; run; rewrite Hrew; rewrite failed_of_reward_None; run;
     eexists; reflexivity).
Qed.

Lemma step_accepted (e : Env) (a : Action F) (t_span : F * F) (y : list F)
  (m' : FMU) (r : F) :
  running e ->
  List.length (values_of a) = List.length (model_input_names (cfg e)) ->
  sim_time_interval e = Some t_span ->
  integrate e t_span (push_inputs (values_of a) e) = (Solved y, m') ->
  in_schema e (simulated e y m' ++ measurement e) ->
  let e' := after_step e t_span y m' (failed_flag r) in
  reward (cfg e) (history_cols (history e)) (_state e' ++ measurement e)
  = Some r ->
  exists l,
    step a e
    = (Return (_state e' ++ measurement e, Some r,
               failed_flag r
               || fgtb (fabs (snd (advance (time_step_size (cfg e)) t_span)))
                       (time_end (cfg e)),
               []),
       e', l).
Proof.
  intros Hr Hn Hi Hs Hfit e' Hrew. apply running_inv in Hr.
  destruct Hr as (Hf & t0 & t1 & Hi' & Hd).
  rewrite Hi in Hi'. injection Hi' as ->.
  apply Nat.eqb_eq in Hn. unfold in_schema in Hfit.
  apply Nat.eqb_eq in Hfit.
  pose proof (fun e0 : Env => failed_of_reward_Some r e0) as Hfr.
  subst e'. remember (failed_flag r) as b eqn:Hb. clear Hb.
  unfold after_step, advance in *. unfold integrate, push_inputs in Hs.
  destruct e as [c m f i s ms [st rw] idx].
  cbn in Hf, Hi, Hd, Hn, Hrew |- *. subst f i.
  unfold history_cols in Hrew. run_in Hfit.
  destruct a as [vs | v]; cbn [values_of] in Hn |- *; run_in Hs;
    run; rewrite Hd; run; rewrite Hn; run;
    (destruct (model_parameters c) as [|p ps] eqn:Hp; run_in Hs; run;
     rewrite Hs; run; rewrite Hfit; run;
     rewrite Hd; run; rewrite Hrew; rewrite Hfr;
     destruct b; run; eexists; reflexivity).
Qed.

(** Every call goes one of the ways of [Outcome]. *)
Lemma step_outcome (e e' : Env) (a : Action F) r l :
  step a e = (r, e', l) -> Outcome e a r e'.
Proof.
  intros Hstep.
  destruct (_failed e) eqn:Hf.
  { pose proof (is_done_failed e Hf) as Hd.
    rewrite (@step_terminal e a _ Hd) in Hstep. injection Hstep as <- <- <-.
    apply PostTerminal. eexists; eassumption. }
  destruct (sim_time_interval e) as [[t0 t1]|] eqn:Hi.
  2:{ rewrite (@step_uninitialised e a Hf Hi) in Hstep.
      injection Hstep as <- <- <-. apply Uninitialised; assumption. }
  pose proof (is_done_clock e Hf Hi) as Hd.
  destruct (fgtb (fabs t1) (time_end (cfg e))) eqn:Hg.
  { rewrite (@step_terminal e a _ Hd) in Hstep. injection Hstep as <- <- <-.
    apply PostTerminal. eexists; eassumption. }
  assert (Hrun : running e) by (eexists; eassumption).
  destruct (Nat.eq_dec (List.length (values_of a))
                       (List.length (model_input_names (cfg e)))) as [Hn|Hn].
  2:{ destruct (@step_rejected e a Hrun Hn) as (l' & Hl' & _).
      rewrite Hl' in Hstep. injection Hstep as <- <- <-.
      apply Rejected; assumption. }
  destruct (integrate e (t0, t1) (push_inputs (values_of a) e))
    as [[y|x] m'] eqn:Hs.
  2:{ destruct (@step_solver_raises e a _ _ _ Hrun Hn Hi Hs) as (l' & Hl').
      rewrite Hl' in Hstep. injection Hstep as <- <- <-.
      apply SolverRaised with (t_span := (t0, t1)); assumption. }
  destruct (Nat.eq_dec
              (List.length (simulated e y m' ++ measurement e))
              (List.length (history_cols (history e)))) as [Hfit|Hfit].
  2:{ destruct (@step_history_raises e a _ _ _ Hrun Hn Hi Hs Hfit)
        as (l' & Hl').
      rewrite Hl' in Hstep. injection Hstep as <- <- <-.
      apply HistoryRaised with (t_span := (t0, t1)); assumption. }
  destruct (reward (cfg e) (history_cols (history e))
              (_state (after_step e (t0, t1) y m' false) ++ measurement e))
    as [rw|] eqn:Hrew.
  - destruct (@step_accepted e a _ _ _ rw Hrun Hn Hi Hs Hfit Hrew)
      as (l' & Hl').
    rewrite Hl' in Hstep. injection Hstep as <- <- <-.
    apply Accepted with (t_span := (t0, t1)) (y := y) (m' := m');
      assumption.
  - destruct (@step_reward_None e a _ _ _ Hrun Hn Hi Hs Hfit Hrew)
      as (l' & Hl').
    rewrite Hl' in Hstep. injection Hstep as <- <- <-.
    apply RewardNone with (t_span := (t0, t1)) (y := y) (m' := m');
      assumption.
Qed.

Lemma step_scalar_log (e : Env) (v : F) :
  running e ->
  exists r e' l1 l2,
    step (ActSeq [v]) e = (r, e', l1 ++ l2) /\
    step (ActScalar v) e = (r, e', l1 ++ scalar_warning :: l2).
Proof.
  intros [ld Hd].
  unfold step.
  match goal with |- context [bind (ret [v]) ?k] => set (K := k) end.
  lazy beta iota zeta delta [bind log ret]. rewrite Hd.
  destruct (K [v] e) as [[r e'] l].
  exists r, e', (entry_log ld), l. unfold entry_log, scalar_warning.
  split.
  - destruct r; cbn; rewrite <- ?app_assoc; reflexivity.
  - destruct r; cbn; rewrite <- ?app_assoc; reflexivity.
Qed.

(** A call that returned [done = True] leaves a terminal object. *)
Lemma step_done_terminal (e e' : Env) (a : Action F) obs r info l :
  step a e = (Return (obs, r, true, info), e', l) -> terminal e'.
Proof.
  intros Hstep. apply step_outcome in Hstep.
  inversion Hstep
    as [| Ht | | | | | t_span y m' rw Hrun Hn Hi Hs Hfit e2 Hrew];
    subst.
  - exact Ht.
  - apply terminal_inv. subst e2. cbn.
    destruct (failed_flag rw); [left; reflexivity|right].
    destruct t_span as [t0 t1]. exists (fadd t0 (time_step_size (cfg e))),
      (fadd t1 (time_step_size (cfg e))).
    split; [reflexivity|]. cbn in *. assumption.
Qed.

(** Without a measurement the observation a call returns is the state the
    object keeps. *)
Lemma step_last_observation (e e' : Env) (a : Action F) obs r d info l :
  step a e = (Return (obs, r, d, info), e', l) ->
  measurement e = [] -> _state e' = obs.
Proof.
  intros Hstep Hm. apply step_outcome in Hstep.
  inversion Hstep; subst; [reflexivity|].
  rewrite Hm, app_nil_r. reflexivity.
Qed.



(** C6. On a running object, an action whose list of values has another
    length than the list of input names makes [step] log the error and raise
    [ValueError]; the object after the call is the object before it: nothing
    was set on the model, the solver was not called, history and clock are
    as they were. *)
Theorem step_arity_mismatch (e : Env) (a : Action F) :
  running e ->
  List.length (values_of a) <> List.length (model_input_names (cfg e)) ->
  exists l,
    step a e = (Raise (ValueError arity_message), e, l) /\
    In (Log ERROR arity_message) l.
Proof.
  intros Hrun Hn. exact (@step_rejected e a Hrun Hn).
Qed.

(** C10. A value that is not iterable is wrapped into a list of length one
    before the length check, and the warning is logged: on a running object
    with exactly one declared input the call is not turned down, it does
    what the call with the one-element list does, with the same result and
    the same object after it.  The value is written to the model and the
    solver is run; what the call returns or raises is decided from there as
    for a list, and when the solver returns, the history takes the record
    and the reward is a float, it is the tuple of an accepted step. *)
Theorem step_scalar_action (e : Env) (v : F) :
  running e ->
  List.length (model_input_names (cfg e)) = 1%nat ->
  exists r (e' : Env) l1 l2 t_span,
    step (ActSeq [v]) e = (r, e', l1 ++ l2) /\
    step (ActScalar v) e = (r, e', l1 ++ scalar_warning :: l2) /\
    sim_time_interval e = Some t_span /\
    ((exists x m',
         integrate e t_span (push_inputs [v] e) = (Failed x, m') /\
         r = Raise x /\ e' = set_model m' e)
     \/
     (exists y m',
         integrate e t_span (push_inputs [v] e) = (Solved y, m') /\
         model e' = set_continuous_states y m' /\
         (in_schema e (simulated e y m' ++ measurement e) ->
          forall rw,
            reward (cfg e) (history_cols (history e))
                   (simulated e y m' ++ measurement e)
            = Some rw ->
            r = Return (simulated e y m' ++ measurement e, Some rw,
                        failed_flag rw
                        || fgtb (fabs (snd (advance (time_step_size (cfg e))
                                                    t_span)))
                                (time_end (cfg e)),
                        [])
            /\ e' = after_step e t_span y m' (failed_flag rw)))).
Proof.
  intros Hrun Hn.
  destruct (@step_scalar_log e v Hrun) as (r & e' & l1 & l2 & Hseq & Hsc).
  exists r, e', l1, l2.
  pose proof Hsc as Hout. apply step_outcome in Hout.
  inversion Hout
    as [ Hf Hnone | Ht | _ Hne
       | t_span x m' _ Hlen Hi Hs
       | t_span y m' _ Hlen Hi Hs Hfit
       | t_span y m' _ Hlen Hi Hs Hfit e2 Hrew
       | t_span y m' rw _ Hlen Hi Hs Hfit e2 Hrew]; subst.
  - apply running_inv in Hrun as (_ & t0 & t1 & Hi & _). congruence.
  - destruct Hrun as [lr Hlr], Ht as [lt Hlt]. congruence.
  - cbn [values_of List.length] in Hne. congruence.
  - exists t_span. repeat (split; [assumption|]).
    left. exists x, m'. cbn [values_of] in Hs. repeat split. exact Hs.
  - exists t_span. repeat (split; [assumption|]).
    right. exists y, m'. cbn [values_of] in Hs. split; [exact Hs|].
    split; [reflexivity|]. intros Hok. contradiction.
  - exists t_span. repeat (split; [assumption|]).
    right. exists y, m'. cbn [values_of] in Hs. split; [exact Hs|].
    split; [reflexivity|]. intros _ rw Hrw.
    subst e2. cbn [_state after_step] in Hrew.
    unfold simulated in Hrw. congruence.
  - exists t_span. repeat (split; [assumption|]).
    right. exists y, m'. cbn [values_of] in Hs. split; [exact Hs|].
    split; [reflexivity|]. intros _ rw' Hrw.
    subst e2. cbn [_state after_step] in Hrew.
    unfold simulated in Hrw. rewrite Hrew in Hrw. injection Hrw as <-.
    split; reflexivity.
Qed.

(** C1, at the failing input. On a running object, with a fitting action,
    a solver that returns and a record of the length of the history's
    schema (so that the history takes it), a reward function that returns
    [None] makes [step] raise [TypeError] out of [np.isnan]: no tuple is
    returned and the failure flag stays [False], although the state, the
    history and the clock interval have been updated. *)
Theorem step_reward_None_raises (e : Env) (a : Action F) (t_span : F * F)
  (y : list F) (m' : FMU) :
  running e ->
  List.length (values_of a) = List.length (model_input_names (cfg e)) ->
  sim_time_interval e = Some t_span ->
  integrate e t_span (push_inputs (values_of a) e) = (Solved y, m') ->
  in_schema e (simulated e y m' ++ measurement e) ->
  let e' := after_step e t_span y m' false in
  reward (cfg e) (history_cols (history e)) (_state e' ++ measurement e)
  = None ->
  exists l,
    step a e
    = (Raise (TypeError "ufunc 'isnan' not supported for the input types"),
       e', l) /\
    _failed e' = false.
Proof.
  intros Hrun Hn Hi Hs Hfit e' Hrew.
  destruct (@step_reward_None e a t_span y m' Hrun Hn Hi Hs Hfit Hrew)
    as [l Hl].
  exists l. split; [exact Hl|reflexivity].
Qed.

(** C3, at the failing input. On a running object, with a fitting action,
    a solver that returns and a record of the length of the history's
    schema (so that the history takes it), a step whose reward signals
    failure returns [done = True] and has moved the clock interval by one
    step size all the same: the interval is moved before the reward is
    looked at. *)
Theorem step_failure_advances_interval (e : Env) (a : Action F)
  (t_span : F * F) (y : list F) (m' : FMU) (r : F) :
  running e ->
  List.length (values_of a) = List.length (model_input_names (cfg e)) ->
  sim_time_interval e = Some t_span ->
  integrate e t_span (push_inputs (values_of a) e) = (Solved y, m') ->
  in_schema e (simulated e y m' ++ measurement e) ->
  let e' := after_step e t_span y m' true in
  reward (cfg e) (history_cols (history e)) (_state e' ++ measurement e)
  = Some r ->
  failed_flag r = true ->
  exists l,
    step a e = (Return (_state e' ++ measurement e, Some r, true, []), e', l)
    /\ _failed e' = true
    /\ sim_time_interval e'
       = Some (advance (time_step_size (cfg e)) t_span).
Proof.
  intros Hrun Hn Hi Hs Hfit e' Hrew Hfail.
  destruct (@step_accepted e a t_span y m' r Hrun Hn Hi Hs Hfit Hrew)
    as [l Hl].
  rewrite Hfail in Hl. exists l. split; [exact Hl|]. split; reflexivity.
Qed.

(** C4, as amended. When the solver raises, [step] raises the same
    exception: no tuple is returned and nothing marks the episode as
    failed.  The object keeps the model as the solver left it, with the
    inputs already set; the failure flag, the clock interval, the state and
    the history are as before the call. *)
Theorem step_solver_exception_propagates (e : Env) (a : Action F)
  (t_span : F * F) (x : exn) (m' : FMU) :
  running e ->
  List.length (values_of a) = List.length (model_input_names (cfg e)) ->
  sim_time_interval e = Some t_span ->
  integrate e t_span (push_inputs (values_of a) e) = (Failed x, m') ->
  exists l e',
    step a e = (Raise x, e', l) /\
    model e' = m' /\
    _failed e' = _failed e /\
    sim_time_interval e' = sim_time_interval e /\
    _state e' = _state e /\
    history e' = history e.
Proof.
  intros Hrun Hn Hi Hs.
  destruct (@step_solver_raises e a t_span x m' Hrun Hn Hi Hs)
    as [l Hl].
  exists l, (set_model m' e). split; [exact Hl|]. repeat split.
Qed.

(** What [__init__] stores when it returns. *)
Lemma init_returns (a : Args F FMU PlotTmpl) (e : Env) :
  ModelicaEnv_init a = Return e ->
  time_start (cfg e) = arg_time_start a /\
  time_step_size (cfg e) = arg_time_step a /\
  time_end (cfg e)
  = init_time_end (arg_time_start a) (arg_time_step a)
                  (arg_max_episode_steps a) /\
  reward (cfg e) = arg_reward_fun a /\
  arg_model_input a = Some (model_input_names (cfg e)) /\
  _failed e = false /\
  sim_time_interval e = None /\
  measurement e = [].
Proof.
  unfold ModelicaEnv_init.
  destruct (arg_model_input a); [|discriminate].
  destruct (arg_model_output a); [|discriminate].
  destruct (negb (in_viz_modes (arg_viz_mode a))); [discriminate|].
  destruct (init_viz (arg_viz_cols a)) as [[re tm]| |]; try discriminate.
  intros [= <-]. cbn. repeat split.
Qed.

(** *** The clock interval *)

Ltac run_reset :=
  lazy beta iota zeta delta
    [reset _setup_fmu _simulate bind log gets ret raise modify out_of_fuel
     cfg model _failed sim_time_interval _state measurement history
     model_output_idx set_failed set_sim_time_interval set_history set_state
     set_model set_measurement set_model_output_idx
     history_reset history_append history_pushed append_to_history
     history_cols structured rows].

(** What [reset] leaves when it returns: the history has taken the state,
    which is what the model gives at the value references of the object. *)
Lemma reset_returns (fuel : nat) (e e0 : Env) obs l :
  reset fuel e = (Return obs, e0, l) ->
  cfg e0 = cfg e /\
  _failed e0 = false /\
  measurement e0 = [] /\
  sim_time_interval e0
  = Some (time_start (cfg e),
          fadd (time_start (cfg e)) (time_step_size (cfg e))) /\
  _state e0 = obs /\
  rows (history e0) = [obs] /\
  in_schema e0 obs /\
  obs = get_real (model_output_idx e0) (model e0).
Proof.
  destruct e as [c m f i s ms [st rw] idx]. run_reset.
  destruct (event_iteration fuel _) as [m1|]; run_reset; [|discriminate].
  destruct (solve_ivp _ _ _ _ _ _) as [[y|x] m2]; run_reset;
    [|discriminate].
  destruct (Nat.eqb _ _) eqn:Hfit; run_reset; [|discriminate].
  apply Nat.eqb_eq in Hfit.
  intros [= <- <- _]. repeat split. exact Hfit.
Qed.

(** [reset] returns as soon as the event iteration settles within the fuel
    and the solver returns. *)
Lemma reset_total (fuel : nat) (e : Env) :
  (forall m, exists m', event_iteration fuel m = Some m') ->
  (forall t_span m, exists y m',
      integrate e t_span m = (Solved y, m')) ->
  (forall idx m, List.length (get_real idx m) = List.length idx) ->
  List.length (model_output_names (cfg e))
  = List.length (history_cols (history e)) ->
  exists obs e0 l, reset fuel e = (Return obs, e0, l).
Proof.
  intros Hev Hsol Hreal Hlen. unfold integrate in Hsol.
  destruct e as [c m f i s ms [st rw] idx]. run_reset.
  match goal with |- context [event_iteration fuel ?m0] =>
    destruct (Hev m0) as [m1 ->] end.
  run_reset.
  match goal with |- context [solve_ivp _ ?sp _ _ _ ?m0] =>
    destruct (Hsol sp m0) as (y & m2 & Hy) end.
  cbn [cfg solver_method] in Hy. rewrite Hy. run_reset.
  cbn [cfg history history_cols structured] in Hlen.
  rewrite Hreal, length_map, Hlen, Nat.eqb_refl.
  do 3 eexists. reflexivity.
Qed.

(** A call of [step] never touches the configuration; it leaves the clock
    interval as it is, or moves both ends by one step size, and it moves it
    exactly when the call gets past the solver. *)
Lemma step_interval (e e' : Env) (a : Action F) r l :
  step a e = (r, e', l) ->
  cfg e' = cfg e /\
  measurement e' = measurement e /\
  (sim_time_interval e' = sim_time_interval e \/
   exists t_span,
     running e /\
     sim_time_interval e = Some t_span /\
     sim_time_interval e'
     = Some (advance (time_step_size (cfg e)) t_span)).
Proof.
  intros Hstep. apply step_outcome in Hstep.
  inversion Hstep as [ | | | | 
                     | t_span y m' Hrun Hn Hi Hs Hfit e2 Hrew
                     | t_span y m' rw Hrun Hn Hi Hs Hfit e2 Hrew]; subst;
    (split; [reflexivity|]); (split; [reflexivity|]);
    try (left; reflexivity);
    right; exists t_span; repeat split; assumption.
Qed.

(** A call on a running object that returns a tuple has moved the
    interval. *)
Lemma step_returned_advances (e e' : Env) (a : Action F) tuple l :
  running e ->
  step a e = (Return tuple, e', l) ->
  exists t_span,
    sim_time_interval e = Some t_span /\
    sim_time_interval e'
    = Some (advance (time_step_size (cfg e)) t_span).
Proof.
  intros Hrun Hstep. apply step_outcome in Hstep.
  inversion Hstep
    as [ | Ht | | | | | t_span y m' rw _ Hn Hi Hs Hfit e2 Hrew]; subst.
  - destruct Hrun as [l1 Hl1], Ht as [l2 Hl2]. congruence.
  - exists t_span. split; [assumption|reflexivity].
Qed.

End WithFloat.
End StepFacts.

(** ** The clock in exact arithmetic *)

Module ExactFacts.
Import Modelica StepFacts.

Lemma Qltb_false (a b : Q) : Qltb a b = false <-> b <= a.
Proof.
  unfold Qltb. rewrite negb_false_iff. apply Qle_bool_iff.
Qed.

Lemma Qltb_true (a b : Q) : Qltb a b = true <-> a < b.
Proof.
  unfold Qltb. rewrite negb_true_iff. split.
  - intros Hb. apply Qnot_le_lt. intros Hle.
    apply Qle_bool_iff in Hle. congruence.
  - intros Hlt. destruct (Qle_bool b a) eqn:E; [|reflexivity].
    apply Qle_bool_iff in E. exfalso. eapply Qlt_not_le; eassumption.
Qed.

(** [abs(b) > t_end] on finite values. *)
Lemma fgtb_abs_false (b t_end : Q) :
  fgtb (fabs (Fin b)) (Fin t_end) = false <-> - t_end <= b /\ b <= t_end.
Proof.
  change (fgtb (fabs (Fin b)) (Fin t_end)) with (Qltb t_end (Qabs b)).
  rewrite Qltb_false. apply Qabs_Qle_condition.
Qed.

Lemma fgtb_abs_true (b t_end : Q) :
  t_end < b -> fgtb (fabs (Fin b)) (Fin t_end) = true.
Proof.
  intros Hlt.
  change (fgtb (fabs (Fin b)) (Fin t_end)) with (Qltb t_end (Qabs b)).
  apply Qltb_true. eapply Qlt_le_trans; [exact Hlt|apply Qle_Qabs].
Qed.

Lemma steps_of_S (n : nat) (h : Q) : steps_of (S n) h == steps_of n h + h.
Proof.
  unfold steps_of. rewrite Nat2Z.inj_succ. unfold Z.succ.
  rewrite inject_Z_plus. ring.
Qed.

Lemma steps_of_le (n m : nat) (h : Q) :
  0 <= h -> (n <= m)%nat -> steps_of n h <= steps_of m h.
Proof.
  intros Hh Hnm. unfold steps_of. apply Qmult_le_compat_r; [|exact Hh].
  rewrite <- Zle_Qle. lia.
Qed.

Lemma steps_of_1 (h : Q) : steps_of 1 h == h.
Proof. unfold steps_of. cbn. ring. Qed.

(** The failure expression in exact arithmetic: NaN and minus infinity, and
    nothing else; in binary64, at the four kinds of value. *)
Lemma failed_flag_exact (r : xQ) :
  failed_flag r = true <-> r = NaN \/ r = NInf.
Proof.
  destruct r as [q| | |]; cbn; split; intros Hr;
    try discriminate; try reflexivity; try tauto;
    destruct Hr as [Hr|Hr]; discriminate.
Qed.

Lemma failed_flag_binary64 :
  failed_flag PrimFloat.nan = true /\
  failed_flag PrimFloat.neg_infinity = true /\
  failed_flag PrimFloat.infinity = false /\
  failed_flag (float_of_int 1) = false.
Proof. repeat split; vm_compute; reflexivity. Qed.

Section WithModel.
Context {FMU : Type} `{FMUModelME2 xQ FMU} `{Scipy xQ FMU}.
Variable PlotTmpl : Type.

Let Env : Type := ModelicaEnv xQ FMU PlotTmpl.

(** The width test on finite ends. *)
Lemma width_ok_inv (e : Env) (h : Q) :
  time_step_size (cfg e) = Fin h ->
  width_ok e = true ->
  exists a b, sim_time_interval e = Some (Fin a, Fin b) /\ b - a == h.
Proof.
  unfold width_ok. intros Hh.
  destruct (sim_time_interval e) as [[t0 t1]|]; [|discriminate].
  rewrite Hh. destruct t0 as [a| | |], t1 as [b| | |]; cbn;
    try discriminate.
  intros Hq. apply Qeq_bool_iff in Hq. exists a, b.
  split; [reflexivity|exact Hq].
Qed.

Lemma width_ok_intro (e : Env) (a b h : Q) :
  time_step_size (cfg e) = Fin h ->
  sim_time_interval e = Some (Fin a, Fin b) ->
  b - a == h ->
  width_ok e = true.
Proof.
  intros Hh Hi Hq. unfold width_ok. rewrite Hi, Hh. cbn.
  apply Qeq_bool_iff. exact Hq.
Qed.

(** In exact arithmetic, with a finite start and step size: [reset] leaves
    the interval [(start, start + step_size)]; every call of [step],
    whatever its outcome, keeps [t1 - t0 == step_size]; it leaves the
    interval alone or moves both ends by one step size, and a call on a
    running object that returns a tuple has moved it; a call on a terminal
    object and [is_done] leave the object as it is. *)
Lemma clock_interval_exact (e : Env) (s h : Q) :
  time_start (cfg e) = Fin s ->
  time_step_size (cfg e) = Fin h ->
  (forall fuel obs e0 l,
      reset fuel e = (Return obs, e0, l) ->
      sim_time_interval e0 = Some (Fin s, Fin (s + h)) /\
      width_ok e0 = true) /\
  (forall (e1 e2 : Env) a r l,
      cfg e1 = cfg e ->
      width_ok e1 = true ->
      step a e1 = (r, e2, l) ->
      cfg e2 = cfg e /\
      width_ok e2 = true /\
      (sim_time_interval e2 = sim_time_interval e1 \/
       exists t_span,
         running e1 /\
         sim_time_interval e1 = Some t_span /\
         sim_time_interval e2 = Some (advance (Fin h) t_span))) /\
  (forall (e1 e2 : Env) a tuple l,
      cfg e1 = cfg e ->
      running e1 ->
      step a e1 = (Return tuple, e2, l) ->
      exists t_span,
        sim_time_interval e1 = Some t_span /\
        sim_time_interval e2 = Some (advance (Fin h) t_span)) /\
  (forall (e1 e2 : Env) a r l,
      terminal e1 -> step a e1 = (r, e2, l) -> e2 = e1) /\
  (forall (e1 e2 : Env) r l, is_done e1 = (r, e2, l) -> e2 = e1).
Proof.
  intros Hs Hh. split; [|split; [|split; [|split]]].
  - intros fuel obs e0 l Hreset.
    apply reset_returns in Hreset as (Hc & _ & _ & Hi & _).
    rewrite Hs, Hh in Hi. cbn in Hi. split; [exact Hi|].
    apply width_ok_intro with (a := s) (b := s + h) (h := h).
    + rewrite Hc. exact Hh.
    + exact Hi.
    + ring.
  - intros e1 e2 a r l Hc Hw Hstep.
    apply step_interval in Hstep as (Hc2 & _ & Hi).
    assert (Hh1 : time_step_size (cfg e1) = Fin h) by (rewrite Hc; exact Hh).
    assert (Hh2 : time_step_size (cfg e2) = Fin h)
      by (rewrite Hc2; exact Hh1).
    split; [congruence|].
    destruct (width_ok_inv e1 Hh1 Hw) as (t0 & t1 & Hi1 & Hq).
    destruct Hi as [Hsame | (t_span & Hrun & Hsp & Hadv)].
    + split; [|left; exact Hsame].
      apply width_ok_intro with (a := t0) (b := t1) (h := h);
        [exact Hh2|congruence|exact Hq].
    + rewrite Hh1 in Hadv. split; [|right; exists t_span; auto].
      rewrite Hi1 in Hsp. injection Hsp as <-. cbn in Hadv.
      apply width_ok_intro with (a := t0 + h) (b := t1 + h) (h := h);
        [exact Hh2|exact Hadv|].
      rewrite <- Hq. ring.
  - intros e1 e2 a tuple l Hc Hrun Hstep.
    edestruct step_returned_advances as (t_span & Hi1 & Hi2);
      [exact Hrun|exact Hstep|].
    exists t_span. rewrite Hc, Hh in Hi2. auto.
  - intros e1 e2 a r l [ld Hd] Hstep.
    erewrite step_terminal in Hstep by exact Hd. congruence.
  - intros e1 e2 r l Hd. eapply is_done_reads; eassumption.
Qed.

(** *** The length of an episode *)

Section Episode.
Variable e0 : Env.
Variables s h : Q.
Variable K : nat.
Hypothesis Hstep_size : time_step_size (cfg e0) = Fin h.
Hypothesis Hend : time_end (cfg e0) = Fin (s + steps_of K h).
Hypothesis Hh : 0 < h.
Hypothesis Hlow : - (s + steps_of K h) <= s + h.
Hypothesis Hsolver :
  forall (e : Env) t_span m, exists y m',
    integrate e t_span m = (Solved y, m').
Hypothesis Hreward :
  forall cols obs, exists r,
    reward (cfg e0) cols obs = Some r /\ failed_flag r = false.
Hypothesis Hreal :
  forall idx (m : FMU), List.length (get_real idx m) = List.length idx.

Let at_step := at_step e0 s h.

(** No measurement is attached, and there is one value reference for every
    column of the history: the history takes what the model gives. *)
Let sized (e : Env) : Prop :=
  measurement e = [] /\
  List.length (model_output_idx e) = List.length (history_cols (history e)).

Lemma at_step_running (j : nat) (e : Env) :
  at_step j e -> (S j <= K)%nat -> running e.
Proof.
  intros (Hc & Hf & a & b & Hi & Hb) Hj. apply running_inv.
  split; [exact Hf|]. exists (Fin a), (Fin b). split; [exact Hi|].
  rewrite Hc, Hend. apply fgtb_abs_false.
  pose proof (steps_of_le (Qlt_le_weak _ _ Hh) Hj) as Hup.
  assert (H1 : (1 <= S j)%nat) by lia.
  pose proof (steps_of_le (Qlt_le_weak _ _ Hh) H1) as Hlo.
  rewrite steps_of_1 in Hlo.
  split; lra.
Qed.

Lemma exact_step (j : nat) (e : Env) (act : Action xQ) :
  at_step j e -> sized e -> (S j <= K)%nat -> fits e act ->
  exists obs r e' l,
    step act e = (Return (obs, Some r, Nat.eqb (S j) K, []), e', l) /\
    failed_flag r = false /\
    at_step (S j) e' /\
    sized e'.
Proof.
  intros Hat [Hms Hidx] Hj Hfit.
  assert (Hrun : running e) by (eapply at_step_running; eassumption).
  destruct Hat as (Hc & Hf & a & b & Hi & Hb).
  destruct (Hsolver e (Fin a, Fin b) (push_inputs (values_of act) e))
    as (y & m' & Hs).
  destruct (Hreward (history_cols (history e))
              (_state (after_step e (Fin a, Fin b) y m' false)
               ++ measurement e)) as (r & Hr & Hok).
  rewrite <- Hc in Hr.
  assert (Hin : in_schema e (simulated e y m' ++ measurement e)).
  { unfold in_schema, simulated. rewrite Hms, app_nil_r, Hreal. exact Hidx. }
  edestruct (@step_accepted xQ FMU _ _ _ PlotTmpl e act (Fin a, Fin b) y m' r)
    as [l Hl]; try eassumption.
  rewrite Hok in Hl. cbn [orb] in Hl.
  rewrite Hc, Hstep_size, Hend in Hl. cbn [advance fst snd fadd] in Hl.
  change (@fadd xQ xQ_PyFloat (Fin b) (Fin h)) with (Fin (b + h)) in Hl.
  assert (Hdone : fgtb (fabs (Fin (b + h))) (Fin (s + steps_of K h))
                  = Nat.eqb (S j) K).
  { pose proof (steps_of_S (S j) h) as HS.
    destruct (Nat.eqb (S j) K) eqn:E.
    - apply Nat.eqb_eq in E. apply fgtb_abs_true. rewrite <- E. lra.
    - apply Nat.eqb_neq in E. apply fgtb_abs_false.
      assert (H2 : (S (S j) <= K)%nat) by lia.
      pose proof (steps_of_le (Qlt_le_weak _ _ Hh) H2) as Hup.
      assert (H1 : (1 <= S j)%nat) by lia.
      pose proof (steps_of_le (Qlt_le_weak _ _ Hh) H1) as Hlo.
      rewrite steps_of_1 in Hlo. split; lra. }
  rewrite Hdone in Hl.
  do 4 eexists. split; [exact Hl|]. split; [exact Hok|].
  split; [|split; [exact Hms|exact Hidx]].
  split; [exact Hc|]. split; [reflexivity|].
  exists (a + h), (b + h). split.
  - cbn. rewrite Hc, Hstep_size. reflexivity.
  - rewrite (steps_of_S (S j) h). lra.
Qed.

Lemma exact_run (actions : list (Action xQ)) :
  forall (j : nat) (e : Env),
    at_step j e ->
    sized e ->
    actions <> [] ->
    (j + List.length actions = K)%nat ->
    Forall (fits e0) actions ->
    exists tuples e' l,
      steps actions e = (Return tuples, e', l) /\
      dones tuples = repeat false (List.length actions - 1) ++ [true] /\
      Forall harmless tuples /\
      terminal e'.
Proof.
  induction actions as [|act actions IH];
    intros j e Hat Hsz Hne Hlen Hfits; [congruence|].
  pose proof (Forall_inv Hfits) as Hfit.
  pose proof (Forall_inv_tail Hfits) as Hfits'.
  assert (Hj : (S j <= K)%nat) by (cbn in Hlen; lia).
  assert (Hfit' : fits e act).
  { unfold fits in *. destruct Hat as (Hc & _). rewrite Hc. exact Hfit. }
  edestruct exact_step as (obs & r & e1 & l1 & Hs1 & Hok & Hat1 & Hsz1);
    [exact Hat|exact Hsz|exact Hj|exact Hfit'|].
  cbn [steps]. unfold bind at 1. rewrite Hs1.
  destruct actions as [|act2 actions].
  - cbn in Hlen. assert (E : Nat.eqb (S j) K = true)
      by (apply Nat.eqb_eq; lia).
    rewrite E in Hs1 |- *.
    cbn. do 3 eexists. split; [reflexivity|]. split; [reflexivity|].
    split.
    + constructor; [|constructor]. exists r. split; [reflexivity|exact Hok].
    + eapply step_done_terminal. exact Hs1.
  - assert (E : Nat.eqb (S j) K = false)
      by (apply Nat.eqb_neq; cbn in Hlen; lia).
    rewrite E.
    destruct (IH (S j) e1 Hat1 Hsz1)
      as (tuples & e' & l' & Hrun & Hd & Hh' & Ht).
    + discriminate.
    + cbn in Hlen |- *. lia.
    + exact Hfits'.
    + unfold bind at 1. rewrite Hrun. cbn [ret].
      do 3 eexists. split; [reflexivity|]. split.
      * cbn [dones map fst snd]. fold (dones tuples). rewrite Hd.
        cbn [List.length].
        replace (S (S (List.length actions)) - 1)%nat
          with (S (S (List.length actions) - 1)) by lia.
        reflexivity.
      * split; [|exact Ht]. constructor; [|exact Hh'].
        exists r. split; [reflexivity|exact Hok].
Qed.

End Episode.

(** From construction and [reset] to the end of the episode. *)
Lemma episode_length_exact (a : Args xQ FMU PlotTmpl) (e e0 : Env)
  (s h : Q) (K fuel : nat) obs0 l0 (actions : list (Action xQ)) :
  ModelicaEnv_init a = Return e ->
  arg_time_start a = Fin s ->
  arg_time_step a = Fin h ->
  arg_max_episode_steps a = Some (Z.of_nat K) ->
  0 < h ->
  (forall cols obs, exists r,
      arg_reward_fun a cols obs = Some r /\ failed_flag r = false) ->
  (forall (e1 : Env) t_span m, exists y m',
      integrate e1 t_span m = (Solved y, m')) ->
  (forall idx (m : FMU), List.length (get_real idx m) = List.length idx) ->
  reset fuel e = (Return obs0, e0, l0) ->
  running e0 ->
  List.length actions = K ->
  (1 <= K)%nat ->
  Forall (fits e0) actions ->
  exists tuples e' l,
    steps actions e0 = (Return tuples, e', l) /\
    dones tuples = repeat false (K - 1) ++ [true] /\
    Forall harmless tuples /\
    terminal e'.
Proof.
  intros Hinit Hs Hh HK Hpos Hrew Hsol Hreal Hreset Hrun Hlen HK1 Hfits.
  apply init_returns in Hinit as (Hts & Hstep & Hend & Hr & _).
  apply reset_returns in Hreset
    as (Hc & Hf & Hms & Hi & _ & _ & Hin & Hobs).
  assert (Hidx : List.length (model_output_idx e0)
                 = List.length (history_cols (history e0))).
  { unfold in_schema in Hin. rewrite Hobs, Hreal in Hin. exact Hin. }
  rewrite Hts, Hstep, Hs, Hh in Hi. cbn in Hi.
  rewrite Hs, Hh, HK in Hend. cbn in Hend.
  change (Fin (s + inject_Z (Z.of_nat K) * h))
    with (Fin (s + steps_of K h)) in Hend.
  rewrite <- Hc in Hend, Hstep, Hr. rewrite Hh in Hstep.
  assert (Hlow : - (s + steps_of K h) <= s + h).
  { apply running_inv in Hrun as (_ & t0 & t1 & Hi' & Hd).
    rewrite Hi in Hi'. injection Hi' as <- <-. rewrite Hend in Hd.
    apply fgtb_abs_false in Hd. tauto. }
  rewrite <- Hlen.
  eapply (@exact_run e0 s h K Hstep Hend Hpos Hlow Hsol) with (j := O).
  - intros cols obs. rewrite Hr. apply Hrew.
  - exact Hreal.
  - split; [reflexivity|]. split; [exact Hf|].
    exists s, (s + h). split; [exact Hi|]. rewrite steps_of_1. reflexivity.
  - split; [exact Hms|exact Hidx].
  - intros ->. cbn in Hlen. lia.
  - cbn. exact Hlen.
  - exact Hfits.
Qed.

(** A start at or after zero leaves a running object after [reset]. *)
Lemma reset_running_nonneg (a : Args xQ FMU PlotTmpl) (e e0 : Env)
  (s h : Q) (K fuel : nat) obs0 l0 :
  ModelicaEnv_init a = Return e ->
  arg_time_start a = Fin s ->
  arg_time_step a = Fin h ->
  arg_max_episode_steps a = Some (Z.of_nat K) ->
  0 < h -> 0 <= s -> (1 <= K)%nat ->
  reset fuel e = (Return obs0, e0, l0) ->
  running e0.
Proof.
  intros Hinit Hs Hh HK Hpos Hnn HK1 Hreset.
  apply init_returns in Hinit as (Hts & Hstep & Hend & _).
  apply reset_returns in Hreset as (Hc & Hf & _ & Hi & _).
  rewrite Hts, Hstep, Hs, Hh in Hi. cbn in Hi.
  rewrite Hs, Hh, HK in Hend. cbn in Hend.
  change (Fin (s + inject_Z (Z.of_nat K) * h))
    with (Fin (s + steps_of K h)) in Hend.
  apply running_inv. split; [exact Hf|].
  exists (Fin s), (Fin (s + h)). split; [exact Hi|].
  rewrite Hc, Hend. apply fgtb_abs_false.
  pose proof (steps_of_le (Qlt_le_weak _ _ Hpos) HK1) as Hle.
  rewrite steps_of_1 in Hle. split; lra.
Qed.

End WithModel.
End ExactFacts.

(** ** The clock and the length of an episode *)

Module EpisodeFacts.
Import Modelica StepFacts ExactFacts Integrator.

(** C7, as amended. In every arithmetic: [reset] leaves the interval
    [(start, start + step_size)]; a call of [step] keeps the configuration
    and either leaves the interval alone or adds the step size to both ends,
    which it does when a call on a running object returns a tuple; a call on
    a terminal object and [is_done] leave the object as it is.  In exact
    arithmetic with a finite start and step size, [t1 - t0 == step_size]
    holds after [reset] and is kept by every call of [step]. *)
Theorem clock_interval :
  (forall (F FMU : Type) (HF : PyFloat F) (HM : FMUModelME2 F FMU)
          (HS : Scipy F FMU) (PlotTmpl : Type),
      (forall fuel (e e0 : ModelicaEnv F FMU PlotTmpl) obs l,
          reset fuel e = (Return obs, e0, l) ->
          sim_time_interval e0
          = Some (time_start (cfg e),
                  fadd (time_start (cfg e)) (time_step_size (cfg e)))) /\
      (forall (e e' : ModelicaEnv F FMU PlotTmpl) a r l,
          step a e = (r, e', l) ->
          cfg e' = cfg e /\
          (sim_time_interval e' = sim_time_interval e \/
           exists t_span,
             running e /\
             sim_time_interval e = Some t_span /\
             sim_time_interval e'
             = Some (advance (time_step_size (cfg e)) t_span))) /\
      (forall (e e' : ModelicaEnv F FMU PlotTmpl) a tuple l,
          running e ->
          step a e = (Return tuple, e', l) ->
          exists t_span,
            sim_time_interval e = Some t_span /\
            sim_time_interval e'
            = Some (advance (time_step_size (cfg e)) t_span)) /\
      (forall (e e' : ModelicaEnv F FMU PlotTmpl) a r l,
          terminal e -> step a e = (r, e', l) -> e' = e) /\
      (forall (e e' : ModelicaEnv F FMU PlotTmpl) r l,
          is_done e = (r, e', l) -> e' = e)) /\
  (forall (FMU : Type) (HM : FMUModelME2 xQ FMU) (HS : Scipy xQ FMU)
          (PlotTmpl : Type) (e : ModelicaEnv xQ FMU PlotTmpl) (s h : Q),
      time_start (cfg e) = Fin s ->
      time_step_size (cfg e) = Fin h ->
      (forall fuel obs e0 l,
          reset fuel e = (Return obs, e0, l) -> width_ok e0 = true) /\
      (forall (e1 e2 : ModelicaEnv xQ FMU PlotTmpl) a r l,
          cfg e1 = cfg e ->
          width_ok e1 = true ->
          step a e1 = (r, e2, l) ->
          cfg e2 = cfg e /\ width_ok e2 = true)).
Proof.
  split.
  - intros F FMU HF HM HS PlotTmpl. split; [|split; [|split; [|split]]].
    + intros fuel e e0 obs l Hreset.
      apply reset_returns in Hreset as (_ & _ & _ & Hi & _). exact Hi.
    + intros e e' a r l Hstep.
      apply step_interval in Hstep as (Hc & _ & Hi). split; assumption.
    + intros e e' a tuple l Hrun Hstep.
      eapply step_returned_advances; eassumption.
    + intros e e' a r l [ld Hd] Hstep.
      erewrite step_terminal in Hstep by exact Hd. congruence.
    + intros e e' r l Hd. eapply is_done_reads; eassumption.
  - intros FMU HM HS PlotTmpl e s h Hs Hh.
    destruct (clock_interval_exact e Hs Hh) as (Hreset & Hstep & _).
    split.
    + intros fuel obs e0 l Hr. eapply Hreset. exact Hr.
    + intros e1 e2 a r l Hc Hw Hst.
      destruct (Hstep e1 e2 a r l Hc Hw Hst) as (Hc2 & Hw2 & _).
      split; assumption.
Qed.

(** C5, as amended. In exact arithmetic, with a positive finite step size,
    [max_episode_steps = k >= 1], a solver that returns, a model that
    reads one value per value reference (so that every record has the
    length of the history's schema), a reward function that never signals
    failure and an object that is running after [reset] (as it is for
    every start at or after zero), [k] calls of
    [step] with fitting actions all return a tuple, the first [k - 1] with
    [done = False] and the last with [done = True], and leave a terminal
    object.  In binary64, with step size 0.1 and [max_episode_steps = 3],
    the third call returns [done = True] and every reward is 1.0. *)
Theorem episode_length :
  (forall (FMU : Type) (HM : FMUModelME2 xQ FMU) (HS : Scipy xQ FMU)
          (PlotTmpl : Type) (a : Args xQ FMU PlotTmpl)
          (e e0 : ModelicaEnv xQ FMU PlotTmpl) (s h : Q) (k fuel : nat)
          obs0 l0 (actions : list (Action xQ)),
      ModelicaEnv_init a = Return e ->
      arg_time_start a = Fin s ->
      arg_time_step a = Fin h ->
      arg_max_episode_steps a = Some (Z.of_nat k) ->
      0 < h ->
      (forall cols obs, exists r,
          arg_reward_fun a cols obs = Some r /\ failed_flag r = false) ->
      (forall (e1 : ModelicaEnv xQ FMU PlotTmpl) t_span m, exists y m',
          integrate e1 t_span m = (Solved y, m')) ->
      (forall idx (m : FMU),
          List.length (get_real idx m) = List.length idx) ->
      reset fuel e = (Return obs0, e0, l0) ->
      running e0 ->
      List.length actions = k ->
      (1 <= k)%nat ->
      Forall (fits e0) actions ->
      exists tuples e' l,
        steps actions e0 = (Return tuples, e', l) /\
        dones tuples = repeat false (k - 1) ++ [true] /\
        Forall harmless tuples /\
        terminal e') /\
  (run_dones (tenth_episode (F := PrimFloat.float) 3 3)
   = Some [false; false; true] /\
   run_rewards (tenth_episode (F := PrimFloat.float) 3 3)
   = Some [Some (float_of_int 1); Some (float_of_int 1);
           Some (float_of_int 1)]).
Proof.
  split.
  - intros FMU HM HS PlotTmpl a e e0 s h k fuel obs0 l0 actions.
    apply episode_length_exact.
  - split; vm_compute; reflexivity.
Qed.

(** C5, as stated, fails twice over.  In binary64, with step size 0.1,
    start 0, [max_episode_steps = 15] and the reward 1.0 throughout, the
    fourteenth call of [step] already returns [done = True].  In exact
    arithmetic, with step size 1, start -10 and [max_episode_steps = 3], the
    object is terminal right after [reset]: the first call of [step] returns
    the sentinel tuple and no step is accepted. *)
Lemma episode_length_counterexample :
  (run_dones (tenth_episode (F := PrimFloat.float) 15 14)
   = Some (repeat false 13 ++ [true]) /\
   run_dones (tenth_episode (F := PrimFloat.float) 15 15)
   <> Some (repeat false 14 ++ [true])) /\
  (time_end (cfg env_negative_start) = Fin (-10 + 3 * 1) /\
   sim_time_interval env_negative_start = Some (Fin (-10), Fin (-10 + 1)) /\
   fst (fst (step (ActSeq [Fin 2]) env_negative_start))
   = Return (_state env_negative_start, Some NInf, true, [])).
Proof.
  split; split.
  - vm_compute. reflexivity.
  - vm_compute. discriminate.
  - vm_compute. reflexivity.
  - split; vm_compute; reflexivity.
Qed.

(** For a start far enough below zero the object is terminal right after
    [reset]. *)
Lemma negative_start_terminal : terminal env_negative_start.
Proof.
  exists [Log DEBUG "t: {t1}, "]. vm_compute. reflexivity.
Qed.

(** C7, as stated, fails in binary64: with step size 0.1, after [reset] and
    two calls of [step], [t1 - t0 == step_size] is false. *)
Lemma clock_interval_counterexample :
  run_width_ok (tenth_episode (F := PrimFloat.float) 15 2) = Some false.
Proof. vm_compute. reflexivity. Qed.

Lemma clock_interval_witness :
  width_ok env_three = true /\
  width_ok (after (ActSeq [Fin 2]) env_three) = true.
Proof.
  destruct clock_interval as [_ Hexact].
  destruct (Hexact (FMU xQ) _ _ unit
              (constructed (Fin 1) (Fin 0) (Some 3%Z) (always (Some (Fin 1))))
              0 1 eq_refl eq_refl) as [Hreset Hstep].
  assert (Hw : width_ok env_three = true).
  { apply (Hreset 1%nat (_state env_three) env_three
             (snd (reset 1
                     (constructed (Fin 1) (Fin 0) (Some 3%Z)
                                  (always (Some (Fin 1))))))).
    vm_compute. reflexivity. }
  split; [exact Hw|].
  apply (Hstep env_three (after (ActSeq [Fin 2]) env_three) (ActSeq [Fin 2])
           (fst (fst (step (ActSeq [Fin 2]) env_three)))
           (snd (step (ActSeq [Fin 2]) env_three))).
  - vm_compute. reflexivity.
  - exact Hw.
  - vm_compute. reflexivity.
Defined.

Lemma episode_length_witness :
  exists tuples e' l,
    steps (constant_actions (Fin 2) 3)
          (ready tenth (Fin 0) (Some 3%Z) (always (Some (Fin 1))))
    = (Return tuples, e', l) /\
    dones tuples = [false; false; true] /\
    Forall harmless tuples /\
    terminal e'.
Proof.
  destruct episode_length as [Hexact _].
  apply (Hexact (FMU xQ) _ _ unit
           (args tenth (Fin 0) (Some 3%Z) (always (Some (Fin 1)))
                 VizNone [Col "x"])
           (constructed tenth (Fin 0) (Some 3%Z) (always (Some (Fin 1))))
           (ready tenth (Fin 0) (Some 3%Z) (always (Some (Fin 1))))
           0 (1 # 10) 3%nat 1%nat
           (_state (ready tenth (Fin 0) (Some 3%Z) (always (Some (Fin 1)))))
           (snd (reset 1
                   (constructed tenth (Fin 0) (Some 3%Z)
                                (always (Some (Fin 1))))))).
  - reflexivity.
  - reflexivity.
  - vm_compute. reflexivity.
  - reflexivity.
  - reflexivity.
  - intros cols obs. exists (Fin 1). split; reflexivity.
  - intros e1 t_span m. unfold integrate. cbn. do 2 eexists. reflexivity.
  - intros idx m. apply length_map.
  - vm_compute. reflexivity.
  - exists [Log DEBUG "t: {t1}, "]. vm_compute. reflexivity.
  - reflexivity.
  - lia.
  - repeat constructor.
Defined.

End EpisodeFacts.

(** ** The same statements at the test model *)

Module StepExamples.
Import Modelica Integrator StepFacts.

(** The test objects are what [__init__] and [reset] build. *)
Lemma constructed_init {F : Type} `{PyFloat F} (step start : F)
  (k : option Z) (reward_fun : list string -> list F -> option F) :
  ModelicaEnv_init (args step start k reward_fun VizNone [Col "x"])
  = Return (constructed step start k reward_fun).
Proof. reflexivity. Qed.

Lemma ready_reset {F : Type} `{PyFloat F} (step start : F)
  (k : option Z) (reward_fun : list string -> list F -> option F) :
  reset 1 (constructed step start k reward_fun)
  = (Return (_state (ready step start k reward_fun)),
     ready step start k reward_fun,
     snd (reset 1 (constructed step start k reward_fun))).
Proof. vm_compute. reflexivity. Qed.

Lemma step_arity_mismatch_witness :
  exists l,
    step (ActSeq [Fin 1; Fin 2]) env_three
    = (Raise (ValueError arity_message), env_three, l) /\
    In (Log ERROR arity_message) l.
Proof.
  generalize (@step_arity_mismatch _ _ _ _ _ unit env_three
                (ActSeq [Fin 1; Fin 2])).
  vm_compute. intros W. apply W.
  - exists [Log DEBUG "t: {t1}, "]. reflexivity.
  - discriminate.
Defined.



Lemma step_scalar_action_witness :
  exists r (e' : ModelicaEnv xQ (FMU xQ) unit) l1 l2 t_span,
    step (ActSeq [Fin 2]) env_three = (r, e', l1 ++ l2) /\
    step (ActScalar (Fin 2)) env_three
    = (r, e', l1 ++ scalar_warning :: l2) /\
    sim_time_interval env_three = Some t_span /\
    ((exists x m',
         integrate env_three t_span (push_inputs [Fin 2] env_three)
         = (Failed x, m') /\
         r = Raise x /\ e' = set_model m' env_three)
     \/
     (exists y m',
         integrate env_three t_span (push_inputs [Fin 2] env_three)
         = (Solved y, m') /\
         model e' = set_continuous_states y m' /\
         (in_schema env_three
                    (simulated env_three y m' ++ measurement env_three) ->
          forall rw,
            reward (cfg env_three) (history_cols (history env_three))
                   (simulated env_three y m' ++ measurement env_three)
            = Some rw ->
            r = Return (simulated env_three y m' ++ measurement env_three,
                        Some rw,
                        failed_flag rw
                        || fgtb (fabs (snd (advance
                                              (time_step_size (cfg env_three))
                                              t_span)))
                                (time_end (cfg env_three)),
                        [])
            /\ e' = after_step env_three t_span y m' (failed_flag rw)))).
Proof.
  apply (@step_scalar_action _ _ _ _ _ unit env_three (Fin 2)).
  - exists [Log DEBUG "t: {t1}, "]. vm_compute. reflexivity.
  - reflexivity.
Defined.

Lemma step_reward_None_raises_witness :
  exists l,
    step (ActSeq [Fin 2]) env_none
    = (Raise (TypeError "ufunc 'isnan' not supported for the input types"),
       after (ActSeq [Fin 2]) env_none, l) /\
    _failed (after (ActSeq [Fin 2]) env_none) = false.
Proof.
  generalize (@step_reward_None_raises _ _ _ _ _ unit env_none
                (ActSeq [Fin 2]) (Fin 0, Fin 1) [Fin 2]
                {| time := Fin 0; x := [Fin 0]; u := [Fin 2] |}).
  vm_compute. intros W. apply W; try reflexivity.
  exists [Log DEBUG "t: {t1}, "]. reflexivity.
Defined.

Lemma step_failure_advances_interval_witness :
  sim_time_interval env_nan = Some (Fin 0, Fin 1) /\
  exists l,
    step (ActSeq [Fin 2]) env_nan
    = (Return ([Fin 2], Some NaN, true, []),
       after (ActSeq [Fin 2]) env_nan, l) /\
    _failed (after (ActSeq [Fin 2]) env_nan) = true /\
    sim_time_interval (after (ActSeq [Fin 2]) env_nan)
    = Some (Fin 1, Fin 2).
Proof.
  split; [vm_compute; reflexivity|].
  generalize (@step_failure_advances_interval _ _ _ _ _ unit env_nan
                (ActSeq [Fin 2]) (Fin 0, Fin 1) [Fin 2]
                {| time := Fin 0; x := [Fin 0]; u := [Fin 2] |} NaN).
  vm_compute. intros W. apply W; try reflexivity.
  exists [Log DEBUG "t: {t1}, "]. reflexivity.
Defined.

(** C4, as stated, fails at the test model: with a solver that raises,
    [step] on a running object returns no tuple at all. *)
Lemma solver_failure_counterexample :
  running env_three /\
  ~ exists obs r info e' l,
      @step _ _ _ _ Raising unit (ActSeq [Fin 2]) env_three
      = (Return (obs, r, true, info), e', l).
Proof.
  split.
  - exists [Log DEBUG "t: {t1}, "]. vm_compute. reflexivity.
  - intros (obs & r & info & e' & l & Heq). vm_compute in Heq. discriminate.
Qed.

Lemma step_solver_exception_propagates_witness :
  exists l e',
    @step _ _ _ _ Raising unit (ActSeq [Fin 2]) env_three
    = (Raise (OtherError "FMUException: failed to evaluate the derivatives"),
       e', l) /\
    model e' = {| time := Fin 0; x := [Fin 0]; u := [Fin 2] |} /\
    _failed e' = _failed env_three /\
    sim_time_interval e' = sim_time_interval env_three /\
    _state e' = _state env_three /\
    history e' = history env_three.
Proof.
  generalize (@step_solver_exception_propagates _ _ _ _ Raising unit
                env_three (ActSeq [Fin 2]) (Fin 0, Fin 1)
                (OtherError "FMUException: failed to evaluate the derivatives")
                {| time := Fin 0; x := [Fin 0]; u := [Fin 2] |}).
  vm_compute. intros W. apply W; try reflexivity.
  exists [Log DEBUG "t: {t1}, "]. reflexivity.
Defined.

End StepExamples.

(* ================================================================== *)
(** * Part III: further properties of the code                         *)
(* ================================================================== *)

(** ** Glob patterns: what the visualisation filter selects *)

Module GlobFacts.
Import Re ReFacts.

Lemma append_nil_r (s : string) : String.append s "" = s.
Proof. induction s as [|c s IH]; [reflexivity|]. cbn. rewrite IH. reflexivity. Qed.

Lemma append_assoc (s1 s2 s3 : string) :
  String.append (String.append s1 s2) s3
  = String.append s1 (String.append s2 s3).
Proof.
  induction s1 as [|c s1 IH]; [reflexivity|]. cbn. rewrite IH. reflexivity.
Qed.

Lemma append_eq_nil (s1 s2 : string) :
  String.append s1 s2 = "" -> s1 = "" /\ s2 = "".
Proof. destruct s1; cbn; [auto|discriminate]. Qed.

Section Matcher.
Variable in_class : string -> ascii -> bool.

Local Notation "'matches'" := (Re.matches in_class) (only parsing).
Local Notation "'deriv'" := (Re.deriv in_class) (only parsing).
Local Notation "'fullmatch'" := (Re.fullmatch in_class) (only parsing).

Lemma matches_nil_nullable (r : regex) (s rest : string) :
  matches r s rest -> s = "" -> nullable (is_nil rest) r = true.
Proof.
  induction 1 as [ | | | | | | r1 r2 s1 s2 rest H1 IH1 H2 IH2
                 | r1 r2 s rest H1 IH1 | r1 r2 s rest H2 IH2
                 | | r c s1 s2 rest H1 IH1 H2 IH2];
    intros Hs; try discriminate; try reflexivity.
  - apply append_eq_nil in Hs as [-> ->]. cbn in *.
    rewrite IH1, IH2 by reflexivity. reflexivity.
  - cbn. rewrite IH1 by exact Hs. reflexivity.
  - cbn. rewrite IH2 by exact Hs. apply orb_true_r.
Qed.

Lemma nullable_matches_nil (r : regex) (rest : string) :
  nullable (is_nil rest) r = true -> matches r "" rest.
Proof.
  induction r as [ | | c | | | stuff | | r1 IH1 r2 IH2 | r1 IH1 r2 IH2 | r IH];
    cbn; intros Hn; try discriminate.
  - constructor.
  - destruct rest; [constructor|discriminate].
  - apply andb_true_iff in Hn as [Hn1 Hn2].
    change "" with (String.append "" "").
    constructor; [cbn; apply IH1, Hn1|apply IH2, Hn2].
  - apply orb_true_iff in Hn as [Hn|Hn];
      [apply M_AltL, IH1, Hn|apply M_AltR, IH2, Hn].
  - constructor.
Qed.

Lemma matches_deriv (r : regex) (s rest : string) :
  matches r s rest ->
  forall c s', s = String c s' -> matches (deriv c r) s' rest.
Proof.
  induction 1 as [ | | c0 rest Hnl | | stuff c0 rest Hin
                 | | r1 r2 s1 s2 rest H1 IH1 H2 IH2
                 | r1 r2 s rest H1 IH1 | r1 r2 s rest H2 IH2
                 | | r c0 s1 s2 rest H1 IH1 H2 IH2];
    intros a s' Hs; try discriminate.
  - injection Hs as <- <-. cbn [Re.deriv]. rewrite Ascii.eqb_refl.
    constructor.
  - injection Hs as <- <-. cbn [Re.deriv]. rewrite Hnl. constructor.
  - injection Hs as <- <-. cbn [Re.deriv]. constructor.
  - injection Hs as <- <-. cbn [Re.deriv]. rewrite Hin. constructor.
  - cbn [Re.deriv]. destruct s1 as [|c1 s1].
    + cbn in Hs. subst s2. apply M_AltR.
      pose proof (matches_nil_nullable H1 eq_refl) as Hn.
      cbn [is_nil String.append] in Hn. rewrite Hn. apply IH2. reflexivity.
    + cbn in Hs. injection Hs as <- <-. apply M_AltL.
      constructor; [apply IH1; reflexivity|exact H2].
  - cbn. apply M_AltL, IH1, Hs.
  - cbn. apply M_AltR, IH2, Hs.
  - injection Hs as <- <-. cbn [Re.deriv].
    constructor; [apply IH1; reflexivity|exact H2].
Qed.

Lemma matches_Void (s rest : string) : ~ matches Void s rest.
Proof. intros Hm. inversion Hm. Qed.

Lemma deriv_matches (r : regex) (c : ascii) (s rest : string) :
  matches (deriv c r) s rest -> matches r (String c s) rest.
Proof.
  revert s rest.
  induction r as [ | | a | | | stuff | | r1 IH1 r2 IH2 | r1 IH1 r2 IH2 | r IH];
    intros s rest Hm; cbn [Re.deriv] in Hm.
  - inversion Hm.
  - inversion Hm.
  - destruct (Ascii.eqb a c) eqn:E; [|inversion Hm].
    apply Ascii.eqb_eq in E. subst a. inversion Hm; subst. constructor.
  - destruct (Ascii.eqb c newline) eqn:E; [inversion Hm|].
    inversion Hm; subst. constructor. exact E.
  - inversion Hm; subst. constructor.
  - destruct (in_class stuff c) eqn:E; [|inversion Hm].
    inversion Hm; subst. constructor. exact E.
  - inversion Hm.
  - inversion Hm as [ | | | | | | | ? ? ? ? HL | ? ? ? ? HR | | ]; subst.
    + inversion HL as [ | | | | | | ? ? s1 s2 ? H1 H2 | | | | ]; subst.
      change (String c (String.append s1 s2))
        with (String.append (String c s1) s2).
      constructor; [apply IH1, H1|exact H2].
    + destruct (Re.nullable false r1) eqn:E; [|inversion HR].
      change (String c s) with (String.append "" (String c s)).
      constructor; [|apply IH2, HR].
      apply nullable_matches_nil. cbn. exact E.
  - inversion Hm; subst; [apply M_AltL, IH1|apply M_AltR, IH2]; assumption.
  - inversion Hm as [ | | | | | | ? ? s1 s2 ? H1 H2 | | | | ]; subst.
    constructor; [apply IH, H1|exact H2].
Qed.

(** The matcher decides [matches] on the whole subject. *)
Lemma fullmatch_matches (r : regex) (s : string) :
  fullmatch r s = true <-> matches r s "".
Proof.
  revert r. induction s as [|c s IH]; intros r; cbn [Re.fullmatch].
  - split.
    + apply (@nullable_matches_nil r "").
    + intros Hm. exact (matches_nil_nullable Hm eq_refl).
  - rewrite IH. split.
    + apply deriv_matches.
    + intros Hm. exact (matches_deriv Hm eq_refl).
Qed.

(** A star over any character matches every text. *)
Lemma matches_star_any (s rest : string) : matches (Star AnyChar) s rest.
Proof.
  induction s as [|c s IH]; [constructor|].
  change (String c s) with (String c (String.append "" s)).
  constructor; [constructor|exact IH].
Qed.

(** The loop of [translate] on a pattern without brackets, read as the
    shell reads it. *)
Lemma translate_loop_wild (pat : string) :
  bracket_free pat = true ->
  forall s rest, matches (translate_loop 0 pat) s rest <-> wild pat s.
Proof.
  induction pat as [|c pat IH]; intros Hb s rest.
  - cbn. split; [intros Hm; inversion Hm; reflexivity|intros ->; constructor].
  - cbn [bracket_free] in Hb. apply andb_true_iff in Hb as [Hc Hb].
    apply negb_true_iff in Hc. cbn [translate_loop wild]. rewrite Hc.
    destruct (Ascii.eqb c "*") eqn:Estar; [|destruct (Ascii.eqb c "?") eqn:Eq].
    + split.
      * intros Hm.
        inversion Hm as [ | | | | | | ? ? s1 s2 ? H1 H2 | | | | ]; subst.
        exists s1, s2. split; [reflexivity|]. apply (IH Hb s2 rest), H2.
      * intros (pre & suf & -> & Hw). constructor;
          [apply matches_star_any|apply (IH Hb suf rest), Hw].
    + split.
      * intros Hm.
        inversion Hm as [ | | | | | | ? ? s1 s2 ? H1 H2 | | | | ]; subst.
        inversion H1; subst. cbn. eexists _, _. split; [reflexivity|].
        apply (IH Hb s2 rest), H2.
      * intros (a & s' & -> & Hw).
        change (String a s') with (String.append (String a "") s').
        constructor; [constructor|apply (IH Hb s' rest), Hw].
    + split.
      * intros Hm.
        inversion Hm as [ | | | | | | ? ? s1 s2 ? H1 H2 | | | | ]; subst.
        inversion H1; subst. cbn. eexists. split; [reflexivity|].
        apply (IH Hb s2 rest), H2.
      * intros (s' & -> & Hw).
        change (String c s') with (String.append (String c "") s').
        constructor; [constructor|apply (IH Hb s' rest), Hw].
Qed.

(** The translated pattern of a glob without brackets fully matches the
    names the shell reading accepts. *)
Lemma fullmatch_translate_wild (pat s : string) :
  bracket_free pat = true ->
  fullmatch (translate pat) s = true <-> wild pat s.
Proof.
  intros Hb. rewrite fullmatch_matches. unfold translate. split.
  - intros Hm.
    inversion Hm as [ | | | | | | ? ? s1 s2 ? H1 H2 | | | | ]; subst.
    inversion H2; subst. rewrite append_nil_r.
    apply (translate_loop_wild pat Hb s1 ""). exact H1.
  - intros Hw. rewrite <- (append_nil_r s).
    constructor; [apply (translate_loop_wild pat Hb s ""), Hw|constructor].
Qed.

(** The pattern [.*] fully matches the names without a newline. *)
Lemma fullmatch_dot_star (s : string) :
  fullmatch (Star Dot) s = negb (mem newline s).
Proof.
  assert (Hstar : forall s,
             fullmatch (Seq Eps (Star Dot)) s = fullmatch (Star Dot) s).
  { intros [|c t]; [reflexivity|]. cbn.
    rewrite !fullmatch_Alt. cbn.
    assert (Hv : forall r u, fullmatch (Seq Void r) u = false).
    { intros r u. revert r. induction u as [|a u IHu]; intros r; [reflexivity|].
      cbn. rewrite fullmatch_Alt, IHu. apply fullmatch_Void. }
    rewrite Hv. reflexivity. }
  assert (Hvoid : forall r u, fullmatch (Seq Void r) u = false).
  { intros r u. revert r. induction u as [|a u IHu]; intros r; [reflexivity|].
    cbn. rewrite fullmatch_Alt, IHu. apply fullmatch_Void. }
  induction s as [|c s IH]; [reflexivity|].
  cbn [Re.fullmatch Re.deriv mem].
  destruct (Ascii.eqb c newline); cbn [orb negb].
  - apply Hvoid.
  - rewrite Hstar. exact IH.
Qed.

End Matcher.

(** The shell reading of [*suffix] and of a pattern of ordinary characters. *)
Lemma plain_bracket_free (pat : string) :
  plain pat = true -> bracket_free pat = true.
Proof.
  induction pat as [|c pat IH]; [reflexivity|]. cbn. unfold special.
  intros Hp. apply andb_true_iff in Hp as [Hc Hp].
  rewrite (IH Hp). apply negb_true_iff in Hc.
  apply orb_false_iff in Hc as [_ Hc]. rewrite Hc. reflexivity.
Qed.

Lemma wild_plain (pat s : string) :
  plain pat = true -> wild pat s <-> s = pat.
Proof.
  revert s. induction pat as [|c pat IH]; intros s Hp; [reflexivity|].
  cbn in Hp. apply andb_true_iff in Hp as [Hc Hp].
  apply negb_true_iff in Hc. unfold special in Hc.
  apply orb_false_iff in Hc as [Hc H3]. apply orb_false_iff in Hc as [H1 H2].
  cbn [wild]. rewrite H1, H2. split.
  - intros (s' & -> & Hw). apply (IH s' Hp) in Hw. subst. reflexivity.
  - intros ->. exists pat. split; [reflexivity|]. apply (IH pat Hp). reflexivity.
Qed.

Lemma endswith_spec (s suffix : string) :
  endswith s suffix = true <-> exists pre, s = String.append pre suffix.
Proof.
  induction s as [|c s IH]; cbn [endswith].
  - rewrite orb_false_r. split.
    + intros E. apply String.eqb_eq in E. exists "". exact E.
    + intros [pre E]. symmetry in E. apply append_eq_nil in E as [_ ->].
      reflexivity.
  - rewrite orb_true_iff, IH. split.
    + intros [E | [pre E]].
      * apply String.eqb_eq in E. exists "". exact E.
      * exists (String c pre). cbn. rewrite E. reflexivity.
    + intros [[|a pre] E].
      * left. apply String.eqb_eq. exact E.
      * right. cbn in E. injection E as _ E. exists pre. exact E.
Qed.

Lemma wild_star_plain (lit s : string) :
  plain lit = true ->
  wild (String "*" lit) s <-> endswith s lit = true.
Proof.
  intros Hp. rewrite endswith_spec. cbn [wild].
  change (Ascii.eqb "*" "*") with true. cbv iota. split.
  - intros (pre & suf & -> & Hw). apply (wild_plain lit suf Hp) in Hw. subst.
    exists pre. reflexivity.
  - intros [pre ->]. exists pre, lit. split; [reflexivity|].
    apply (wild_plain lit lit Hp). reflexivity.
Qed.

End GlobFacts.

(** ** Construction *)

Module InitFacts.
Import Re Modelica.

Section WithFloat.
Context {F FMU : Type} `{PyFloat F} `{FMUModelME2 F FMU} `{Scipy F FMU}.
Variable PlotTmpl : Type.

Let Env : Type := ModelicaEnv F FMU PlotTmpl.

(** The loop over a [viz_cols] list: it raises at the first element that is
    neither a string nor a template, and otherwise collects the translated
    strings and the templates, each in the order of the list. *)
Lemma viz_cols_loop_spec (l : list (viz_elem PlotTmpl))
  (patterns : list regex) (tmpls : list PlotTmpl) :
  viz_cols_loop l patterns tmpls
  = if has_other l
    then Raise (ValueError "viz_cols list must contain only strings or PlotTmpl objects")
    else Return (patterns ++ map translate (viz_strings l),
                 tmpls ++ viz_tmpls l).
Proof.
  revert patterns tmpls.
  induction l as [|[s|t|] l IH]; intros patterns tmpls; cbn.
  - rewrite !app_nil_r. reflexivity.
  - rewrite IH. destruct (has_other l); [reflexivity|].
    rewrite <- app_assoc. reflexivity.
  - rewrite IH. destruct (has_other l); [reflexivity|].
    rewrite <- app_assoc. reflexivity.
  - reflexivity.
Qed.

Lemma init_viz_ok (v : viz_cols_arg PlotTmpl) :
  viz_cols_ok v = true ->
  exists re tm, init_viz v = Return (re, tm).
Proof.
  destruct v as [|l|r|]; cbn; intros Hok; try discriminate.
  - do 2 eexists. reflexivity.
  - rewrite viz_cols_loop_spec. apply negb_true_iff in Hok. rewrite Hok.
    do 2 eexists. reflexivity.
  - do 2 eexists. reflexivity.
Qed.

Lemma init_viz_bad (v : viz_cols_arg PlotTmpl) :
  viz_cols_ok v = false ->
  exists msg, init_viz v = Raise (ValueError msg).
Proof.
  destruct v as [|l|r|]; cbn; intros Hok; try discriminate.
  - rewrite viz_cols_loop_spec. apply negb_false_iff in Hok. rewrite Hok.
    eexists. reflexivity.
  - eexists. reflexivity.
Qed.

(** X2. [__init__] checks its arguments in a fixed order and raises
    [ValueError] at the first check that fails: a missing [model_input], a
    missing [model_output], a [viz_mode] outside ['episode'], ['step'],
    [None], a [viz_cols] of a wrong type.  When no check fails it returns an
    object that has no clock interval yet, has not failed, and holds the
    model it was given. *)
Theorem init_validates (a : Args F FMU PlotTmpl) :
  match ModelicaEnv_init a with
  | Return e =>
      arg_model_input a = Some (model_input_names (cfg e)) /\
      arg_model_output a <> None /\
      in_viz_modes (arg_viz_mode a) = true /\
      viz_cols_ok (arg_viz_cols a) = true /\
      viz_mode (cfg e) = arg_viz_mode a /\
      model e = arg_model a /\
      sim_time_interval e = None /\
      _failed e = false /\
      _state e = []
  | Raise x =>
      (arg_model_input a = None /\
       x = ValueError "Please specify model_input variables from your OM FMU.")
      \/
      (arg_model_input a <> None /\ arg_model_output a = None /\
       x = ValueError "Please specify model_output variables from your OM FMU.")
      \/
      (arg_model_input a <> None /\ arg_model_output a <> None /\
       in_viz_modes (arg_viz_mode a) = false /\
       x = ValueError "Please select one of the following viz_modes")
      \/
      (arg_model_input a <> None /\ arg_model_output a <> None /\
       in_viz_modes (arg_viz_mode a) = true /\
       viz_cols_ok (arg_viz_cols a) = false /\
       exists msg, x = ValueError msg)
  | OutOfFuel => False
  end.
Proof.
  unfold ModelicaEnv_init.
  destruct (arg_model_input a) as [inp|]; [|left; split; reflexivity].
  destruct (arg_model_output a) as [out|];
    [|right; left; repeat split; discriminate].
  destruct (in_viz_modes (arg_viz_mode a)) eqn:Hm; cbn [negb];
    [|right; right; left; repeat split; discriminate].
  destruct (viz_cols_ok (arg_viz_cols a)) eqn:Hv.
  - destruct (init_viz_ok _ Hv) as (re & tm & ->). cbn.
    repeat split; discriminate.
  - destruct (init_viz_bad _ Hv) as (msg & ->).
    right; right; right. repeat split; try discriminate. exists msg.
    reflexivity.
Qed.

(** X3. A [viz_cols] list may mix strings and templates in any order: the
    strings, translated and joined in the order of the list, become the
    column filter, and the templates, in the order of the list, become the
    templates of the object.  One element of another kind anywhere in the
    list makes [__init__] raise [ValueError]. *)
Theorem init_viz_cols_list (a : Args F FMU PlotTmpl)
  (l : list (viz_elem PlotTmpl)) :
  arg_viz_cols a = VizList l ->
  arg_model_input a <> None ->
  arg_model_output a <> None ->
  in_viz_modes (arg_viz_mode a) = true ->
  if has_other l
  then ModelicaEnv_init a
       = Raise (ValueError "viz_cols list must contain only strings or PlotTmpl objects")
  else exists e : Env,
      ModelicaEnv_init a = Return e /\
      viz_col_regex (cfg e) = join (map translate (viz_strings l)) /\
      viz_col_tmpls (cfg e) = viz_tmpls l.
Proof.
  intros Hv Hi Ho Hm. unfold ModelicaEnv_init.
  destruct (arg_model_input a) as [inp|]; [|congruence].
  destruct (arg_model_output a) as [out|]; [|congruence].
  rewrite Hm, Hv. cbn [negb init_viz]. rewrite viz_cols_loop_spec.
  destruct (has_other l); [reflexivity|].
  cbn [app]. eexists. split; [reflexivity|]. split; reflexivity.
Qed.

(** X12. The object [__init__] returns cannot be stepped before [reset]:
    [step] and [is_done] raise [TypeError] on the clock interval, which is
    still [None], and leave the object as it is. *)
Theorem step_before_reset (a : Args F FMU PlotTmpl) (e : Env)
  (act : Action F) :
  ModelicaEnv_init a = Return e ->
  step act e
  = (Raise (TypeError "'NoneType' object is not subscriptable"), e,
     [Log DEBUG "Experiment next step was called."]) /\
  is_done e
  = (Raise (TypeError "'NoneType' object is not subscriptable"), e, []).
Proof.
  intros Hinit.
  apply StepFacts.init_returns in Hinit as (_ & _ & _ & _ & _ & Hf & Hi & _).
  split.
  - apply StepFacts.step_uninitialised; assumption.
  - unfold is_done, bind, gets, raise. rewrite Hf, Hi. reflexivity.
Qed.

End WithFloat.
End InitFacts.

(** ** [_setup_fmu] and [reset] *)

Module ResetFacts.
Import Modelica.

Section WithFloat.
Context {F FMU : Type} `{PyFloat F} `{FMUModelME2 F FMU} `{Scipy F FMU}.
Variable PlotTmpl : Type.

Let Env : Type := ModelicaEnv F FMU PlotTmpl.

(** X4. The event iteration of [_setup_fmu] is a loop that tests after its
    body: it enters event mode and updates the model once whatever the
    model reports, goes on while the model asks for new discrete states, and
    stops at the first model that does not.  Within [fuel] iterations it
    returns the model after [n + 1] updates exactly when that is the first
    one that asks for no more and [n < fuel]. *)
Theorem event_iteration_spec (fuel : nat) (m m' : FMU) :
  event_iteration fuel m = Some m' <->
  exists n,
    (n < fuel)%nat /\
    m' = Nat.iter (S n) event_body m /\
    newDiscreteStatesNeeded m' = false /\
    forall j, (j < n)%nat ->
      newDiscreteStatesNeeded (Nat.iter (S j) event_body m) = true.
Proof.
  revert m. induction fuel as [|fuel IH]; intros m.
  - cbn. split; [discriminate|]. intros (n & Hn & _). lia.
  - cbn [event_iteration]. fold (event_body m).
    destruct (newDiscreteStatesNeeded (event_body m)) eqn:Hneed.
    + rewrite IH. split.
      * intros (n & Hn & Hm' & Hstop & Hgo). exists (S n).
        split; [lia|]. split.
        { rewrite (Nat.iter_succ_r (S n)). exact Hm'. }
        split; [exact Hstop|].
        intros [|j] Hj; [exact Hneed|].
        rewrite (Nat.iter_succ_r (S j)). apply (Hgo j). lia.
      * intros ([|n] & Hn & Hm' & Hstop & Hgo).
        { change (Nat.iter 1 event_body m) with (event_body m) in Hm'.
          subst m'. congruence. }
        exists n. split; [lia|]. split.
        { rewrite (Nat.iter_succ_r (S n)) in Hm'. exact Hm'. }
        split; [exact Hstop|].
        intros j Hj. rewrite <- (Nat.iter_succ_r (S j)). apply Hgo. lia.
    + split.
      * intros [= <-]. exists O. split; [lia|]. split; [reflexivity|].
        split; [exact Hneed|]. intros j Hj. lia.
      * intros ([|n] & Hn & Hm' & Hstop & Hgo).
        { change (Nat.iter 1 event_body m) with (event_body m) in Hm'.
          subst m'. reflexivity. }
        specialize (Hgo O).
        change (Nat.iter 1 event_body m) with (event_body m) in Hgo.
        rewrite Hgo in Hneed by lia. discriminate.
Qed.

Ltac run_reset :=
  lazy beta iota zeta delta
    [reset _setup_fmu _simulate bind log gets ret raise modify out_of_fuel
     cfg model _failed sim_time_interval _state measurement history
     model_output_idx set_failed set_sim_time_interval set_history set_state
     set_model set_measurement set_model_output_idx
     history_reset history_append history_pushed append_to_history
     history_cols structured rows initialised integrate first_interval
     fst snd].

(** The four ways a call of [reset] can go. *)
Lemma reset_out_of_fuel (fuel : nat) (e : Env) :
  event_iteration fuel (initialised e) = None ->
  exists l, reset fuel e = (OutOfFuel, set_model (initialised e) e, l).
Proof.
  destruct e as [c m f i s ms [st rw] idx]. run_reset. intros ->.
  eexists. reflexivity.
Qed.

Lemma reset_solver_raises (fuel : nat) (e : Env) (m1 m3 : FMU) (x : exn) :
  event_iteration fuel (initialised e) = Some m1 ->
  integrate e (first_interval e) (enter_continuous_time_mode m1)
  = (Failed x, m3) ->
  exists l,
    reset fuel e
    = (Raise x,
       {| cfg := cfg e;
          model := m3;
          _failed := _failed e;
          sim_time_interval := Some (first_interval e);
          _state := _state e;
          measurement := measurement e;
          history := history_reset (history e);
          model_output_idx :=
            map (fun k => get_variable_valueref
                            k (enter_continuous_time_mode m1))
                (model_output_names (cfg e)) |},
       l).
Proof.
  destruct e as [c m f i s ms [st rw] idx]. run_reset. intros -> Hs.
  run_reset. rewrite Hs. run_reset. eexists. reflexivity.
Qed.

Lemma reset_history_raises (fuel : nat) (e : Env) (m1 m3 : FMU)
  (y : list F) :
  event_iteration fuel (initialised e) = Some m1 ->
  integrate e (first_interval e) (enter_continuous_time_mode m1)
  = (Solved y, m3) ->
  let idx := map (fun k => get_variable_valueref
                             k (enter_continuous_time_mode m1))
                 (model_output_names (cfg e)) in
  let obs := get_real idx (set_continuous_states y m3) in
  ~ in_schema e obs ->
  exists l,
    reset fuel e
    = (Raise schema_error,
       {| cfg := cfg e;
          model := set_continuous_states y m3;
          _failed := _failed e;
          sim_time_interval := Some (first_interval e);
          _state := obs;
          measurement := [];
          history := history_reset (history e);
          model_output_idx := idx |},
       l).
Proof.
  intros Hev Hs idx0 obs Hfit. subst obs idx0.
  unfold in_schema in Hfit. apply Nat.eqb_neq in Hfit.
  revert Hev Hs Hfit.
  destruct e as [c m f i s ms [st rw] idx]. run_reset. intros -> Hs Hfit.
  run_reset. rewrite Hs. run_reset. rewrite Hfit. run_reset.
  eexists. reflexivity.
Qed.

Lemma reset_solver_returns (fuel : nat) (e : Env) (m1 m3 : FMU)
  (y : list F) :
  event_iteration fuel (initialised e) = Some m1 ->
  integrate e (first_interval e) (enter_continuous_time_mode m1)
  = (Solved y, m3) ->
  let idx := map (fun k => get_variable_valueref
                             k (enter_continuous_time_mode m1))
                 (model_output_names (cfg e)) in
  let obs := get_real idx (set_continuous_states y m3) in
  in_schema e obs ->
  exists l,
    reset fuel e
    = (Return obs,
       {| cfg := cfg e;
          model := set_continuous_states y m3;
          _failed := false;
          sim_time_interval := Some (first_interval e);
          _state := obs;
          measurement := [];
          history := history_pushed obs (history_reset (history e));
          model_output_idx := idx |},
       l).
Proof.
  intros Hev Hs idx0 obs Hfit. subst obs idx0.
  unfold in_schema in Hfit. apply Nat.eqb_eq in Hfit.
  revert Hev Hs Hfit.
  destruct e as [c m f i s ms [st rw] idx]. run_reset. intros -> Hs Hfit.
  run_reset. rewrite Hs. run_reset. rewrite Hfit. run_reset.
  eexists. reflexivity.
Qed.

(** The record [reset] hands to the history fits its schema or does not. *)
Lemma in_schema_dec (e : Env) (record : list F) :
  {in_schema e record} + {~ in_schema e record}.
Proof. unfold in_schema. apply Nat.eq_dec. Qed.

(** X6. [reset] prepares the model without setting an input or a
    parameter, simulates the interval [(start, start + step_size)] and
    leaves that same interval as the current one: the first call of [step]
    that gets past the solver simulates it once more, now with the inputs of
    the action, and only then moves the interval on.  The observation
    [reset] returns is read at the value references [_setup_fmu] looked up
    for the output names. *)
Theorem reset_simulates_first_interval (fuel : nat) (e e1 : Env)
  (obs : list F) (l : list LogRecord) :
  reset fuel e = (Return obs, e1, l) ->
  exists m1 y m3,
    event_iteration fuel (initialised e) = Some m1 /\
    integrate e (first_interval e) (enter_continuous_time_mode m1)
    = (Solved y, m3) /\
    model e1 = set_continuous_states y m3 /\
    model_output_idx e1
    = map (fun k => get_variable_valueref k (enter_continuous_time_mode m1))
          (model_output_names (cfg e)) /\
    obs = get_real (model_output_idx e1) (model e1) /\
    sim_time_interval e1 = Some (first_interval e) /\
    forall (a : Action F) tuple (e2 : Env) l2,
      running e1 ->
      step a e1 = (Return tuple, e2, l2) ->
      exists y' m',
        integrate e1 (first_interval e) (push_inputs (values_of a) e1)
        = (Solved y', m') /\
        sim_time_interval e2
        = Some (advance (time_step_size (cfg e)) (first_interval e)).
Proof.
  intros Hreset.
  destruct (event_iteration fuel (initialised e)) as [m1|] eqn:Hev.
  2:{ destruct (reset_out_of_fuel fuel e Hev) as [l' Hl'].
      rewrite Hl' in Hreset. discriminate. }
  destruct (integrate e (first_interval e) (enter_continuous_time_mode m1))
    as [[y|x] m3] eqn:Hs.
  2:{ destruct (reset_solver_raises fuel e Hev Hs) as [l' Hl'].
      rewrite Hl' in Hreset. discriminate. }
  destruct (in_schema_dec e
              (get_real (map (fun k => get_variable_valueref
                                         k (enter_continuous_time_mode m1))
                             (model_output_names (cfg e)))
                        (set_continuous_states y m3))) as [Hfit|Hfit].
  2:{ destruct (reset_history_raises fuel Hev Hs Hfit) as [l' Hl'].
      rewrite Hl' in Hreset. discriminate. }
  destruct (reset_solver_returns fuel Hev Hs Hfit) as [l' Hl'].
  rewrite Hl' in Hreset. injection Hreset as <- <- <-.
  exists m1, y, m3. cbn [model model_output_idx sim_time_interval cfg].
  split; [reflexivity|]. split; [exact Hs|].
  repeat (split; [reflexivity|]).
  intros a tuple e2 l2 Hrun Hstep.
  apply StepFacts.step_outcome in Hstep.
  inversion Hstep
    as [ | Ht | | | | | t_span y' m' rw _ Hn Hi Hs' Hfit' e3 Hrew];
    subst.
  - destruct Hrun as [la Hla], Ht as [lb Hlb]. congruence.
  - cbn [sim_time_interval] in Hi. injection Hi as <-.
    exists y', m'. split; [exact Hs'|]. reflexivity.
Qed.

(** X5. What [reset] returns and leaves depends on the configuration, on
    the model as its own [reset] restores it and on the schema of the
    history, and on nothing else an earlier episode left in the object: the
    failure flag, the clock interval, the state, the measurement, the
    records of the history and the value references are all set anew, so
    that two objects that agree on the three are one and the same object
    after a [reset] that returns. *)
Theorem reset_forgets (fuel : nat) (e1 e2 e1' : Env) (obs : list F)
  (l : list LogRecord) :
  cfg e1 = cfg e2 ->
  fmu_reset (model e1) = fmu_reset (model e2) ->
  structured (history e1) = structured (history e2) ->
  reset fuel e1 = (Return obs, e1', l) ->
  (exists l2, reset fuel e2 = (Return obs, e1', l2)) /\
  _failed e1' = false /\
  measurement e1' = [] /\
  rows (history e1') = [obs].
Proof.
  intros Hc Hm Hh Hreset.
  assert (Hinit : initialised e2 = initialised e1)
    by (unfold initialised; rewrite Hc, Hm; reflexivity).
  assert (Hint : forall sp m, integrate e2 sp m = integrate e1 sp m)
    by (intros sp m; unfold integrate; rewrite Hc; reflexivity).
  assert (Hfirst : first_interval e2 = first_interval e1)
    by (unfold first_interval; rewrite Hc; reflexivity).
  assert (Hsch : forall r, in_schema e1 r -> in_schema e2 r)
    by (intros r; unfold in_schema, history_cols; rewrite Hh; trivial).
  assert (Hres : history_reset (history e2) = history_reset (history e1))
    by (unfold history_reset; rewrite Hh; reflexivity).
  destruct (event_iteration fuel (initialised e1)) as [m1|] eqn:Hev.
  2:{ destruct (reset_out_of_fuel fuel e1 Hev) as [l' Hl'].
      rewrite Hl' in Hreset. discriminate. }
  destruct (integrate e1 (first_interval e1) (enter_continuous_time_mode m1))
    as [[y|x] m3] eqn:Hs.
  2:{ destruct (reset_solver_raises fuel e1 Hev Hs) as [l' Hl'].
      rewrite Hl' in Hreset. discriminate. }
  destruct (in_schema_dec e1
              (get_real (map (fun k => get_variable_valueref
                                         k (enter_continuous_time_mode m1))
                             (model_output_names (cfg e1)))
                        (set_continuous_states y m3))) as [Hfit|Hfit].
  2:{ destruct (reset_history_raises fuel Hev Hs Hfit) as [l' Hl'].
      rewrite Hl' in Hreset. discriminate. }
  destruct (reset_solver_returns fuel Hev Hs Hfit) as [l' Hl'].
  rewrite Hl' in Hreset. injection Hreset as <- <- <-.
  rewrite <- Hinit in Hev. rewrite <- Hint, <- Hfirst in Hs.
  apply Hsch in Hfit. rewrite Hc in Hfit.
  destruct (reset_solver_returns fuel Hev Hs Hfit) as [l2 Hl2].
  split; [|repeat split; reflexivity].
  exists l2. rewrite Hl2, Hres, Hfirst, Hc. reflexivity.
Qed.


End WithFloat.
End ResetFacts.

(** ** The [done] flag *)

Module DoneFacts.
Import Modelica StepFacts.

(** In binary64 nothing compares greater than infinity. *)
Lemma binary64_inf_top (x : PrimFloat.float) : fgtb (fabs x) finf = false.
Proof.
  change (PrimFloat.ltb PrimFloat.infinity (PrimFloat.abs x) = false).
  rewrite FloatAxioms.ltb_spec.
  change (FloatOps.Prim2SF PrimFloat.infinity)
    with (SpecFloat.S754_infinity false).
  unfold SpecFloat.SFltb, SpecFloat.SFcompare.
  destruct (FloatOps.Prim2SF (PrimFloat.abs x)) as [s|[|]| |s m e];
    reflexivity.
Qed.

(** Nor in exact arithmetic. *)
Lemma exact_inf_top (x : xQ) : fgtb (fabs x) finf = false.
Proof. destruct x; reflexivity. Qed.

Section WithFloat.
Context {F FMU : Type} `{PyFloat F} `{FMUModelME2 F FMU} `{Scipy F FMU}.
Variable PlotTmpl : Type.

Let Env : Type := ModelicaEnv F FMU PlotTmpl.

(** X13. The [done] flag of a returned tuple is what [is_done] answers on
    the object the call leaves: after [done = False] the object is running
    and the next call of [step] is an ordinary one, after [done = True] it
    is terminal. *)
Theorem step_done_is_done (e e' : Env) (a : Action F) (obs : list F)
  (r : option F) (d : bool) (info : Info) (l : list LogRecord) :
  step a e = (Return (obs, r, d, info), e', l) ->
  (exists l', is_done e' = (Return d, e', l')) /\
  (d = false -> running e') /\
  (d = true -> terminal e').
Proof.
  intros Hstep.
  assert (Hd : exists l', is_done e' = (Return d, e', l')).
  { apply step_outcome in Hstep.
    inversion Hstep
      as [ | Ht | | | | | t_span y m' rw Hrun Hn Hi Hs Hfit e2 Hrew];
      subst.
    - exact Ht.
    - subst e2. destruct (failed_flag rw) eqn:Hfail; cbn [orb].
      + eexists. apply is_done_failed. reflexivity.
      + destruct t_span as [t0 t1]. eexists.
        erewrite is_done_clock; [reflexivity|reflexivity|].
        cbn. reflexivity. }
  split; [exact Hd|]. split; intros ->; exact Hd.
Qed.

(** X8. Without a step limit ([max_episode_steps = None]) the end time is
    infinity and the clock never ends an episode: an object is terminal
    exactly when its failure flag is set, and a call of [step] on a running
    object that returns a tuple returns [done = True] exactly when the
    reward of that call signals failure. *)
Theorem no_step_limit (a : Args F FMU PlotTmpl) (e e1 : Env) :
  (forall x : F, fgtb (fabs x) finf = false) ->
  ModelicaEnv_init a = Return e ->
  arg_max_episode_steps a = None ->
  cfg e1 = cfg e ->
  time_end (cfg e1) = finf /\
  (terminal e1 <-> _failed e1 = true) /\
  forall (act : Action F) obs r d info (e2 : Env) l,
    running e1 ->
    step act e1 = (Return (obs, r, d, info), e2, l) ->
    exists rw, r = Some rw /\ d = failed_flag rw.
Proof.
  intros Htop Hinit Hk Hc.
  apply init_returns in Hinit as (_ & _ & Hend & _).
  rewrite Hk in Hend. cbn [init_time_end] in Hend. rewrite <- Hc in Hend.
  split; [exact Hend|]. split.
  - rewrite terminal_inv. split; [|tauto].
    intros [Hf | (t0 & t1 & _ & Hgt)]; [exact Hf|].
    rewrite Hend, Htop in Hgt. discriminate.
  - intros act obs r d info e2 l Hrun Hstep.
    apply step_outcome in Hstep.
    inversion Hstep
      as [ | Ht | | | | | t_span y m' rw _ Hn Hi Hs Hfit e3 Hrew];
      subst.
    + destruct Hrun as [la Hla], Ht as [lb Hlb]. congruence.
    + exists rw. split; [reflexivity|].
      rewrite Hend, Htop. apply orb_false_r.
Qed.

End WithFloat.
End DoneFacts.

(** ** Objects a program can reach *)

Module ReachFacts.
Import Modelica StepFacts ResetFacts.

Section WithFloat.
Context {F FMU : Type} `{PyFloat F} `{FMUModelME2 F FMU} `{Scipy F FMU}.
Variable PlotTmpl : Type.

Let Env : Type := ModelicaEnv F FMU PlotTmpl.

(** What a call of [reset] leaves, however it ends. *)
Lemma reset_frame (fuel : nat) (e e' : Env) r l :
  reset fuel e = (r, e', l) ->
  cfg e' = cfg e /\
  ((sim_time_interval e' = sim_time_interval e /\
    _failed e' = _failed e /\ _state e' = _state e /\
    measurement e' = measurement e /\
    model_output_idx e' = model_output_idx e)
   \/
   (sim_time_interval e' = Some (first_interval e) /\
    List.length (model_output_idx e')
    = List.length (model_output_names (cfg e)) /\
    (_failed e' = _failed e \/ _failed e' = false) /\
    (measurement e' = measurement e \/ measurement e' = []))).
Proof.
  intros Hreset.
  destruct (event_iteration fuel (initialised e)) as [m1|] eqn:Hev.
  2:{ destruct (reset_out_of_fuel fuel e Hev) as [l' Hl'].
      rewrite Hl' in Hreset. injection Hreset as <- <- <-.
      split; [reflexivity|]. left. repeat split. }
  destruct (integrate e (first_interval e) (enter_continuous_time_mode m1))
    as [[y|x] m3] eqn:Hs.
  - destruct (in_schema_dec e
                (get_real (map (fun k => get_variable_valueref
                                           k (enter_continuous_time_mode m1))
                               (model_output_names (cfg e)))
                          (set_continuous_states y m3))) as [Hfit|Hfit].
    + destruct (reset_solver_returns fuel Hev Hs Hfit) as [l' Hl'].
      rewrite Hl' in Hreset. injection Hreset as <- <- <-.
      split; [reflexivity|]. right. cbn. rewrite length_map.
      split; [reflexivity|]. split; [reflexivity|].
      split; right; reflexivity.
    + destruct (reset_history_raises fuel Hev Hs Hfit) as [l' Hl'].
      rewrite Hl' in Hreset. injection Hreset as <- <- <-.
      split; [reflexivity|]. right. cbn. rewrite length_map.
      split; [reflexivity|]. split; [reflexivity|].
      split; [left|right]; reflexivity.
  - destruct (reset_solver_raises fuel e Hev Hs) as [l' Hl'].
    rewrite Hl' in Hreset. injection Hreset as <- <- <-.
    split; [reflexivity|]. right. cbn. rewrite length_map.
    split; [reflexivity|]. split; [reflexivity|].
    split; left; reflexivity.
Qed.

(** What a call of [step] leaves, however it ends. *)
Lemma step_frame (e e' : Env) (a : Action F) r l :
  step a e = (r, e', l) ->
  cfg e' = cfg e /\
  measurement e' = measurement e /\
  model_output_idx e' = model_output_idx e /\
  ((sim_time_interval e' = sim_time_interval e /\
    _failed e' = _failed e /\
    (_state e' = _state e \/ sim_time_interval e <> None))
   \/
   (exists t_span,
       sim_time_interval e = Some t_span /\
       sim_time_interval e'
       = Some (advance (time_step_size (cfg e)) t_span))).
Proof.
  intros Hstep. apply step_outcome in Hstep.
  inversion Hstep as [ | | | | t_span y m' Hrun Hn Hi Hs Hfit
                            | t_span y m' Hrun Hn Hi Hs Hfit e2 Hrew
                            | t_span y m' rw Hrun Hn Hi Hs Hfit e2 Hrew];
    subst;
    (split; [reflexivity|]); (split; [reflexivity|]);
    (split; [reflexivity|]);
    try (left; split; [reflexivity|]; split; [reflexivity|];
         left; reflexivity);
    try (left; split; [reflexivity|]; split; [reflexivity|];
         right; cbn [sim_time_interval]; congruence);
    right; exists t_span; (split; [assumption|reflexivity]).
Qed.


(** X10. Whatever sequence of calls of [reset] and [step] a program makes
    on a constructed object, and however the calls end: the configuration
    stays the one [__init__] stored; the measurement stays empty, so the
    observation a call of [step] returns is the state the object keeps; as
    long as no clock interval is set the object has not failed and holds no
    state; and once it is set there is one value reference for every output
    name. *)
Theorem reachable_invariants (a : Args F FMU PlotTmpl) (e0 e : Env) :
  ModelicaEnv_init a = Return e0 ->
  reachable e0 e ->
  cfg e = cfg e0 /\
  measurement e = [] /\
  (sim_time_interval e = None ->
   _failed e = false /\ _state e = [] /\ model_output_idx e = []) /\
  (sim_time_interval e <> None ->
   List.length (model_output_idx e)
   = List.length (model_output_names (cfg e))) /\
  (forall (act : Action F) obs r d info (e' : Env) l,
      step act e = (Return (obs, r, d, info), e', l) -> _state e' = obs).
Proof.
  intros Hinit Hreach.
  assert (Hinv : cfg e = cfg e0 /\
                 measurement e = [] /\
                 (sim_time_interval e = None ->
                  _failed e = false /\ _state e = [] /\
                  model_output_idx e = []) /\
                 (sim_time_interval e <> None ->
                  List.length (model_output_idx e)
                  = List.length (model_output_names (cfg e)))).
  { induction Hreach as [|fuel e e' r l Hreach IH Hreset
                         |act e e' r l Hreach IH Hstep].
    - unfold ModelicaEnv_init in Hinit.
      destruct (arg_model_input a); [|discriminate].
      destruct (arg_model_output a); [|discriminate].
      destruct (negb (in_viz_modes (arg_viz_mode a))); [discriminate|].
      destruct (init_viz (arg_viz_cols a)) as [[re tm]| |]; try discriminate.
      injection Hinit as <-. cbn. repeat split; congruence.
    - destruct IH as (Hc & Hm & Hnone & Hsome).
      apply reset_frame in Hreset
        as [Hc' [(Hi & Hf & Hs & Hms & Hidx)
                | (Hi & Hlen & Hf & Hms)]].
      + repeat split; try congruence.
        * rewrite Hf. apply Hnone. congruence.
        * rewrite Hs. apply Hnone. congruence.
        * rewrite Hidx. apply Hnone. congruence.
        * intros Hne. rewrite Hidx, Hc'. apply Hsome. congruence.
      + repeat split; try congruence.
        destruct Hms; congruence.
    - destruct IH as (Hc & Hm & Hnone & Hsome).
      apply step_frame in Hstep
        as (Hc' & Hms & Hidx & [(Hi & Hf & Hs) | (t_span & Hi & Hi')]).
      + repeat split; try congruence.
        * rewrite Hf. apply Hnone. congruence.
        * destruct Hs as [Hs|Hs]; [|congruence].
          rewrite Hs. apply Hnone. congruence.
        * rewrite Hidx. apply Hnone. congruence.
        * intros Hne. rewrite Hidx, Hc'. apply Hsome. congruence.
      + repeat split; try congruence.
        intros _. rewrite Hidx, Hc'. apply Hsome. congruence. }
  destruct Hinv as (Hc & Hm & Hnone & Hsome).
  repeat (split; [assumption|]).
  intros act obs r d info e' l Hstep.
  eapply step_last_observation; eassumption.
Qed.

End WithFloat.

(** *** The clock in exact arithmetic *)

Section Exact.
Import ExactFacts.
Context {FMU : Type} `{FMUModelME2 xQ FMU} `{Scipy xQ FMU}.
Variable PlotTmpl : Type.

Let Env : Type := ModelicaEnv xQ FMU PlotTmpl.


(** X9. In exact arithmetic the object [reset] leaves is running exactly
    when the end of the first interval lies within the end time in absolute
    value, [|start + step_size| <= start + k * step_size], and terminal
    otherwise.  With a positive step size and [max_episode_steps <= 0] it
    is terminal at once: every call of [step] returns the observation of
    [reset] with the reward minus infinity and [done = True]. *)
Theorem reset_running_iff (a : Args xQ FMU PlotTmpl) (e e0 : Env)
  (s h : Q) (k : Z) (fuel : nat) (obs : list xQ) (l : list LogRecord) :
  ModelicaEnv_init a = Return e ->
  arg_time_start a = Fin s ->
  arg_time_step a = Fin h ->
  arg_max_episode_steps a = Some k ->
  reset fuel e = (Return obs, e0, l) ->
  let t_end := s + inject_Z k * h in
  (running e0 <-> - t_end <= s + h /\ s + h <= t_end) /\
  (terminal e0 <-> ~ (- t_end <= s + h /\ s + h <= t_end)) /\
  (0 < h -> (k <= 0)%Z ->
   forall act : Action xQ,
   exists l',
     step act e0 = (Return (obs, Some NInf, true, []), e0, l')).
Proof.
  intros Hinit Hs Hh Hk Hreset t_end.
  apply init_returns in Hinit as (Hts & Hstep & Hend & _).
  apply reset_returns in Hreset as (Hc & Hf & _ & Hi & Hst & _).
  rewrite Hts, Hstep, Hs, Hh in Hi. cbn in Hi.
  rewrite Hs, Hh, Hk in Hend. cbn in Hend. fold t_end in Hend.
  rewrite <- Hc in Hend.
  assert (Hrun : running e0 <-> - t_end <= s + h /\ s + h <= t_end).
  { rewrite running_inv. split.
    - intros (_ & t0 & t1 & Hi' & Hgt). rewrite Hi in Hi'.
      injection Hi' as <- <-. rewrite Hend in Hgt.
      apply fgtb_abs_false in Hgt. exact Hgt.
    - intros Hin. split; [exact Hf|]. exists (Fin s), (Fin (s + h)).
      split; [exact Hi|]. rewrite Hend. apply fgtb_abs_false. exact Hin. }
  assert (Hterm : terminal e0 <-> ~ (- t_end <= s + h /\ s + h <= t_end)).
  { rewrite terminal_inv. split.
    - intros [Hf' | (t0 & t1 & Hi' & Hgt)]; [congruence|].
      rewrite Hi in Hi'. injection Hi' as <- <-. rewrite Hend in Hgt.
      intros Hin. apply fgtb_abs_false in Hin. congruence.
    - intros Hout. right. exists (Fin s), (Fin (s + h)).
      split; [exact Hi|]. rewrite Hend.
      destruct (fgtb (fabs (Fin (s + h))) (Fin t_end)) eqn:E;
        [reflexivity|].
      apply fgtb_abs_false in E. contradiction. }
  split; [exact Hrun|]. split; [exact Hterm|].
  intros Hpos Hk0 act.
  assert (Ht : terminal e0).
  { apply Hterm. intros [_ Hle]. unfold t_end in Hle.
    assert (Hk1 : inject_Z k <= 0) by (rewrite (Zle_Qle k 0) in Hk0; exact Hk0).
    assert (Hkh : inject_Z k * h <= 0 * h)
      by (apply Qmult_le_compat_r; [exact Hk1|apply Qlt_le_weak, Hpos]).
    lra. }
  destruct Ht as [ld Hd]. eexists.
  rewrite (step_terminal act Hd). rewrite Hst. reflexivity.
Qed.

End Exact.
End ReachFacts.

(** ** The Jacobian handed to the solver *)

Module JacobianFacts.
Import Modelica.

Section WithFloat.
Context {F FMU : Type} `{PyFloat F} `{FMUModelME2 F FMU} `{Scipy F FMU}.



End WithFloat.
End JacobianFacts.

(** ** The figures of [render] *)

Module FigureFacts.
Import Re Modelica ReFacts RenderFacts GlobFacts.

Section WithFloat.
Context {F FMU : Type} `{PyFloat F} `{FMUModelME2 F FMU} `{Scipy F FMU}.
Variable PlotTmpl : Type.
Variable in_class : string -> ascii -> bool.

Let Env : Type := ModelicaEnv F FMU PlotTmpl.

(** What [__init__] stores for the visualisation. *)
Lemma init_viz_stored (a : Args F FMU PlotTmpl) (e : Env) :
  ModelicaEnv_init a = Return e ->
  viz_mode (cfg e) = arg_viz_mode a /\
  in_viz_modes (arg_viz_mode a) = true /\
  init_viz (arg_viz_cols a)
  = Return (viz_col_regex (cfg e), viz_col_tmpls (cfg e)).
Proof.
  unfold ModelicaEnv_init.
  destruct (arg_model_input a); [|discriminate].
  destruct (arg_model_output a); [|discriminate].
  destruct (in_viz_modes (arg_viz_mode a)); [|discriminate]. cbn [negb].
  destruct (init_viz (arg_viz_cols a)) as [[re tm]| |]; try discriminate.
  intros [= <-]. cbn. repeat split.
Qed.

(** The figures at the close of an episode: one per group of columns with a
    matching column, then one per template. *)
Lemma render_episode (e : Env) :
  viz_mode (cfg e) = Some "episode" ->
  render in_class true e
  = Some (render_cols in_class (viz_col_regex (cfg e))
                      (structured_cols (history e))
          ++ map (@TmplFig PlotTmpl) (viz_col_tmpls (cfg e))).
Proof. intros Hm. unfold render. rewrite Hm. reflexivity. Qed.

Lemma rendered_cols_app (f1 f2 : list (Figure PlotTmpl)) :
  rendered_cols (f1 ++ f2) = rendered_cols f1 ++ rendered_cols f2.
Proof. unfold rendered_cols. apply flat_map_app. Qed.

Lemma rendered_cols_tmpls (ts : list PlotTmpl) :
  rendered_cols (map (@TmplFig PlotTmpl) ts) = [].
Proof. induction ts as [|t ts IH]; [reflexivity|exact IH]. Qed.

(** The columns plotted at the close of an episode are the columns the
    stored pattern fully matches. *)
Lemma rendered_cols_episode (e : Env) :
  viz_mode (cfg e) = Some "episode" ->
  exists figs,
    render in_class true e = Some figs /\
    rendered_cols figs
    = filter (fullmatch in_class (viz_col_regex (cfg e)))
             (history_cols (history e)).
Proof.
  intros Hm. rewrite (render_episode e Hm). eexists. split; [reflexivity|].
  rewrite rendered_cols_app, rendered_cols_tmpls, app_nil_r.
  apply rendered_cols_render_cols.
Qed.

Lemma filter_none (A : Type) (f : A -> bool) (xs : list A) :
  (forall x, In x xs -> f x = false) -> filter f xs = [].
Proof.
  induction xs as [|x xs IH]; intros Hno; [reflexivity|].
  cbn [filter]. rewrite (Hno x) by (left; reflexivity).
  apply IH. intros y Hy. apply Hno. right. exact Hy.
Qed.

Lemma filter_all (A : Type) (f : A -> bool) (xs : list A) :
  Forall (fun x => f x = true) xs -> filter f xs = xs.
Proof.
  induction 1 as [|x xs Hx _ IH]; [reflexivity|].
  cbn [filter]. rewrite Hx, IH. reflexivity.
Qed.

Lemma render_cols_none (r : regex) (items : list ColItem) :
  (forall col, In col (flat_map item_cols items) ->
               fullmatch in_class r col = false) ->
  @render_cols PlotTmpl in_class r items = [].
Proof.
  induction items as [|item items IH]; intros Hno; [reflexivity|].
  cbn [render_cols].
  assert (Hf : filter (fullmatch in_class r) (item_cols item) = []).
  { apply filter_none. intros col Hin. apply Hno.
    cbn [flat_map]. apply in_or_app. left. exact Hin. }
  rewrite Hf. apply IH. intros col Hin. apply Hno.
  cbn [flat_map]. apply in_or_app. right. exact Hin.
Qed.

(** X15. [render] produces figures only at the close of an episode in the
    mode ['episode']: without a mode it returns the empty list, in the mode
    ['step'] and whenever [close] is false it returns [None], and [__init__]
    admits no other mode.  [close()] returns [True] with what
    [render(close=True)] returns. *)
Theorem render_modes (a : Args F FMU PlotTmpl) (e e' : Env) :
  ModelicaEnv_init a = Return e ->
  cfg e' = cfg e ->
  (arg_viz_mode a = None \/ arg_viz_mode a = Some "step"
   \/ arg_viz_mode a = Some "episode") /\
  (arg_viz_mode a = None ->
   forall c, render in_class c e' = Some []) /\
  (arg_viz_mode a = Some "step" ->
   forall c, render in_class c e' = None) /\
  (arg_viz_mode a = Some "episode" ->
   render in_class false e' = None /\
   render in_class true e'
   = Some (render_cols in_class (viz_col_regex (cfg e))
                       (structured_cols (history e'))
           ++ map (@TmplFig PlotTmpl) (viz_col_tmpls (cfg e)))) /\
  close in_class e' = (true, render in_class true e').
Proof.
  intros Hinit Hc. apply init_viz_stored in Hinit as (Hm & Hin & _).
  rewrite <- Hc in Hm. split; [|split; [|split; [|split]]].
  - destruct (arg_viz_mode a) as [mode|]; [|left; reflexivity].
    cbn in Hin. apply orb_true_iff in Hin as [E|E];
      apply String.eqb_eq in E; subst; auto.
  - intros Hn c. unfold render. rewrite Hm, Hn. reflexivity.
  - intros Hs c. unfold render. rewrite Hm, Hs. destruct c; reflexivity.
  - intros He. rewrite He in Hm. split.
    + unfold render. rewrite Hm. reflexivity.
    + rewrite (render_episode e' Hm), Hc. reflexivity.
  - reflexivity.
Qed.

(** X16. With [viz_cols = None] the filter is [.*]: at the close of an
    episode [render] plots every column whose name holds no newline, and
    so every column when no name holds one. *)
Theorem render_default_all_columns (a : Args F FMU PlotTmpl) (e e' : Env) :
  ModelicaEnv_init a = Return e ->
  arg_viz_cols a = VizNone ->
  arg_viz_mode a = Some "episode" ->
  cfg e' = cfg e ->
  exists figs,
    render in_class true e' = Some figs /\
    rendered_cols figs
    = filter (fun col => negb (mem newline col)) (history_cols (history e'))
    /\
    (Forall (fun col => mem newline col = false)
            (history_cols (history e')) ->
     rendered_cols figs = history_cols (history e')).
Proof.
  intros Hinit Hv Hmode Hc.
  apply init_viz_stored in Hinit as (Hm & _ & Hre).
  rewrite Hv in Hre. cbn [init_viz] in Hre. injection Hre as Hre _.
  rewrite Hmode, <- Hc in Hm. rewrite <- Hc in Hre.
  destruct (rendered_cols_episode e' Hm) as (figs & Hr & Hcols).
  exists figs. split; [exact Hr|].
  rewrite <- Hre in Hcols.
  assert (Hf : rendered_cols figs
               = filter (fun col => negb (mem newline col))
                        (history_cols (history e'))).
  { rewrite Hcols. apply filter_ext. intros col.
    apply fullmatch_dot_star. }
  split; [exact Hf|].
  intros Hall. rewrite Hf. apply filter_all.
  apply Forall_impl with (2 := Hall). intros col Hcol.
  rewrite Hcol. reflexivity.
Qed.

(** The filter of a [viz_cols] list without a foreign element. *)
Lemma init_list_regex (a : Args F FMU PlotTmpl) (e : Env)
  (l : list (viz_elem PlotTmpl)) :
  ModelicaEnv_init a = Return e ->
  arg_viz_cols a = VizList l ->
  viz_mode (cfg e) = arg_viz_mode a /\
  has_other l = false /\
  viz_col_regex (cfg e) = join (map translate (viz_strings l)) /\
  viz_col_tmpls (cfg e) = viz_tmpls l.
Proof.
  intros Hinit Hv. apply init_viz_stored in Hinit as (Hm & _ & Hre).
  rewrite Hv in Hre. cbn [init_viz] in Hre.
  rewrite InitFacts.viz_cols_loop_spec in Hre.
  destruct (has_other l); [discriminate|]. cbn [app] in Hre.
  injection Hre as Hre Htm. repeat split; auto.
Qed.

(** X17. The strings of a [viz_cols] list that hold no opening bracket are
    read as the shell reads wildcards: at the close of an episode [render]
    plots exactly the columns that one of them matches, where a star stands
    for any run of characters, dots and newlines included, a question mark
    for one character and every other character for itself.  Templates in
    the list do not change the selection. *)
Theorem render_selects_wild (a : Args F FMU PlotTmpl) (e e' : Env)
  (l : list (viz_elem PlotTmpl)) :
  ModelicaEnv_init a = Return e ->
  arg_viz_cols a = VizList l ->
  arg_viz_mode a = Some "episode" ->
  viz_strings l <> [] ->
  Forall (fun p => bracket_free p = true) (viz_strings l) ->
  cfg e' = cfg e ->
  exists figs,
    render in_class true e' = Some figs /\
    forall col,
      In col (rendered_cols figs) <->
      In col (history_cols (history e')) /\
      exists p, In p (viz_strings l) /\ wild p col.
Proof.
  intros Hinit Hv Hmode Hne Hfree Hc.
  destruct (init_list_regex a Hinit Hv) as (Hm & _ & Hre & _).
  rewrite Hmode, <- Hc in Hm. rewrite <- Hc in Hre.
  destruct (rendered_cols_episode e' Hm) as (figs & Hr & Hcols).
  exists figs. split; [exact Hr|].
  intros col. rewrite Hcols, filter_In, Hre.
  rewrite fullmatch_join
    by (destruct (viz_strings l); [congruence|discriminate]).
  rewrite existsb_translate, existsb_exists.
  rewrite Forall_forall in Hfree.
  split; intros [Hin (p & Hp & Hmatch)]; (split; [exact Hin|]);
    exists p; (split; [exact Hp|]);
    apply (fullmatch_translate_wild in_class p col (Hfree p Hp));
    exact Hmatch.
Qed.

(** X18. With [viz_cols = ["*" + suffix]], where the suffix holds none of
    the characters [*], [?] and [[], [render] plots at the close of an
    episode the columns whose names end with the suffix, and no other. *)
Theorem render_selects_suffix (a : Args F FMU PlotTmpl) (e e' : Env)
  (suffix : string) :
  ModelicaEnv_init a = Return e ->
  arg_viz_cols a = VizList [VStr (String "*" suffix)] ->
  arg_viz_mode a = Some "episode" ->
  plain suffix = true ->
  cfg e' = cfg e ->
  exists figs,
    render in_class true e' = Some figs /\
    rendered_cols figs
    = filter (fun col => endswith col suffix) (history_cols (history e')).
Proof.
  intros Hinit Hv Hmode Hp Hc.
  destruct (init_list_regex a Hinit Hv) as (Hm & _ & Hre & _).
  rewrite Hmode, <- Hc in Hm. rewrite <- Hc in Hre. cbn in Hre.
  destruct (rendered_cols_episode e' Hm) as (figs & Hr & Hcols).
  exists figs. split; [exact Hr|].
  rewrite Hcols, Hre. apply filter_ext. intros col.
  assert (Hb : bracket_free (String "*" suffix) = true)
    by (cbn; apply plain_bracket_free, Hp).
  pose proof (fullmatch_translate_wild in_class (String "*" suffix) col Hb)
    as Hw1.
  pose proof (wild_star_plain suffix col Hp) as Hw2.
  destruct (fullmatch in_class (translate (String "*" suffix)) col) eqn:E1;
    destruct (endswith col suffix) eqn:E2; try reflexivity.
  - assert (E : false = true) by (apply Hw2, Hw1; reflexivity).
    discriminate.
  - assert (E : false = true) by (apply Hw1, Hw2; reflexivity).
    discriminate.
Qed.

(** X19. At the close of an episode the figures of the templates follow
    the figures of the columns, one per template in the order of the
    [viz_cols] list.  A list that holds templates only selects no column
    (but one named by the empty string): the figures are those of the
    templates. *)
Theorem render_templates (a : Args F FMU PlotTmpl) (e e' : Env)
  (l : list (viz_elem PlotTmpl)) :
  ModelicaEnv_init a = Return e ->
  arg_viz_cols a = VizList l ->
  arg_viz_mode a = Some "episode" ->
  cfg e' = cfg e ->
  render in_class true e'
  = Some (render_cols in_class (join (map translate (viz_strings l)))
                      (structured_cols (history e'))
          ++ map (@TmplFig PlotTmpl) (viz_tmpls l)) /\
  (viz_strings l = [] ->
   (forall col, In col (history_cols (history e')) -> col <> "") ->
   render in_class true e' = Some (map (@TmplFig PlotTmpl) (viz_tmpls l))).
Proof.
  intros Hinit Hv Hmode Hc.
  destruct (init_list_regex a Hinit Hv) as (Hm & _ & Hre & Htm).
  rewrite Hmode, <- Hc in Hm. rewrite <- Hc in Hre, Htm.
  assert (Hr : render in_class true e'
               = Some (render_cols in_class
                         (join (map translate (viz_strings l)))
                         (structured_cols (history e'))
                       ++ map (@TmplFig PlotTmpl) (viz_tmpls l))).
  { rewrite (render_episode e' Hm), Hre, Htm. reflexivity. }
  split; [exact Hr|].
  intros Hnil Hnames. rewrite Hr, Hnil. cbn [map].
  rewrite render_cols_none; [reflexivity|].
  intros col Hin. rewrite fullmatch_join_nil.
  apply String.eqb_neq. apply Hnames. exact Hin.
Qed.

End WithFloat.
End FigureFacts.

(** ** The droop gain, read twice *)

Module GainFacts.
Import Params ParamsFacts.

(** X1. In exact arithmetic the gain read from a [DroopParams] with the
    configured gain [q], not zero, is the float [g] with [g * q = 1], and
    reading the gain of a [DroopParams] configured with [g] gives [q] back.
    In binary64 the two divisions round: the gain 49 comes back as
    49.00000000000001. *)
Theorem DroopParams_gain_inverse :
  (forall (q : Q) (tau nom tau' nom' : xQ),
      ~ q == 0 ->
      exists g g' : Q,
        DroopParams_gain (DroopParams_init (Fin q) tau nom)
        = Return (PyFloatV (Fin g)) /\
        g * q == 1 /\
        DroopParams_gain (DroopParams_init (Fin g) tau' nom')
        = Return (PyFloatV (Fin g')) /\
        g' == q) /\
  (exists g : PrimFloat.float,
      DroopParams_gain
        (DroopParams_init (float_of_int 49) (float_of_int 1) (float_of_int 0))
      = Return (PyFloatV g) /\
      exists g' : PrimFloat.float,
        DroopParams_gain
          (DroopParams_init g (float_of_int 1) (float_of_int 0))
        = Return (PyFloatV g') /\
        PrimFloat.eqb g' (float_of_int 49) = false /\
        PrimFloat.ltb (float_of_int 49) g' = true).
Proof.
  split.
  - intros q tau nom tau' nom' Hq.
    assert (Hg : ~ 1 / q == 0).
    { intros E. apply Hq.
      assert (Hone : (1 / q) * q == 1) by (field; exact Hq).
      rewrite E in Hone. lra. }
    exists (1 / q), (1 / (1 / q)).
    split; [apply DroopParams_gain_exact, Hq|].
    split; [field; exact Hq|].
    split; [apply DroopParams_gain_exact, Hg|].
    field. exact Hq.
  - eexists. split; [vm_compute; reflexivity|].
    eexists. split; [vm_compute; reflexivity|].
    split; vm_compute; reflexivity.
Qed.

End GainFacts.

(** ** What [step] writes to the model *)

Module InputFacts.
Import Modelica StepFacts.

Section WithFloat.
Context {F FMU : Type} `{PyFloat F} `{FMUModelME2 F FMU} `{Scipy F FMU}.
Variable PlotTmpl : Type.

Let Env : Type := ModelicaEnv F FMU PlotTmpl.

Lemma init_parameters (a : Args F FMU PlotTmpl) (e : Env) :
  ModelicaEnv_init a = Return e ->
  model_parameters (cfg e)
  = map (fun vp => (fst vp, lift_param (snd vp)))
        (match arg_model_params a with
         | Some d => d
         | None => []
         end).
Proof.
  unfold ModelicaEnv_init.
  destruct (arg_model_input a); [|discriminate].
  destruct (arg_model_output a); [|discriminate].
  destruct (negb (in_viz_modes (arg_viz_mode a))); [discriminate|].
  destruct (init_viz (arg_viz_cols a)) as [[re tm]| |]; try discriminate.
  intros [= <-]. reflexivity.
Qed.

Lemma push_inputs_written (e : Env) (d : list (string * param F))
  (values : list F) (t0 t1 : F) :
  model_parameters (cfg e)
  = map (fun vp => (fst vp, lift_param (snd vp))) d ->
  sim_time_interval e = Some (t0, t1) ->
  push_inputs values e
  = written (model_input_names (cfg e)) values d t0 (model e).
Proof.
  intros Hp Hi. unfold push_inputs, written. rewrite Hp, Hi.
  destruct d as [|p d]; [reflexivity|].
  cbn [map]. rewrite !map_map. cbn [fst snd].
  assert (Hat : forall p0 : string * param F,
             lift_param (snd p0) t0 = param_at t0 (snd p0))
    by (intros [k [v|f]]; reflexivity).
  rewrite Hat. rewrite (map_ext _ _ Hat).
  rewrite (map_ext (fun x : string * param F => fst x) fst)
    by reflexivity.
  reflexivity.
Qed.

(** X20. A call of [step] on a running object, with an action of the right
    length, hands the solver the model in which the values of the action
    have been written under the input names and then, when parameters were
    given to [__init__], all of them in one call, each scalar as given and
    each callable applied to the start of the current interval.  Without
    parameters ([None] or an empty dictionary) nothing is written after the
    inputs.  What the call returns or raises is what the solver makes of
    that model. *)
Theorem step_writes_parameters (a : Args F FMU PlotTmpl) (e e1 e2 : Env)
  (act : Action F) (t0 t1 : F) r (l : list LogRecord) :
  ModelicaEnv_init a = Return e ->
  cfg e1 = cfg e ->
  sim_time_interval e1 = Some (t0, t1) ->
  running e1 ->
  fits e1 act ->
  step act e1 = (r, e2, l) ->
  let d := match arg_model_params a with Some d => d | None => [] end in
  let m := written (model_input_names (cfg e)) (values_of act) d t0
                   (model e1) in
  (exists x m',
      integrate e1 (t0, t1) m = (Failed x, m') /\
      r = Raise x /\ model e2 = m') \/
  (exists y m',
      integrate e1 (t0, t1) m = (Solved y, m') /\
      model e2 = set_continuous_states y m' /\
      _state e2 = get_real (model_output_idx e1) (model e2)).
Proof.
  intros Hinit Hc Hi Hrun Hfit Hstep d m.
  assert (Hpush : push_inputs (values_of act) e1 = m).
  { subst m. rewrite <- Hc.
    apply push_inputs_written with (t1 := t1); [|exact Hi].
    rewrite Hc. apply (init_parameters a Hinit). }
  apply step_outcome in Hstep.
  inversion Hstep as [ Hf Hn | Ht | _ Hn
                     | t_span x m' _ Hn Hi' Hs
                     | t_span y m' _ Hn Hi' Hs Hsch
                     | t_span y m' _ Hn Hi' Hs Hsch e3 Hrew
                     | t_span y m' rw _ Hn Hi' Hs Hsch e3 Hrew]; subst.
  - congruence.
  - destruct Hrun as [la Hla], Ht as [lb Hlb]. congruence.
  - unfold fits in Hfit. contradiction.
  - rewrite Hi in Hi'. injection Hi' as <-. rewrite Hpush in Hs.
    left. exists x, m'. repeat split. exact Hs.
  - rewrite Hi in Hi'. injection Hi' as <-. rewrite Hpush in Hs.
    right. exists y, m'. split; [exact Hs|]. split; reflexivity.
  - rewrite Hi in Hi'. injection Hi' as <-. rewrite Hpush in Hs.
    right. exists y, m'. split; [exact Hs|]. split; reflexivity.
  - rewrite Hi in Hi'. injection Hi' as <-. rewrite Hpush in Hs.
    right. exists y, m'. split; [exact Hs|]. split; reflexivity.
Qed.

End WithFloat.
End InputFacts.

(** ** The further properties at the test model *)

Module FurtherExamples.
Import Re Modelica Integrator StepFacts.

Lemma triple_eta (A B C : Type) (p : A * B * C) :
  p = (fst (fst p), snd (fst p), snd p).
Proof. destruct p as [[a b] c]. reflexivity. Qed.

(** The test objects are what [__init__], [reset] and [step] make of the
    test arguments. *)
Lemma build_init (a : Args xQ (FMU xQ) unit) :
  (exists e, ModelicaEnv_init a = Return e) ->
  ModelicaEnv_init a = Return (build a).
Proof. intros [e He]. unfold build. rewrite He. reflexivity. Qed.

Lemma start_reset {S : Scipy xQ (FMU xQ)} (a : Args xQ (FMU xQ) unit) :
  reset 1 (build a)
  = (fst (fst (reset 1 (build a))), start a, snd (reset 1 (build a))).
Proof. apply triple_eta. Qed.

Lemma after_eta {S : Scipy xQ (FMU xQ)} (act : Action xQ)
  (e : ModelicaEnv xQ (FMU xQ) unit) :
  step act e = (fst (fst (step act e)), after act e, snd (step act e)).
Proof. apply triple_eta. Qed.

Lemma DroopParams_gain_inverse_witness :
  exists g g' : Q,
    Params.DroopParams_gain (Params.DroopParams_init (Fin 4) (Fin 1) (Fin 50))
    = Return (Params.PyFloatV (Fin g)) /\
    g * 4 == 1 /\
    Params.DroopParams_gain (Params.DroopParams_init (Fin g) (Fin 1) (Fin 50))
    = Return (Params.PyFloatV (Fin g')) /\
    g' == 4.
Proof.
  apply (proj1 GainFacts.DroopParams_gain_inverse 4 (Fin 1) (Fin 50)
               (Fin 1) (Fin 50)).
  intros E. discriminate E.
Defined.

Lemma init_viz_cols_list_witness :
  (exists e : ModelicaEnv xQ (FMU xQ) unit,
      ModelicaEnv_init
        (viz_args (VizList [VStr "*.i"; VTmpl tt; VStr "a.v"; VTmpl tt]))
      = Return e /\
      viz_col_regex (cfg e) = join [translate "*.i"; translate "a.v"] /\
      viz_col_tmpls (cfg e) = [tt; tt]) /\
  ModelicaEnv_init (viz_args (VizList [VStr "*.i"; VOther; VTmpl tt]))
  = Raise (ValueError "viz_cols list must contain only strings or PlotTmpl objects").
Proof.
  split.
  - refine (InitFacts.init_viz_cols_list
              (viz_args (VizList [VStr "*.i"; VTmpl tt; VStr "a.v"; VTmpl tt]))
              eq_refl _ _ eq_refl); discriminate.
  - refine (InitFacts.init_viz_cols_list
              (viz_args (VizList [VStr "*.i"; VOther; VTmpl tt]))
              eq_refl _ _ eq_refl); discriminate.
Defined.

Lemma step_before_reset_witness :
  step (ActSeq [Fin 2]) (build three_args)
  = (Raise (TypeError "'NoneType' object is not subscriptable"),
     build three_args,
     [Log DEBUG "Experiment next step was called."]) /\
  is_done (build three_args)
  = (Raise (TypeError "'NoneType' object is not subscriptable"),
     build three_args, []).
Proof.
  apply (InitFacts.step_before_reset three_args (ActSeq [Fin 2])).
  reflexivity.
Defined.

Lemma reset_forgets_witness :
  (exists l2,
      reset 1 (after (ActSeq [Fin 2]) env_one)
      = (Return (_state env_one), env_one, l2)) /\
  _failed env_one = false /\
  measurement env_one = [] /\
  rows (history env_one) = [_state env_one].
Proof.
  apply (@ResetFacts.reset_forgets _ _ _ _ _ unit 1%nat
           (build one_args) (after (ActSeq [Fin 2]) env_one) env_one
           (_state env_one) (snd (reset 1 (build one_args)))).
  - vm_compute. reflexivity.
  - reflexivity.
  - vm_compute. reflexivity.
  - vm_compute. reflexivity.
Defined.

Lemma reset_simulates_first_interval_witness :
  exists m1 y m3,
    event_iteration 1 (initialised (build three_args)) = Some m1 /\
    integrate (build three_args) (first_interval (build three_args))
              (enter_continuous_time_mode m1)
    = (Solved y, m3) /\
    model env_three = set_continuous_states y m3 /\
    model_output_idx env_three
    = map (fun k => get_variable_valueref k (enter_continuous_time_mode m1))
          (model_output_names (cfg (build three_args))) /\
    _state env_three = get_real (model_output_idx env_three) (model env_three)
    /\
    sim_time_interval env_three = Some (first_interval (build three_args)) /\
    forall (a : Action xQ) tuple (e2 : ModelicaEnv xQ (FMU xQ) unit) l2,
      running env_three ->
      step a env_three = (Return tuple, e2, l2) ->
      exists y' m',
        integrate env_three (first_interval (build three_args))
                  (push_inputs (values_of a) env_three)
        = (Solved y', m') /\
        sim_time_interval e2
        = Some (advance (time_step_size (cfg (build three_args)))
                        (first_interval (build three_args))).
Proof.
  apply (@ResetFacts.reset_simulates_first_interval _ _ _ _ _ unit 1%nat
           (build three_args) env_three (_state env_three)
           (snd (reset 1 (build three_args)))).
  vm_compute. reflexivity.
Defined.


Lemma no_step_limit_witness :
  (time_end (cfg env_unbounded) = finf /\
   (terminal env_unbounded <-> _failed env_unbounded = true) /\
   forall (act : Action xQ) obs r d info
          (e2 : ModelicaEnv xQ (FMU xQ) unit) l,
     running env_unbounded ->
     step act env_unbounded = (Return (obs, r, d, info), e2, l) ->
     exists rw, r = Some rw /\ d = failed_flag rw) /\
  (time_end (cfg env_unbounded_binary64) = finf /\
   (terminal env_unbounded_binary64
    <-> _failed env_unbounded_binary64 = true) /\
   forall (act : Action PrimFloat.float) obs r d info
          (e2 : ModelicaEnv PrimFloat.float (FMU PrimFloat.float) unit) l,
     running env_unbounded_binary64 ->
     step act env_unbounded_binary64 = (Return (obs, r, d, info), e2, l) ->
     exists rw, r = Some rw /\ d = failed_flag rw).
Proof.
  split.
  - apply (@DoneFacts.no_step_limit xQ (FMU xQ) _ _ _ unit unbounded_args
             (build unbounded_args) env_unbounded).
    + exact DoneFacts.exact_inf_top.
    + reflexivity.
    + reflexivity.
    + vm_compute. reflexivity.
  - apply (@DoneFacts.no_step_limit PrimFloat.float (FMU PrimFloat.float)
             _ _ _ unit unbounded_args (build unbounded_args)
             env_unbounded_binary64).
    + exact DoneFacts.binary64_inf_top.
    + reflexivity.
    + reflexivity.
    + vm_compute. reflexivity.
Defined.

Lemma step_done_is_done_witness :
  (exists l',
      is_done (after (ActSeq [Fin 2]) env_three)
      = (Return false, after (ActSeq [Fin 2]) env_three, l')) /\
  (false = false -> running (after (ActSeq [Fin 2]) env_three)) /\
  (false = true -> terminal (after (ActSeq [Fin 2]) env_three)).
Proof.
  apply (@DoneFacts.step_done_is_done _ _ _ _ _ unit env_three
           (after (ActSeq [Fin 2]) env_three) (ActSeq [Fin 2])
           [Fin 2] (Some (Fin 1)) false []
           (snd (step (ActSeq [Fin 2]) env_three))).
  vm_compute. reflexivity.
Defined.

Lemma reset_running_iff_witness :
  (running env_zero
   <-> - (0 + inject_Z 0 * 1) <= 0 + 1 /\ 0 + 1 <= 0 + inject_Z 0 * 1) /\
  (terminal env_zero
   <-> ~ (- (0 + inject_Z 0 * 1) <= 0 + 1 /\ 0 + 1 <= 0 + inject_Z 0 * 1)) /\
  (0 < 1 -> (0 <= 0)%Z ->
   forall act : Action xQ,
   exists l',
     step act env_zero
     = (Return (_state env_zero, Some NInf, true, []), env_zero, l')).
Proof.
  apply (@ReachFacts.reset_running_iff _ _ _ unit zero_args
           (build zero_args) env_zero 0 1 0%Z 1%nat (_state env_zero)
           (snd (reset 1 (build zero_args)))).
  - reflexivity.
  - reflexivity.
  - reflexivity.
  - reflexivity.
  - vm_compute. reflexivity.
Defined.

Lemma three_reachable :
  reachable (build three_args) (after (ActSeq [Fin 2]) env_three).
Proof.
  apply reach_step
    with (a := ActSeq [Fin 2]) (e := env_three)
         (r := fst (fst (step (ActSeq [Fin 2]) env_three)))
         (l := snd (step (ActSeq [Fin 2]) env_three)).
  - apply reach_reset
      with (fuel := 1%nat) (e := build three_args)
           (r := Return (_state env_three))
           (l := snd (reset 1 (build three_args))).
    + apply reach_here.
    + vm_compute. reflexivity.
  - unfold after. apply triple_eta.
Qed.

Lemma reachable_invariants_witness :
  cfg (after (ActSeq [Fin 2]) env_three) = cfg (build three_args) /\
  measurement (after (ActSeq [Fin 2]) env_three) = [] /\
  (sim_time_interval (after (ActSeq [Fin 2]) env_three) = None ->
   _failed (after (ActSeq [Fin 2]) env_three) = false /\
   _state (after (ActSeq [Fin 2]) env_three) = [] /\
   model_output_idx (after (ActSeq [Fin 2]) env_three) = []) /\
  (sim_time_interval (after (ActSeq [Fin 2]) env_three) <> None ->
   List.length (model_output_idx (after (ActSeq [Fin 2]) env_three))
   = List.length
       (model_output_names (cfg (after (ActSeq [Fin 2]) env_three)))) /\
  (forall (act : Action xQ) obs r d info
          (e' : ModelicaEnv xQ (FMU xQ) unit) l,
      step act (after (ActSeq [Fin 2]) env_three)
      = (Return (obs, r, d, info), e', l) ->
      _state e' = obs).
Proof.
  apply (@ReachFacts.reachable_invariants _ _ _ _ _ unit three_args
           (build three_args) (after (ActSeq [Fin 2]) env_three)).
  - reflexivity.
  - exact three_reachable.
Defined.


Lemma render_modes_witness :
  render listed_class false (start scenario_D_args) = None /\
  render listed_class true (start scenario_D_args)
  = Some [ColsFig ["a.i"]; ColsFig ["b.i"]] /\
  (forall c,
      render listed_class c
             (start (with_viz_mode (Some "step") scenario_D_args))
      = None) /\
  (forall c,
      render listed_class c (start (with_viz_mode None scenario_D_args))
      = Some []).
Proof.
  destruct (@FigureFacts.render_modes _ _ _ unit listed_class
              scenario_D_args (build scenario_D_args)
              (start scenario_D_args))
    as (_ & _ & _ & Hep & _).
  { reflexivity. }
  { vm_compute. reflexivity. }
  destruct (@FigureFacts.render_modes _ _ _ unit listed_class
              (with_viz_mode (Some "step") scenario_D_args)
              (build (with_viz_mode (Some "step") scenario_D_args))
              (start (with_viz_mode (Some "step") scenario_D_args)))
    as (_ & _ & Hst & _).
  { reflexivity. }
  { vm_compute. reflexivity. }
  destruct (@FigureFacts.render_modes _ _ _ unit listed_class
              (with_viz_mode None scenario_D_args)
              (build (with_viz_mode None scenario_D_args))
              (start (with_viz_mode None scenario_D_args)))
    as (_ & Hno & _).
  { reflexivity. }
  { vm_compute. reflexivity. }
  destruct (Hep eq_refl) as [Hf Ht].
  split; [exact Hf|]. split.
  - rewrite Ht. vm_compute. reflexivity.
  - split; [exact (Hst eq_refl)|exact (Hno eq_refl)].
Defined.

Lemma render_default_all_columns_witness :
  exists figs,
    render listed_class true (start (viz_args VizNone)) = Some figs /\
    rendered_cols figs
    = filter (fun col => negb (mem newline col))
             (history_cols (history (start (viz_args VizNone)))) /\
    (Forall (fun col => mem newline col = false)
            (history_cols (history (start (viz_args VizNone)))) ->
     rendered_cols figs
     = history_cols (history (start (viz_args VizNone)))).
Proof.
  apply (@FigureFacts.render_default_all_columns _ _ _ unit listed_class
           (viz_args VizNone) (build (viz_args VizNone))
           (start (viz_args VizNone))).
  - reflexivity.
  - reflexivity.
  - reflexivity.
  - vm_compute. reflexivity.
Defined.

Lemma render_selects_wild_witness :
  exists figs,
    render listed_class true
           (start (viz_args (VizList [VStr "*.i"; VTmpl tt; VStr "a.?"])))
    = Some figs /\
    forall col,
      In col (rendered_cols figs) <->
      In col (history_cols
                (history
                   (start (viz_args
                             (VizList [VStr "*.i"; VTmpl tt; VStr "a.?"])))))
      /\
      exists p, In p ["*.i"; "a.?"] /\ wild p col.
Proof.
  apply (@FigureFacts.render_selects_wild _ _ _ unit listed_class
           (viz_args (VizList [VStr "*.i"; VTmpl tt; VStr "a.?"]))
           (build (viz_args (VizList [VStr "*.i"; VTmpl tt; VStr "a.?"])))
           (start (viz_args (VizList [VStr "*.i"; VTmpl tt; VStr "a.?"])))
           [VStr "*.i"; VTmpl tt; VStr "a.?"]).
  - reflexivity.
  - reflexivity.
  - reflexivity.
  - discriminate.
  - repeat constructor.
  - vm_compute. reflexivity.
Defined.

Lemma render_selects_suffix_witness :
  exists figs,
    render listed_class true (start scenario_D_args) = Some figs /\
    rendered_cols figs
    = filter (fun col => endswith col ".i")
             (history_cols (history (start scenario_D_args))).
Proof.
  apply (@FigureFacts.render_selects_suffix _ _ _ unit listed_class
           scenario_D_args (build scenario_D_args) (start scenario_D_args)
           ".i").
  - reflexivity.
  - reflexivity.
  - reflexivity.
  - reflexivity.
  - vm_compute. reflexivity.
Defined.

Lemma render_templates_witness :
  render listed_class true (start (viz_args (VizList [VTmpl tt; VTmpl tt])))
  = Some [TmplFig tt; TmplFig tt].
Proof.
  destruct (@FigureFacts.render_templates _ _ _ unit listed_class
              (viz_args (VizList [VTmpl tt; VTmpl tt]))
              (build (viz_args (VizList [VTmpl tt; VTmpl tt])))
              (start (viz_args (VizList [VTmpl tt; VTmpl tt])))
              [VTmpl tt; VTmpl tt])
    as [_ Honly].
  - reflexivity.
  - reflexivity.
  - reflexivity.
  - vm_compute. reflexivity.
  - apply Honly; [reflexivity|].
    intros col Hin. vm_compute in Hin.
    destruct Hin as [<-|[<-|[<-|[]]]]; discriminate.
Defined.

Lemma step_writes_parameters_witness :
  (exists x m',
      integrate (start param_args) (Fin 0, Fin 1)
        (written ["u"] [Fin 2]
                 [("gain", Scalar (Fin 5));
                  ("ramp", Callable (fun t => fadd t (Fin 10)))]
                 (Fin 0) (model (start param_args)))
      = (Failed x, m') /\
      fst (fst (step (ActSeq [Fin 2]) (start param_args))) = Raise x /\
      model (after (ActSeq [Fin 2]) (start param_args)) = m') \/
  (exists y m',
      integrate (start param_args) (Fin 0, Fin 1)
        (written ["u"] [Fin 2]
                 [("gain", Scalar (Fin 5));
                  ("ramp", Callable (fun t => fadd t (Fin 10)))]
                 (Fin 0) (model (start param_args)))
      = (Solved y, m') /\
      model (after (ActSeq [Fin 2]) (start param_args))
      = set_continuous_states y m' /\
      _state (after (ActSeq [Fin 2]) (start param_args))
      = get_real (model_output_idx (start param_args))
                 (model (after (ActSeq [Fin 2]) (start param_args)))).
Proof.
  apply (@InputFacts.step_writes_parameters _ _ _ _ _ unit param_args
           (build param_args) (start param_args)
           (after (ActSeq [Fin 2]) (start param_args)) (ActSeq [Fin 2])
           (Fin 0) (Fin 1)
           (fst (fst (step (ActSeq [Fin 2]) (start param_args))))
           (snd (step (ActSeq [Fin 2]) (start param_args)))).
  - reflexivity.
  - vm_compute. reflexivity.
  - vm_compute. reflexivity.
  - exists [Log DEBUG "t: {t1}, "]. vm_compute. reflexivity.
  - reflexivity.
  - apply after_eta.
Defined.

End FurtherExamples.
